(** * Recipe sharing API: ownership checks, slugs, the rating invariant and
      rating aggregation

    A shallow embedding of the Flask handlers of [app/api/v1] together with
    the models and marshmallow schemas they call.  The persistent store is a
    record of tables (lists of rows in insertion order); a handler is a
    function from the store and the request to a response and the store
    after the request.

    The development has two layers.  The first follows the handlers that
    create recipes, categories, ingredients and ratings, and the reads and
    statistics built on them.  The second adds registration, login and the
    profile, the updates, deletions and lists of every resource, the
    validators of [app/utils], and the application as a transition system
    whose steps are the requests that write to the store.

    Conventions.
    - A Python [str] is a [string] read as a sequence of code points below
      256; Python's [int] is [Z]; Python's [float] is a binary64 number,
      held as the rational [Q] it stands for: a division, a product and
      [round] give the binary64 number nearest to the exact result
      ([Py.nearest]).
    - [get_jwt_identity()] returns the token's subject.  Tokens are issued by
      [auth.py] with [identity=str(user.id)], so the identity is a [str].
    - A value bound to an INTEGER column is converted by the store
      ([Db.sql_integer]); a comparison made in Python ([==], [!=]) is not.
    - [bcrypt] and the validator of marshmallow's [fields.Email] are
      parameters of the handlers that call them.
    - [query.paginate] is that of Flask-SQLAlchemy 3 and [ilike] is rendered
      for SQLite, the database of [config.py]; rows come back in the order
      of their insertion where the query gives none. *)

From Stdlib Require Import ZArith QArith Qround Qabs Qpower List String Ascii Bool.
From Stdlib Require SpecFloat.
From Stdlib Require Import Lia Lqa FinFun Permutation Sorted.
From Stdlib Require Import Decimal DecimalString DecimalZ.
Import ListNotations.

Local Open Scope string_scope.
Local Open Scope Z_scope.

(** ** Python values and the string and number primitives the code uses *)

Module Py.

(** The values that reach a comparison or a column in the handlers. *)
Inductive value : Type :=
| PyNone
| PyInt (z : Z)
| PyStr (s : string).

(** Python's [==]: an [int] and a [str] are never equal. *)
Definition eqb (a b : value) : bool :=
  match a, b with
  | PyNone, PyNone => true
  | PyInt x, PyInt y => Z.eqb x y
  | PyStr s, PyStr t => String.eqb s t
  | _, _ => false
  end.

(** Python's [!=]. *)
Definition ne (a b : value) : bool := negb (eqb a b).

(** [str(n)] for an [int]. *)
Definition str (z : Z) : string := NilZero.string_of_int (Z.to_int z).

(** [int(s)] restricted to canonical decimal numerals. *)
Definition int_of_str (s : string) : option Z :=
  option_map Z.of_int (NilZero.int_of_string s).

Definition code (c : ascii) : nat := nat_of_ascii c.

(** [str.isspace] on one code point below 256. *)
Definition isspace (c : ascii) : bool :=
  let n := code c in
  ((9 <=? n) && (n <=? 13) || (28 <=? n) && (n <=? 32)
   || (n =? 133) || (n =? 160))%nat.

(** [str.lower] on one code point below 256. *)
Definition lower_char (c : ascii) : ascii :=
  let n := code c in
  if ((65 <=? n) && (n <=? 90))%nat then ascii_of_nat (n + 32)
  else if ((192 <=? n) && (n <=? 222) && negb (n =? 215))%nat
       then ascii_of_nat (n + 32)
  else c.

Fixpoint map_chars (f : ascii -> ascii) (s : string) : string :=
  match s with
  | EmptyString => EmptyString
  | String c rest => String (f c) (map_chars f rest)
  end.

Fixpoint filter_chars (keep : ascii -> bool) (s : string) : string :=
  match s with
  | EmptyString => EmptyString
  | String c rest =>
      if keep c then String c (filter_chars keep rest)
      else filter_chars keep rest
  end.

(** [s.lower()] *)
Definition lower (s : string) : string := map_chars lower_char s.

(** [s.replace(old, new)] for one-character [old] and [new]. *)
Definition replace (old new : ascii) (s : string) : string :=
  map_chars (fun c => if Ascii.eqb c old then new else c) s.

Definition is_hyphen (c : ascii) : bool := Ascii.eqb c "-"%char.

(** The character class [[a-z0-9-]]. *)
Definition slug_char (c : ascii) : bool :=
  let n := code c in
  ((97 <=? n) && (n <=? 122) || (48 <=? n) && (n <=? 57) || (n =? 45))%nat.

(** [re.sub(r'[^a-z0-9-]', '', s)] *)
Definition sub_non_slug_chars (s : string) : string :=
  filter_chars slug_char s.

(** [re.sub(r'-+', '-', s)] *)
Fixpoint sub_hyphen_runs (s : string) : string :=
  match s with
  | EmptyString => EmptyString
  | String c rest =>
      if is_hyphen c then
        match rest with
        | EmptyString => String c EmptyString
        | String c' _ =>
            if is_hyphen c' then sub_hyphen_runs rest
            else String c (sub_hyphen_runs rest)
        end
      else String c (sub_hyphen_runs rest)
  end.

Fixpoint lstrip (drop : ascii -> bool) (s : string) : string :=
  match s with
  | EmptyString => EmptyString
  | String c rest => if drop c then lstrip drop rest else s
  end.

Fixpoint rstrip (drop : ascii -> bool) (s : string) : string :=
  match s with
  | EmptyString => EmptyString
  | String c rest =>
      match rstrip drop rest with
      | EmptyString => if drop c then EmptyString else String c EmptyString
      | kept => String c kept
      end
  end.

(** [s.strip('-')] *)
Definition strip_hyphens (s : string) : string :=
  rstrip is_hyphen (lstrip is_hyphen s).

(** The integer nearest to [x], a tie going to the even one. *)
Definition round_half_even (x : Q) : Z :=
  let f := Qfloor x in
  match Qcompare (x - inject_Z f) (1 # 2) with
  | Lt => f
  | Gt => f + 1
  | Eq => if Z.even f then f else f + 1
  end.

Definition pow10 (ndigits : nat) : Z := 10 ^ Z.of_nat ndigits.

(** A [float] is a binary64 number, held as the rational it stands for.
    [exponent x] is the exponent of the largest power of two that is at
    most the magnitude of [x]. *)
Definition exponent (x : Q) : Z :=
  let d := Z.log2 (Z.abs (Qnum x)) - Z.log2 (Zpos (Qden x)) in
  if Qle_bool (2 ^ d) (Qabs x) then d else d - 1.

(** The binary64 number nearest to [x], a tie going to the even
    significand of 53 bits: what a correctly rounded operation returns
    whose exact result is [x].  (No number computed by the handlers leaves
    the range of the normal numbers.) *)
Definition nearest (x : Q) : Q :=
  if Qeq_bool x 0 then 0%Q
  else
    let ulp := (2 ^ (exponent x - 52))%Q in
    Qred (inject_Z (round_half_even (x / ulp)) * ulp).

(** [a / b] on two [int]s: the [float] nearest to the quotient. *)
Definition truediv (a b : Z) : Q := nearest (inject_Z a / inject_Z b).

(** [x * n] on a [float] and a small [int]. *)
Definition mul (x : Q) (n : Z) : Q := nearest (x * inject_Z n).

(** [round(x, ndigits)] on a [float]: the decimal of [ndigits] places
    nearest to [x], a tie going to the even digit, and then the [float]
    nearest to that decimal. *)
Definition round (x : Q) (ndigits : nat) : Q :=
  nearest (inject_Z (round_half_even (x * inject_Z (pow10 ndigits)))
           / inject_Z (pow10 ndigits)).

(** Truth value of a number: [if avg]. *)
Definition truthy (x : Q) : bool := negb (Qeq_bool x 0).

End Py.

(** ** Slugs *)

Module Slug.

(** The slug computation written inline in [RecipeListResource.post] and
    [RecipeDetailResource.put]:
    [title.lower().replace(' ', '-')], then the two [re.sub] calls and
    [strip('-')]. *)
Definition derive_slug (title : string) : string :=
  let new_slug := Py.replace " "%char "-"%char (Py.lower title) in
  let new_slug := Py.sub_non_slug_chars new_slug in
  Py.strip_hyphens (Py.sub_hyphen_runs new_slug).

(** [f"{base_slug}-{counter}"] *)
Definition suffixed (base_slug : string) (counter : Z) : string :=
  base_slug ++ "-" ++ Py.str counter.

(** The [while <slug exists>] loop; [fuel] bounds the number of tests of the
    loop condition. *)
Fixpoint unique_loop (fuel : nat) (taken : string -> bool)
    (base_slug new_slug : string) (counter : Z) : option string :=
  match fuel with
  | O => None
  | S fuel' =>
      if taken new_slug
      then unique_loop fuel' taken base_slug (suffixed base_slug counter)
             (counter + 1)
      else Some new_slug
  end.

End Slug.

(** ** Responses ([app/utils/responses.py]) *)

Module Http.

Record response (D : Type) : Type := mk_response {
  success : bool;
  message : string;
  data : option D;
  status_code : Z
}.
Arguments mk_response {D} _ _ _ _.
Arguments success {D} _.
Arguments message {D} _.
Arguments data {D} _.
Arguments status_code {D} _.

Definition success_response {D} (data : option D) (message : string)
    (status_code : Z) : response D :=
  mk_response true message data status_code.

Definition error_response {D} (message : string) (status_code : Z)
    : response D :=
  mk_response false message None status_code.

Definition validation_error_response {D} : response D :=
  error_response "Validation failed" 422.

Definition not_found_response {D} (message : string) : response D :=
  error_response message 404.

Definition unauthorized_response {D} (message : string) : response D :=
  error_response message 401.

Definition forbidden_response {D} (message : string) : response D :=
  error_response message 403.

(** What a request carries in its Authorization header. *)
Inductive credentials : Type :=
| NoToken
| BadToken
| Token (sub : string).

(** [@jwt_required()] followed by [get_jwt_identity()]: the handler body runs
    on the subject of a valid token only.  A request without a token is
    answered 401 and a token that does not decode 422, both by
    flask-jwt-extended. *)
Definition jwt_required {D S} (auth : credentials)
    (fn : Py.value -> S -> response D * S) (db : S) : response D * S :=
  match auth with
  | Token sub => fn (Py.PyStr sub) db
  | NoToken => (unauthorized_response "Missing Authorization Header", db)
  | BadToken => (error_response "Invalid token" 422, db)
  end.

(** [verify_jwt_in_request(optional=True); get_jwt_identity()]: [None] is the
    exception raised on a token that does not verify. *)
Definition optional_jwt_identity (auth : credentials) : option Py.value :=
  match auth with
  | NoToken => Some Py.PyNone
  | BadToken => None
  | Token sub => Some (Py.PyStr sub)
  end.

End Http.

(** ** Models ([app/models]) *)

Module User.
Record t : Type := mk {
  id : Z;
  username : string;
  email : string;
  is_admin : bool
}.
End User.

Module Category.
Record t : Type := mk {
  id : Z;
  name : string;
  slug : string;
  description : option string;
  image : option string
}.

(** [Category._generate_slug] *)
Definition _generate_slug (name : string) : string :=
  Py.replace "_"%char "-"%char (Py.replace " "%char "-"%char (Py.lower name)).

(** [Category.__init__]; the primary key is given by the store. *)
Definition init (pk : Z) (name : string) (description : option string) : t :=
  mk pk name (_generate_slug name) description None.

Definition with_image (c : t) (image : option string) : t :=
  mk (id c) (name c) (slug c) (description c) image.
End Category.

Module Recipe.
Record t : Type := mk {
  id : Z;
  title : string;
  slug : string;
  description : option string;
  prep_time : option Z;
  cook_time : option Z;
  servings : option Z;
  difficulty : option string;
  instructions : string;
  image : option string;
  is_published : bool;
  user_id : Z;
  category_id : Z
}.

(** [Recipe._generate_slug] *)
Definition _generate_slug (title : string) : string :=
  Py.replace "_"%char "-"%char (Py.replace " "%char "-"%char (Py.lower title)).
End Recipe.

Module Ingredient.
Record t : Type := mk {
  id : Z;
  name : string;
  quantity : string;
  unit : option string;
  notes : option string;
  order : Z;
  recipe_id : Z
}.
End Ingredient.

Module Rating.
Record t : Type := mk {
  id : Z;
  score : Z;
  comment : option string;
  user_id : Z;
  recipe_id : Z
}.

Definition with_score (r : t) (score : Z) : t :=
  mk (id r) score (comment r) (user_id r) (recipe_id r).

Definition with_comment (r : t) (comment : option string) : t :=
  mk (id r) (score r) comment (user_id r) (recipe_id r).
End Rating.

(** ** The store *)

Module Db.

Record t : Type := mk {
  users : list User.t;
  categories : list Category.t;
  recipes : list Recipe.t;
  ingredients : list Ingredient.t;
  ratings : list Rating.t
}.

Definition empty : t := mk [] [] [] [] [].

(** The conversion the store applies to a value bound to an INTEGER column
    or compared with one: a numeral given as text is read as its number. *)
Definition sql_integer (v : Py.value) : option Z :=
  match v with
  | Py.PyNone => None
  | Py.PyInt z => Some z
  | Py.PyStr s => Py.int_of_str s
  end.

(** An INTEGER of the store is a signed integer of 64 bits: binding a
    Python [int] outside that range to a statement raises
    [OverflowError]. *)
Definition fits_integer (z : Z) : bool :=
  (- 2 ^ 63 <=? z) && (z <? 2 ^ 63).

(** The next value of an auto-increment primary key. *)
Definition next_id {A} (pk : A -> Z) (rows : list A) : Z :=
  1 + fold_right Z.max 0 (map pk rows).

(** [Model.query.get(ident)] *)
Definition get {A} (pk : A -> Z) (rows : list A) (ident : Py.value)
    : option A :=
  match sql_integer ident with
  | Some k => find (fun row => pk row =? k) rows
  | None => None
  end.

(** [Model.query.get(k)] for a key taken from the URL ([<int:...>]). *)
Definition get_int {A} (pk : A -> Z) (rows : list A) (k : Z) : option A :=
  find (fun row => pk row =? k) rows.

(** Replace the row with the primary key of [row] by [row]. *)
Definition update {A} (pk : A -> Z) (row : A) (rows : list A) : list A :=
  map (fun old => if pk old =? pk row then row else old) rows.

(** Delete the row with primary key [k]. *)
Definition delete {A} (pk : A -> Z) (k : Z) (rows : list A) : list A :=
  filter (fun row => negb (pk row =? k)) rows.

Definition set_ratings (db : t) (rs : list Rating.t) : t :=
  mk (users db) (categories db) (recipes db) (ingredients db) rs.

Definition set_recipes (db : t) (rs : list Recipe.t) : t :=
  mk (users db) (categories db) rs (ingredients db) (ratings db).

Definition set_categories (db : t) (cs : list Category.t) : t :=
  mk (users db) cs (recipes db) (ingredients db) (ratings db).

Definition set_ingredients (db : t) (xs : list Ingredient.t) : t :=
  mk (users db) (categories db) (recipes db) xs (ratings db).

(** [Recipe.ratings]: the ratings whose [recipe_id] is the recipe's. *)
Definition ratings_of (db : t) (recipe_id : Z) : list Rating.t :=
  filter (fun r => Rating.recipe_id r =? recipe_id) (ratings db).

(** [Recipe.ingredients] *)
Definition ingredients_of (db : t) (recipe_id : Z) : list Ingredient.t :=
  filter (fun i => Ingredient.recipe_id i =? recipe_id) (ingredients db).

(** [Category.recipes] *)
Definition recipes_of (db : t) (category_id : Z) : list Recipe.t :=
  filter (fun r => Recipe.category_id r =? category_id) (recipes db).

End Db.

(** ** Authentication ([app/api/v1/auth.py]) *)

Module Auth.

(** [create_access_token(identity=str(user.id))]: the credentials a
    registered or logged-in user presents afterwards. *)
Definition create_access_token (user_id : Z) : Http.credentials :=
  Http.Token (Py.str user_id).

End Auth.

(** ** Ratings ([app/schemas/rating_schema.py], [app/api/v1/ratings.py]) *)

Module RatingSchema.

(** The JSON object of a rating request.  A field is [None] when its key is
    missing; [comment] may be present and null. *)
Record json : Type := mk {
  score : option Z;
  comment : option (option string)
}.

(** [not json_data] for a decoded object: it has no key. *)
Definition is_empty (j : json) : bool :=
  match score j, comment j with
  | None, None => true
  | _, _ => false
  end.

(** [validate.Range(min=1, max=5)] *)
Definition score_in_range (s : Z) : bool := (1 <=? s) && (s <=? 5).

(** [fields.Str(validate=validate.Length(max=500), allow_none=True)] *)
Definition comment_ok (c : option (option string)) : bool :=
  match c with
  | Some (Some text) => (String.length text <=? 500)%nat
  | _ => true
  end.

(** [validated_data.get('comment')] *)
Definition get_comment (j : json) : option string :=
  match comment j with
  | Some c => c
  | None => None
  end.

(** [rating_create_schema.load]: [None] is [ValidationError]; otherwise
    [validated_data['score']] and [validated_data.get('comment')]. *)
Definition load_create (j : json) : option (Z * option string) :=
  match score j with
  | None => None
  | Some s => if score_in_range s && comment_ok (comment j)
              then Some (s, get_comment j)
              else None
  end.

(** [rating_update_schema.load] *)
Definition load_update (j : json) : option json :=
  let score_ok := match score j with
                  | None => true
                  | Some s => score_in_range s
                  end in
  if score_ok && comment_ok (comment j) then Some j else None.

End RatingSchema.

Module Ratings.

Import Http.

(** What [db.session.commit()] does with a pending change. *)
Inductive commit_result : Type :=
| Committed (db : Db.t)
| IntegrityError
| DataError.

(** [Rating.query.filter_by(user_id=..., recipe_id=...).first()] *)
Definition rating_by_user_and_recipe (db : Db.t) (user_id : Py.value)
    (recipe_id : Z) : option Rating.t :=
  match Db.sql_integer user_id with
  | Some uid =>
      find (fun r => (Rating.user_id r =? uid)
                     && (Rating.recipe_id r =? recipe_id)) (Db.ratings db)
  | None => None
  end.

(** [Rating.query.filter_by(id=rating_id, recipe_id=recipe_id).first()] *)
Definition rating_by_id_and_recipe (db : Db.t) (rating_id recipe_id : Z)
    : option Rating.t :=
  find (fun r => (Rating.id r =? rating_id)
                 && (Rating.recipe_id r =? recipe_id)) (Db.ratings db).

(** The [unique_user_recipe_rating] constraint, as the store tests it on an
    insert. *)
Definition violates_unique_user_recipe (db : Db.t) (user_id recipe_id : Z)
    : bool :=
  existsb (fun r => (Rating.user_id r =? user_id)
                    && (Rating.recipe_id r =? recipe_id)) (Db.ratings db).

(** [db.session.add(Rating(...)); db.session.commit()] *)
Definition insert_rating (db : Db.t) (score : Z) (comment : option string)
    (user_id : Py.value) (recipe_id : Z) : commit_result * option Rating.t :=
  match Db.sql_integer user_id with
  | None => (DataError, None)
  | Some uid =>
      if violates_unique_user_recipe db uid recipe_id
      then (IntegrityError, None)
      else
        let row := Rating.mk (Db.next_id Rating.id (Db.ratings db))
                     score comment uid recipe_id in
        (Committed (Db.set_ratings db (Db.ratings db ++ [row])%list),
         Some row)
  end.

(** [RatingListResource.post], the checks reading the store as [db] and the
    commit reaching the store as [db_at_commit]: another request may have
    committed in between. *)
Definition post_between (db db_at_commit : Db.t) (current_user_id : Py.value)
    (recipe_id : Z) (json_data : option RatingSchema.json)
    : response Rating.t * Db.t :=
  match Db.get_int Recipe.id (Db.recipes db) recipe_id with
  | None => (not_found_response "Recipe not found", db_at_commit)
  | Some _ =>
      match rating_by_user_and_recipe db current_user_id recipe_id with
      | Some _ =>
          (error_response
             "You have already rated this recipe. Use PUT to update your rating."
             400, db_at_commit)
      | None =>
          match json_data with
          | None => (error_response "No input data provided" 400, db_at_commit)
          | Some j =>
              if RatingSchema.is_empty j
              then (error_response "No input data provided" 400, db_at_commit)
              else
                match RatingSchema.load_create j with
                | None => (validation_error_response, db_at_commit)
                | Some (score, comment) =>
                    match insert_rating db_at_commit score comment
                            current_user_id recipe_id with
                    | (Committed db', new_rating) =>
                        (success_response new_rating
                           "Rating added successfully" 201, db')
                    | (IntegrityError, _) =>
                        (error_response
                           "You have already rated this recipe" 400,
                         db_at_commit)
                    | (DataError, _) =>
                        (error_response
                           "Error adding rating: invalid input for integer"
                           500, db_at_commit)
                    end
                end
          end
      end
  end.

(** [RatingListResource.post] *)
Definition RatingListResource_post (auth : credentials) (recipe_id : Z)
    (json_data : option RatingSchema.json) (db : Db.t)
    : response Rating.t * Db.t :=
  jwt_required auth
    (fun current_user_id db =>
       post_between db db current_user_id recipe_id json_data) db.

(** [for key, value in validated_data.items(): setattr(rating, key, value)] *)
Definition apply_update (rating : Rating.t) (validated_data : RatingSchema.json)
    : Rating.t :=
  let rating := match RatingSchema.score validated_data with
                | Some s => Rating.with_score rating s
                | None => rating
                end in
  match RatingSchema.comment validated_data with
  | Some c => Rating.with_comment rating c
  | None => rating
  end.

(** [RatingDetailResource.put] *)
Definition RatingDetailResource_put (auth : credentials)
    (recipe_id rating_id : Z) (json_data : option RatingSchema.json)
    (db : Db.t) : response Rating.t * Db.t :=
  jwt_required auth
    (fun current_user_id db =>
       match Db.get_int Recipe.id (Db.recipes db) recipe_id with
       | None => (not_found_response "Recipe not found", db)
       | Some _ =>
           match rating_by_id_and_recipe db rating_id recipe_id with
           | None => (not_found_response "Rating not found", db)
           | Some rating =>
               if Py.ne (Py.PyInt (Rating.user_id rating)) current_user_id
               then (forbidden_response "You can only update your own ratings",
                     db)
               else
                 match json_data with
                 | None => (error_response "No input data provided" 400, db)
                 | Some j =>
                     if RatingSchema.is_empty j
                     then (error_response "No input data provided" 400, db)
                     else
                       match RatingSchema.load_update j with
                       | None => (validation_error_response, db)
                       | Some validated_data =>
                           let rating' := apply_update rating validated_data in
                           (success_response (Some rating')
                              "Rating updated successfully" 200,
                            Db.set_ratings db
                              (Db.update Rating.id rating' (Db.ratings db)))
                       end
                 end
           end
       end) db.

(** [RatingDetailResource.delete] *)
Definition RatingDetailResource_delete (auth : credentials)
    (recipe_id rating_id : Z) (db : Db.t) : response Rating.t * Db.t :=
  jwt_required auth
    (fun current_user_id db =>
       match Db.get_int Recipe.id (Db.recipes db) recipe_id with
       | None => (not_found_response "Recipe not found", db)
       | Some _ =>
           match rating_by_id_and_recipe db rating_id recipe_id with
           | None => (not_found_response "Rating not found", db)
           | Some rating =>
               if Py.ne (Py.PyInt (Rating.user_id rating)) current_user_id
               then (forbidden_response "You can only delete your own ratings",
                     db)
               else
                 (success_response None "Rating deleted successfully" 200,
                  Db.set_ratings db
                    (Db.delete Rating.id (Rating.id rating) (Db.ratings db)))
           end
       end) db.

End Ratings.

(** ** Rating aggregation ([Recipe.average_rating],
       [RecipeResponseSchema.get_average_rating],
       [RecipeRatingStatsResource.get]) *)

Module Stats.

Import Http.

(** [sum([rating.score for rating in ratings])] *)
Definition sum_scores (ratings : list Rating.t) : Z :=
  fold_right Z.add 0 (map Rating.score ratings).

(** [len(ratings)] and [self.ratings.count()] *)
Definition count (ratings : list Rating.t) : Z :=
  Z.of_nat (List.length ratings).

(** [sum / count], Python's true division of two [int]s. *)
Definition mean (ratings : list Rating.t) : Q :=
  Py.truediv (sum_scores ratings) (count ratings).

(** [Recipe.average_rating] *)
Definition Recipe_average_rating (db : Db.t) (self : Recipe.t) : Q :=
  let ratings := Db.ratings_of db (Recipe.id self) in
  if count ratings =? 0 then 0%Q
  else Py.round (mean ratings) 2.

(** [Recipe.total_time] *)
Definition Recipe_total_time (self : Recipe.t) : Z :=
  let total := 0 in
  let total := match Recipe.prep_time self with
               | Some t => if t =? 0 then total else total + t
               | None => total
               end in
  match Recipe.cook_time self with
  | Some t => if t =? 0 then total else total + t
  | None => total
  end.

(** The dictionary [Recipe.to_dict()] builds with its default arguments
    (time stamps left out). *)
Record recipe_dict : Type := mk_recipe_dict {
  d_id : Z;
  d_title : string;
  d_slug : string;
  d_description : option string;
  d_prep_time : option Z;
  d_cook_time : option Z;
  d_total_time : Z;
  d_servings : option Z;
  d_difficulty : option string;
  d_instructions : string;
  d_image : option string;
  d_is_published : bool;
  d_category_id : Z;
  d_average_rating : Q;
  d_rating_count : Z
}.

(** [Recipe.to_dict] *)
Definition Recipe_to_dict (db : Db.t) (self : Recipe.t) : recipe_dict :=
  mk_recipe_dict (Recipe.id self) (Recipe.title self) (Recipe.slug self)
    (Recipe.description self) (Recipe.prep_time self) (Recipe.cook_time self)
    (Recipe_total_time self) (Recipe.servings self) (Recipe.difficulty self)
    (Recipe.instructions self) (Recipe.image self) (Recipe.is_published self)
    (Recipe.category_id self) (Recipe_average_rating db self)
    (count (Db.ratings_of db (Recipe.id self))).

(** [RecipeResponseSchema.get_average_rating]: [None] is JSON null. *)
Definition get_average_rating (db : Db.t) (obj : Recipe.t) : option Q :=
  let avg := Recipe_average_rating db obj in
  if Py.truthy avg then Some (Py.round avg 2) else None.

(** [RecipeResponseSchema.get_rating_count] *)
Definition get_rating_count (db : Db.t) (obj : Recipe.t) : Z :=
  count (Db.ratings_of db (Recipe.id obj)).

(** A value per key ['5_stars'], ..., ['1_star']. *)
Record stars (A : Type) : Type := mk_stars {
  five_stars : A;
  four_stars : A;
  three_stars : A;
  two_stars : A;
  one_star : A
}.
Arguments mk_stars {A} _ _ _ _ _.
Arguments five_stars {A} _.
Arguments four_stars {A} _.
Arguments three_stars {A} _.
Arguments two_stars {A} _.
Arguments one_star {A} _.

(** The value stored under the key of [score]. *)
Definition bucket {A} (d : stars A) (score : Z) : option A :=
  if score =? 5 then Some (five_stars d)
  else if score =? 4 then Some (four_stars d)
  else if score =? 3 then Some (three_stars d)
  else if score =? 2 then Some (two_stars d)
  else if score =? 1 then Some (one_star d)
  else None.

(** [len([r for r in ratings if r.score == s])] *)
Definition count_score (ratings : list Rating.t) (s : Z) : Z :=
  Z.of_nat (List.length (filter (fun r => Rating.score r =? s) ratings)).

(** [round((n / total_ratings) * 100, 1)] *)
Definition percentage (n total_ratings : Z) : Q :=
  Py.round (Py.mul (Py.truediv n total_ratings) 100) 1.

Record data : Type := mk_data {
  recipe_id : Z;
  recipe_title : string;
  total_ratings : Z;
  average_rating : option Q;
  distribution : stars Z;
  distribution_percentages : option (stars Q)
}.

(** [RecipeRatingStatsResource.get]; a [recipe_id] that the store cannot
    bind raises in the first query, which the handler answers with 500. *)
Definition RecipeRatingStatsResource_get (recipe_id : Z) (db : Db.t)
    : response data :=
  if negb (Db.fits_integer recipe_id)
  then error_response "Error retrieving rating statistics" 500
  else
  match Db.get_int Recipe.id (Db.recipes db) recipe_id with
  | None => not_found_response "Recipe not found"
  | Some recipe =>
      let ratings := Db.ratings_of db recipe_id in
      match ratings with
      | [] =>
          success_response
            (Some (mk_data recipe_id (Recipe.title recipe) 0 None
                     (mk_stars 0 0 0 0 0) None))
            "No ratings yet for this recipe" 200
      | _ :: _ =>
          let total_ratings := count ratings in
          let average_rating := mean ratings in
          let distribution :=
            mk_stars (count_score ratings 5) (count_score ratings 4)
              (count_score ratings 3) (count_score ratings 2)
              (count_score ratings 1) in
          let distribution_percentages :=
            mk_stars (percentage (five_stars distribution) total_ratings)
              (percentage (four_stars distribution) total_ratings)
              (percentage (three_stars distribution) total_ratings)
              (percentage (two_stars distribution) total_ratings)
              (percentage (one_star distribution) total_ratings) in
          success_response
            (Some (mk_data recipe_id (Recipe.title recipe) total_ratings
                     (Some (Py.round average_rating 2)) distribution
                     (Some distribution_percentages)))
            "Rating statistics retrieved successfully" 200
      end
  end.

End Stats.

(** ** Recipes ([app/schemas/recipe_schema.py], [app/api/v1/recipes.py]) *)

Module RecipeSchema.

(** The JSON object of a recipe request; an optional field is [None] when
    its key is missing or null. *)
Record json : Type := mk {
  title : option string;
  description : option string;
  instructions : option string;
  prep_time : option Z;
  cook_time : option Z;
  servings : option Z;
  difficulty : option string;
  category_id : option Z;
  image : option string;
  is_published : option bool
}.

Definition is_empty (j : json) : bool :=
  match title j, description j, instructions j, prep_time j, cook_time j with
  | None, None, None, None, None =>
      match servings j, difficulty j, category_id j, image j,
            is_published j with
      | None, None, None, None, None => true
      | _, _, _, _, _ => false
      end
  | _, _, _, _, _ => false
  end.

Fixpoint last_char (s : string) : option ascii :=
  match s with
  | EmptyString => None
  | String c EmptyString => Some c
  | String _ rest => last_char rest
  end.

Fixpoint mentions (c : ascii) (s : string) : bool :=
  match s with
  | EmptyString => false
  | String c' rest => Ascii.eqb c c' || mentions c rest
  end.

Definition newline : ascii := ascii_of_nat 10.

(** A match of [\S.*\S] or of [\S] on the whole of [s]. *)
Definition fullmatch_nonspace_ends (s : string) : bool :=
  match s, last_char s with
  | String first _, Some final =>
      negb (Py.isspace first) && negb (Py.isspace final)
      && negb (mentions newline s)
  | _, _ => false
  end.

Fixpoint drop_last (s : string) : string :=
  match s with
  | EmptyString => EmptyString
  | String _ EmptyString => EmptyString
  | String c rest => String c (drop_last rest)
  end.

(** [validate.Regexp(r'^\S.*\S$|^\S$')], which uses [re.match]: [$] matches
    at the end of the text and before a final newline. *)
Definition title_regexp (s : string) : bool :=
  fullmatch_nonspace_ends s
  || match last_char s with
     | Some c => Ascii.eqb c newline && fullmatch_nonspace_ends (drop_last s)
     | None => false
     end.

Definition title_ok (s : string) : bool :=
  (3 <=? String.length s)%nat && (String.length s <=? 200)%nat
  && title_regexp s.

Definition opt_ok {A} (ok : A -> bool) (v : option A) : bool :=
  match v with
  | Some x => ok x
  | None => true
  end.

Definition difficulty_ok (d : string) : bool :=
  String.eqb d "easy" || String.eqb d "medium" || String.eqb d "hard".

Definition optional_fields_ok (j : json) : bool :=
  opt_ok (fun t => 0 <=? t) (prep_time j)
  && opt_ok (fun t => 0 <=? t) (cook_time j)
  && opt_ok (fun n => 1 <=? n) (servings j)
  && opt_ok difficulty_ok (difficulty j)
  && opt_ok (fun s => (String.length s <=? 255)%nat) (image j).

(** The fields [recipe_create_schema.load] requires, once validated. *)
Record created : Type := mk_created {
  c_title : string;
  c_instructions : string;
  c_category_id : Z;
  c_rest : json
}.

(** [recipe_create_schema.load]: [None] is [ValidationError]. *)
Definition load_create (j : json) : option created :=
  match title j, instructions j, category_id j with
  | Some t, Some i, Some c =>
      if title_ok t && (10 <=? String.length i)%nat && optional_fields_ok j
      then Some (mk_created t i c j)
      else None
  | _, _, _ => None
  end.

(** [RecipeResponseSchema.get_total_time] *)
Definition get_total_time (obj : Recipe.t) : option Z :=
  let truthy t := match t with
                  | Some n => negb (n =? 0)
                  | None => false
                  end in
  if truthy (Recipe.prep_time obj) && truthy (Recipe.cook_time obj)
  then match Recipe.prep_time obj, Recipe.cook_time obj with
       | Some p, Some c => Some (p + c)
       | _, _ => None
       end
  else if truthy (Recipe.prep_time obj) then Recipe.prep_time obj
  else Recipe.cook_time obj.

(** Insertion by the sort key, after the rows with the same key. *)
Fixpoint insert_by_order (x : Ingredient.t) (sorted : list Ingredient.t)
    : list Ingredient.t :=
  match sorted with
  | [] => [x]
  | y :: rest =>
      if Ingredient.order x <? Ingredient.order y then x :: sorted
      else y :: insert_by_order x rest
  end.

(** [obj.ingredients.order_by('order').all()] *)
Definition order_by_order (rows : list Ingredient.t) : list Ingredient.t :=
  fold_left (fun sorted x => insert_by_order x sorted) rows [].

(** What [RecipeDetailResponseSchema.dump] returns (time stamps left out;
    [author] is always null since a recipe has no attribute [user]). *)
Record detail : Type := mk_detail {
  r_recipe : Recipe.t;
  r_total_time : option Z;
  r_ingredient_count : Z;
  r_average_rating : option Q;
  r_rating_count : Z;
  r_category : option (Z * string * string);
  r_ingredients : list Ingredient.t;
  r_ratings : list Rating.t
}.

(** [RecipeResponseSchema.get_category_info] *)
Definition get_category_info (db : Db.t) (obj : Recipe.t)
    : option (Z * string * string) :=
  match Db.get_int Category.id (Db.categories db) (Recipe.category_id obj) with
  | Some c => Some (Category.id c, Category.name c, Category.slug c)
  | None => None
  end.

(** [recipe_detail_response_schema.dump]; ratings come newest first. *)
Definition dump_detail (db : Db.t) (obj : Recipe.t) : detail :=
  mk_detail obj (get_total_time obj)
    (Z.of_nat (List.length (Db.ingredients_of db (Recipe.id obj))))
    (Stats.get_average_rating db obj)
    (Stats.get_rating_count db obj)
    (get_category_info db obj)
    (order_by_order (Db.ingredients_of db (Recipe.id obj)))
    (List.rev (Db.ratings_of db (Recipe.id obj))).

End RecipeSchema.

Module Recipes.

Import Http.

(** [Recipe.query.filter_by(slug=new_slug).first()] as a truth value. *)
Definition slug_taken (db : Db.t) (new_slug : string) : bool :=
  existsb (fun r => String.eqb (Recipe.slug r) new_slug) (Db.recipes db).

(** The loop that makes the slug unique; it tests its condition at most once
    more than there are recipes. *)
Definition ensure_unique (db : Db.t) (base_slug : string) : option string :=
  Slug.unique_loop (S (List.length (Db.recipes db))) (slug_taken db)
    base_slug base_slug 1.

(** [RecipeListResource.post] *)
Definition RecipeListResource_post (auth : credentials)
    (json_data : option RecipeSchema.json) (db : Db.t)
    : response Recipe.t * Db.t :=
  jwt_required auth
    (fun current_user_id db =>
       match json_data with
       | None => (error_response "No input data provided" 400, db)
       | Some j =>
           if RecipeSchema.is_empty j
           then (error_response "No input data provided" 400, db)
           else
             match RecipeSchema.load_create j with
             | None => (validation_error_response, db)
             | Some validated_data =>
                 match Db.get_int Category.id (Db.categories db)
                         (RecipeSchema.c_category_id validated_data) with
                 | None => (not_found_response "Category not found", db)
                 | Some _ =>
                     let title := RecipeSchema.c_title validated_data in
                     let rest := RecipeSchema.c_rest validated_data in
                     match ensure_unique db (Slug.derive_slug title),
                           Db.sql_integer current_user_id with
                     | Some new_slug, Some uid =>
                         let new_recipe :=
                           Recipe.mk (Db.next_id Recipe.id (Db.recipes db))
                             title new_slug (RecipeSchema.description rest)
                             (RecipeSchema.prep_time rest)
                             (RecipeSchema.cook_time rest)
                             (RecipeSchema.servings rest)
                             (RecipeSchema.difficulty rest)
                             (RecipeSchema.c_instructions validated_data)
                             (RecipeSchema.image rest)
                             (match RecipeSchema.is_published rest with
                              | Some b => b
                              | None => false
                              end)
                             uid
                             (RecipeSchema.c_category_id validated_data) in
                         (success_response (Some new_recipe)
                            "Recipe created successfully" 201,
                          Db.set_recipes db
                            (Db.recipes db ++ [new_recipe])%list)
                     | _, _ =>
                         (error_response "Error creating recipe" 500, db)
                     end
                 end
             end
       end) db.

(** [RecipeDetailResource.get] *)
Definition RecipeDetailResource_get (auth : credentials) (recipe_id : Z)
    (db : Db.t) : response RecipeSchema.detail :=
  match Db.get_int Recipe.id (Db.recipes db) recipe_id with
  | None => not_found_response "Recipe not found"
  | Some recipe =>
      let ok := success_response (Some (RecipeSchema.dump_detail db recipe))
                  "Recipe retrieved successfully" 200 in
      let forbidden := forbidden_response "This recipe is not published" in
      if negb (Recipe.is_published recipe) then
        match optional_jwt_identity auth with
        | None => forbidden
        | Some current_user_id =>
            if Py.ne current_user_id (Py.PyInt (Recipe.user_id recipe)) then
              match Db.get User.id (Db.users db) current_user_id with
              | Some user => if User.is_admin user then ok else forbidden
              | None => forbidden
              end
            else ok
        end
      else ok
  end.

(** [RecipeDetailResource.delete]'s effect on the store once the request is
    allowed: the recipe goes, and its ingredients and ratings with it
    ([cascade='all, delete-orphan']). *)
Definition delete_cascade (db : Db.t) (recipe_id : Z) : Db.t :=
  Db.mk (Db.users db) (Db.categories db)
    (Db.delete Recipe.id recipe_id (Db.recipes db))
    (filter (fun i => negb (Ingredient.recipe_id i =? recipe_id))
       (Db.ingredients db))
    (filter (fun r => negb (Rating.recipe_id r =? recipe_id))
       (Db.ratings db)).

End Recipes.

(** ** Categories ([app/schemas/category_schema.py],
       [app/api/v1/categories.py]) *)

Module CategorySchema.

Record json : Type := mk {
  name : option string;
  description : option string;
  image : option string
}.

Definition is_empty (j : json) : bool :=
  match name j, description j, image j with
  | None, None, None => true
  | _, _, _ => false
  end.

Definition length_between (lo hi : nat) (s : string) : bool :=
  ((lo <=? String.length s) && (String.length s <=? hi))%nat.

(** [category_create_schema.load]: the validated name with the object, or
    [None] for [ValidationError]. *)
Definition load_create (j : json) : option (string * json) :=
  match name j with
  | None => None
  | Some n =>
      if length_between 2 50 n
         && RecipeSchema.opt_ok (length_between 0 500) (description j)
         && RecipeSchema.opt_ok (length_between 0 255) (image j)
      then Some (n, j)
      else None
  end.

End CategorySchema.

Module Categories.

Import Http.

(** [not user or not user.is_admin] *)
Definition not_admin (user : option User.t) : bool :=
  match user with
  | Some u => negb (User.is_admin u)
  | None => true
  end.

(** The two [unique=True] columns of [categories], as the store tests them
    on an insert. *)
Definition violates_unique (db : Db.t) (c : Category.t) : bool :=
  existsb (fun old => String.eqb (Category.name old) (Category.name c)
                      || String.eqb (Category.slug old) (Category.slug c))
    (Db.categories db).

(** [CategoryListResource.post] *)
Definition CategoryListResource_post (auth : credentials)
    (data : option CategorySchema.json) (db : Db.t)
    : response Category.t * Db.t :=
  jwt_required auth
    (fun current_user_id db =>
       let user := Db.get User.id (Db.users db) current_user_id in
       if not_admin user
       then (forbidden_response
               "Admin privileges required to create categories", db)
       else
         match data with
         | None => (error_response "No input data provided" 400, db)
         | Some j =>
             if CategorySchema.is_empty j
             then (error_response "No input data provided" 400, db)
             else
               match CategorySchema.load_create j with
               | None => (validation_error_response, db)
               | Some (name, validated_data) =>
                   if existsb (fun c => String.eqb (Category.name c) name)
                        (Db.categories db)
                   then (error_response
                           "Category with this name already exists" 400, db)
                   else
                     let new_category :=
                       Category.init
                         (Db.next_id Category.id (Db.categories db)) name
                         (CategorySchema.description validated_data) in
                     let new_category :=
                       match CategorySchema.image validated_data with
                       | Some i => Category.with_image new_category (Some i)
                       | None => new_category
                       end in
                     if violates_unique db new_category
                     then (error_response
                             "Category with this name already exists" 400, db)
                     else
                       (success_response (Some new_category)
                          "Category created successfully" 201,
                        Db.set_categories db
                          (Db.categories db ++ [new_category])%list)
               end
         end) db.

(** [CategoryDetailResource.delete] *)
Definition CategoryDetailResource_delete (auth : credentials)
    (category_id : Z) (db : Db.t) : response Category.t * Db.t :=
  jwt_required auth
    (fun current_user_id db =>
       let user := Db.get User.id (Db.users db) current_user_id in
       if not_admin user
       then (forbidden_response
               "Admin privileges required to delete categories", db)
       else
         match Db.get_int Category.id (Db.categories db) category_id with
         | None => (not_found_response "Category not found", db)
         | Some category =>
             let recipe_count :=
               Z.of_nat (List.length (Db.recipes_of db (Category.id category)))
             in
             if 0 <? recipe_count
             then (error_response
                     ("Cannot delete category with " ++ Py.str recipe_count
                      ++ " recipe(s). Please reassign or delete recipes first.")
                     400, db)
             else
               (success_response None "Category deleted successfully" 200,
                Db.set_categories db
                  (Db.delete Category.id (Category.id category)
                     (Db.categories db)))
         end) db.

End Categories.

(** ** Ingredients in bulk ([app/schemas/ingredient_schema.py],
       [app/api/v1/ingredients.py]) *)

Module IngredientSchema.

(** One object of the submitted list. *)
Record json : Type := mk {
  id : option Py.value;
  name : option string;
  quantity : option string;
  unit : option string;
  notes : option string;
  order : option Z
}.

(** The decoded body of a bulk request. *)
Inductive body : Type :=
| NoBody                      (* no JSON, or the empty object *)
| NoIngredientsKey            (* an object without the key 'ingredients' *)
| NotAList                    (* 'ingredients' is not a list *)
| Ingredients (items : list json).

(** A dictionary loaded by [IngredientCreateSchema]: [name] and [quantity]
    are there; [v_order] is [None] when the dictionary has no key 'order'. *)
Record validated : Type := mk_validated {
  v_name : string;
  v_quantity : string;
  v_unit : option string;
  v_notes : option string;
  v_order : option Z
}.

(** [order = fields.Int(validate=validate.Range(min=0), load_default=0)]:
    the value loaded for the key 'order'. *)
Definition load_order (submitted : option Z) : option Z :=
  match submitted with
  | Some o => Some o
  | None => Some 0
  end.

(** [IngredientCreateSchema.load] on one item; [None] is
    [ValidationError]. *)
Definition load_item (j : json) : option validated :=
  match id j, name j, quantity j with
  | None, Some n, Some q =>
      if CategorySchema.length_between 1 100 n
         && CategorySchema.length_between 1 50 q
         && RecipeSchema.opt_ok (CategorySchema.length_between 0 20) (unit j)
         && RecipeSchema.opt_ok (fun o => 0 <=? o) (order j)
      then Some (mk_validated n q (unit j) (notes j) (load_order (order j)))
      else None
  | _, _, _ => None
  end.

Fixpoint load_items (items : list json) : option (list validated) :=
  match items with
  | [] => Some []
  | j :: rest =>
      match load_item j, load_items rest with
      | Some v, Some vs => Some (v :: vs)
      | _, _ => None
      end
  end.

(** [ingredient_bulk_create_schema.load]: the list needs 1 to 50 items, each
    valid; [None] is [ValidationError]. *)
Definition load_bulk_create (b : body) : option (list validated) :=
  match b with
  | Ingredients items =>
      if ((1 <=? List.length items) && (List.length items <=? 50))%nat
      then load_items items
      else None
  | _ => None
  end.

End IngredientSchema.

Module Ingredients.

Import Http.

(** The outcome of
    [recipe.user_id != current_user_id and not user.is_admin], which every
    handler of this file repeats after [user = User.query.get(...)]. *)
Inductive permission : Type :=
| Allowed
| Denied
| NoUser.    (* [user] is [None]: [user.is_admin] raises *)

Definition check_permission (db : Db.t) (recipe : Recipe.t)
    (current_user_id : Py.value) : permission :=
  let user := Db.get User.id (Db.users db) current_user_id in
  if Py.ne (Py.PyInt (Recipe.user_id recipe)) current_user_id then
    match user with
    | Some u => if negb (User.is_admin u) then Denied else Allowed
    | None => NoUser
    end
  else Allowed.

(** The [for idx, ingredient_data in enumerate(...)] loop of the bulk
    create: [ingredient_data.get('order', idx)] is the order. *)
Fixpoint build_ingredients (recipe_id : Z) (pk : Z) (idx : Z)
    (validated : list IngredientSchema.validated) : list Ingredient.t :=
  match validated with
  | [] => []
  | ingredient_data :: rest =>
      Ingredient.mk pk (IngredientSchema.v_name ingredient_data)
        (IngredientSchema.v_quantity ingredient_data)
        (IngredientSchema.v_unit ingredient_data)
        (IngredientSchema.v_notes ingredient_data)
        (match IngredientSchema.v_order ingredient_data with
         | Some o => o
         | None => idx
         end)
        recipe_id
      :: build_ingredients recipe_id (pk + 1) (idx + 1) rest
  end.

Record bulk_created : Type := mk_bulk_created {
  bc_recipe_id : Z;
  bc_ingredients : list Ingredient.t;
  total_added : Z
}.

(** [IngredientBulkCreateResource.post] *)
Definition IngredientBulkCreateResource_post (auth : credentials)
    (recipe_id : Z) (json_data : IngredientSchema.body) (db : Db.t)
    : response bulk_created * Db.t :=
  jwt_required auth
    (fun current_user_id db =>
       match Db.get_int Recipe.id (Db.recipes db) recipe_id with
       | None => (not_found_response "Recipe not found", db)
       | Some recipe =>
           match check_permission db recipe current_user_id with
           | NoUser =>
               (error_response
                  "Error adding ingredients: 'NoneType' object has no attribute 'is_admin'"
                  500, db)
           | Denied =>
               (forbidden_response
                  "You don't have permission to add ingredients to this recipe",
                db)
           | Allowed =>
               match json_data with
               | IngredientSchema.NoBody =>
                   (error_response "No input data provided" 400, db)
               | _ =>
                   match IngredientSchema.load_bulk_create json_data with
                   | None => (validation_error_response, db)
                   | Some validated =>
                       let new_ingredients :=
                         build_ingredients recipe_id
                           (Db.next_id Ingredient.id (Db.ingredients db)) 0
                           validated in
                       (success_response
                          (Some (mk_bulk_created recipe_id new_ingredients
                                   (Z.of_nat (List.length new_ingredients))))
                          (Py.str (Z.of_nat (List.length new_ingredients))
                           ++ " ingredients added successfully") 201,
                        Db.set_ingredients db
                          (Db.ingredients db ++ new_ingredients)%list)
                   end
               end
           end
       end) db.

(** [Ingredient.query.filter_by(id=..., recipe_id=recipe_id).first()] *)
Definition ingredient_by_id_and_recipe (rows : list Ingredient.t)
    (ident : Py.value) (recipe_id : Z) : option Ingredient.t :=
  match Db.sql_integer ident with
  | Some k =>
      find (fun i => (Ingredient.id i =? k)
                     && (Ingredient.recipe_id i =? recipe_id)) rows
  | None => None
  end.

(** The assignments guarded by [if 'name' in ingredient_data], ... *)
Definition assign_fields (ingredient : Ingredient.t)
    (ingredient_data : IngredientSchema.json) : Ingredient.t :=
  let pick {A} (new : option A) (old : A) : A :=
    match new with
    | Some v => v
    | None => old
    end in
  Ingredient.mk (Ingredient.id ingredient)
    (pick (IngredientSchema.name ingredient_data) (Ingredient.name ingredient))
    (pick (IngredientSchema.quantity ingredient_data)
       (Ingredient.quantity ingredient))
    (match IngredientSchema.unit ingredient_data with
     | Some u => Some u
     | None => Ingredient.unit ingredient
     end)
    (match IngredientSchema.notes ingredient_data with
     | Some n => Some n
     | None => Ingredient.notes ingredient
     end)
    (pick (IngredientSchema.order ingredient_data)
       (Ingredient.order ingredient))
    (Ingredient.recipe_id ingredient).

(** The [for ingredient_data in ingredients_list] loop of the bulk update:
    the table after the loop and [updated_ingredients], kept as the primary
    keys of the session objects appended. *)
Fixpoint update_loop (recipe_id : Z) (ingredients_list : list IngredientSchema.json)
    (rows : list Ingredient.t) (updated_ingredients : list Z)
    : list Ingredient.t * list Z :=
  match ingredients_list with
  | [] => (rows, updated_ingredients)
  | ingredient_data :: rest =>
      match IngredientSchema.id ingredient_data with
      | None => update_loop recipe_id rest rows updated_ingredients
      | Some ident =>
          match ingredient_by_id_and_recipe rows ident recipe_id with
          | Some ingredient =>
              let ingredient' := assign_fields ingredient ingredient_data in
              update_loop recipe_id rest
                (Db.update Ingredient.id ingredient' rows)
                (updated_ingredients ++ [Ingredient.id ingredient])%list
          | None => update_loop recipe_id rest rows updated_ingredients
          end
      end
  end.

Record bulk_updated : Type := mk_bulk_updated {
  bu_recipe_id : Z;
  bu_ingredients : list Ingredient.t;
  total_updated : Z
}.

(** [ingredients_response_schema.dump(updated_ingredients)]: each session
    object as it is after the loop. *)
Definition dump_updated (rows : list Ingredient.t) (updated : list Z)
    : list Ingredient.t :=
  flat_map (fun k => match Db.get_int Ingredient.id rows k with
                     | Some i => [i]
                     | None => []
                     end) updated.

(** [IngredientBulkUpdateResource.put] *)
Definition IngredientBulkUpdateResource_put (auth : credentials)
    (recipe_id : Z) (json_data : IngredientSchema.body) (db : Db.t)
    : response bulk_updated * Db.t :=
  jwt_required auth
    (fun current_user_id db =>
       match Db.get_int Recipe.id (Db.recipes db) recipe_id with
       | None => (not_found_response "Recipe not found", db)
       | Some recipe =>
           match check_permission db recipe current_user_id with
           | NoUser =>
               (error_response
                  "Error updating ingredients: 'NoneType' object has no attribute 'is_admin'"
                  500, db)
           | Denied =>
               (forbidden_response
                  "You don't have permission to update ingredients for this recipe",
                db)
           | Allowed =>
               match json_data with
               | IngredientSchema.NoBody | IngredientSchema.NoIngredientsKey =>
                   (error_response
                      "No input data provided or missing 'ingredients' field"
                      400, db)
               | IngredientSchema.NotAList | IngredientSchema.Ingredients [] =>
                   (error_response "Ingredients must be a non-empty list" 400,
                    db)
               | IngredientSchema.Ingredients ingredients_list =>
                   let '(rows, updated_ingredients) :=
                     update_loop recipe_id ingredients_list
                       (Db.ingredients db) [] in
                   (success_response
                      (Some (mk_bulk_updated recipe_id
                               (dump_updated rows updated_ingredients)
                               (Z.of_nat (List.length updated_ingredients))))
                      (Py.str (Z.of_nat (List.length updated_ingredients))
                       ++ " ingredients updated successfully") 200,
                    Db.set_ingredients db rows)
               end
           end
       end) db.

End Ingredients.

(** ** Specification-side notions the theorems are stated with *)

Module SlugSpec.

(** [re.sub(r'\s+', '-', s)]: every run of whitespace becomes one hyphen. *)
Fixpoint sub_space_runs (s : string) : string :=
  match s with
  | EmptyString => EmptyString
  | String c rest =>
      if Py.isspace c then
        match rest with
        | EmptyString => String "-"%char EmptyString
        | String c' _ =>
            if Py.isspace c' then sub_space_runs rest
            else String "-"%char (sub_space_runs rest)
        end
      else String c (sub_space_runs rest)
  end.

(** [deriveSlug] as the specification words it: lowercase, replace
    whitespace runs with a single hyphen, strip characters outside
    [[a-z0-9-]], collapse repeated hyphens, trim leading and trailing
    hyphens. *)
Definition deriveSlug (text : string) : string :=
  Py.strip_hyphens
    (Py.sub_hyphen_runs
       (Py.sub_non_slug_chars (sub_space_runs (Py.lower text)))).

Fixpoint all_chars (p : ascii -> bool) (s : string) : bool :=
  match s with
  | EmptyString => true
  | String c rest => p c && all_chars p rest
  end.

(** The only whitespace of [s] is the space character. *)
Definition spaces_only (s : string) : bool :=
  all_chars (fun c => negb (Py.isspace c) || Ascii.eqb c " "%char) s.

Definition first_char (s : string) : option ascii :=
  match s with
  | EmptyString => None
  | String c _ => Some c
  end.

(** The names [ensureUnique] tries, in order: the candidate itself, then the
    candidate with [-1], [-2], ... *)
Definition attempt (candidate : string) (k : nat) : string :=
  match k with
  | O => candidate
  | S _ => Slug.suffixed candidate (Z.of_nat k)
  end.

(** [final] is the first of the attempts that [taken] does not hold of. *)
Definition first_free (taken : string -> bool) (candidate final : string)
    : Prop :=
  exists k : nat,
    final = attempt candidate k
    /\ taken final = false
    /\ forall i : nat, (i < k)%nat -> taken (attempt candidate i) = true.

End SlugSpec.

Module RoundSpec.

(** [y] is [x] rounded to [ndigits] decimals: a whole number of units
    [10^-ndigits], at most half a unit from [x]. *)
Definition rounded_to (ndigits : nat) (x y : Q) : Prop :=
  exists k : Z,
    (y * inject_Z (Py.pow10 ndigits) == inject_Z k)%Q
    /\ (Qabs (inject_Z k - x * inject_Z (Py.pow10 ndigits)) <= 1 # 2)%Q.

(** The binary64 arithmetic of the Standard Library ([SpecFloat], 53 bits
    of precision, exponents below 1024), against which [Py.truediv] and
    [Py.mul] are checked on the samples. *)
Definition of_int (z : Z) : SpecFloat.spec_float :=
  SpecFloat.binary_normalize 53 1024 z 0 false.

Definition value (f : SpecFloat.spec_float) : Q :=
  match f with
  | SpecFloat.S754_finite s m e =>
      Qred ((if s then - (1) else 1) * inject_Z (Zpos m) * 2 ^ e)%Q
  | _ => 0%Q
  end.

Definition div (a b : Z) : Q :=
  value (SpecFloat.SFdiv 53 1024 (of_int a) (of_int b)).

Definition div_mul (a b c : Z) : Q :=
  value (SpecFloat.SFmul 53 1024
           (SpecFloat.SFdiv 53 1024 (of_int a) (of_int b)) (of_int c)).

End RoundSpec.

Module RatingInvariant.

Definition key (r : Rating.t) : Z * Z := (Rating.user_id r, Rating.recipe_id r).

(** At most one rating per (user_id, recipe_id). *)
Definition unique_user_recipe (db : Db.t) : Prop :=
  NoDup (map key (Db.ratings db)).

(** Primary keys of [ratings] are distinct. *)
Definition unique_ids (db : Db.t) : Prop :=
  NoDup (map Rating.id (Db.ratings db)).

(** Both uniqueness properties together: the invariant that the handlers
    keep. *)
Definition well_keyed (db : Db.t) : Prop :=
  unique_ids db /\ unique_user_recipe db.

(** Every stored score is one of 1, ..., 5. *)
Definition scores_valid (ratings : list Rating.t) : Prop :=
  Forall (fun r => 1 <= Rating.score r <= 5) ratings.

(** One request that may write the [ratings] table: the three rating
    handlers, the cascade of a recipe's deletion, and any other request,
    which leaves the table as it is. *)
Inductive step : Db.t -> Db.t -> Prop :=
| step_post auth recipe_id json_data db :
    step db (snd (Ratings.RatingListResource_post auth recipe_id json_data db))
| step_post_racing db0 current_user_id recipe_id json_data db :
    step db (snd (Ratings.post_between db0 db current_user_id recipe_id
                    json_data))
| step_put auth recipe_id rating_id json_data db :
    step db (snd (Ratings.RatingDetailResource_put auth recipe_id rating_id
                    json_data db))
| step_delete auth recipe_id rating_id db :
    step db (snd (Ratings.RatingDetailResource_delete auth recipe_id rating_id
                    db))
| step_recipe_deleted recipe_id db :
    step db (Recipes.delete_cascade db recipe_id)
| step_other db db' :
    Db.ratings db' = Db.ratings db -> step db db'.

(** The stores reached from one without ratings. *)
Inductive reachable : Db.t -> Prop :=
| reachable_init db : Db.ratings db = [] -> reachable db
| reachable_step db db' : reachable db -> step db db' -> reachable db'.

End RatingInvariant.

Module BulkSpec.

(** An entry of the bulk update is matched when it has an 'id' and that id
    is the id of an ingredient of the recipe. *)
Definition matched (recipe_id : Z) (rows : list Ingredient.t)
    (entry : IngredientSchema.json) : bool :=
  match IngredientSchema.id entry with
  | Some ident =>
      match Ingredients.ingredient_by_id_and_recipe rows ident recipe_id with
      | Some _ => true
      | None => false
      end
  | None => false
  end.

End BulkSpec.

(** ** Sample data for the closed statements *)

Module Sample.

Definition alice : User.t := User.mk 1 "alice" "alice@example.org" false.
Definition bob : User.t := User.mk 2 "bob" "bob@example.org" false.
Definition root : User.t := User.mk 3 "root" "root@example.org" true.

Definition mains : Category.t := Category.init 1 "Main Dishes" None.

(** An unpublished recipe of alice. *)
Definition draft : Recipe.t :=
  Recipe.mk 1 "Spicy Chicken" "spicy-chicken" None None None None None
    "Fry the chicken, then add the spices." None false 1 1.

Definition salt : Ingredient.t := Ingredient.mk 1 "salt" "1" None None 0 1.

(** bob's rating of the draft. *)
Definition four_stars_by_bob : Rating.t := Rating.mk 1 4 None 2 1.

Definition db_unrated : Db.t :=
  Db.mk [alice; bob; root] [mains] [draft] [salt] [].

Definition db_rated : Db.t :=
  Db.mk [alice; bob; root] [mains] [draft] [salt] [four_stars_by_bob].

(** Ratings 1, 2 and 3 on the draft. *)
Definition db_three_ratings : Db.t :=
  Db.mk [alice; bob; root] [mains] [draft] [salt]
    [Rating.mk 1 1 None 1 1; Rating.mk 2 2 None 2 1; Rating.mk 3 3 None 3 1].

Definition token_of (u : User.t) : Http.credentials :=
  Auth.create_access_token (User.id u).

(** The store after the user [user_id] has posted [score] on the draft. *)
Definition rate (db : Db.t) (user_id score : Z) : Db.t :=
  snd (Ratings.RatingListResource_post (Auth.create_access_token user_id) 1
         (Some (RatingSchema.mk (Some score) None)) db).

(** The store after the users 1, 2, ... have posted [scores] on the draft,
    one each. *)
Definition rated (scores : list Z) : Db.t :=
  fold_left (fun db us => rate db (fst us) (snd us))
    (combine (map Z.of_nat (seq 1 (List.length scores))) scores) db_unrated.

(** 40 ratings that add up to 43. *)
Definition db_forty_ratings : Db.t := rated (4 :: repeat 1 39%nat).

(** 80 ratings, 23 of them with 5. *)
Definition db_eighty_ratings : Db.t :=
  rated (repeat 5 23%nat ++ repeat 1 57%nat).

Definition tab : ascii := ascii_of_nat 9.

(** The title [a<TAB>b]. *)
Definition tab_title : string := String "a" (String tab "b").

Definition recipe_json (title : string) : RecipeSchema.json :=
  RecipeSchema.mk (Some title) None
    (Some "Fry the chicken, then add the spices.") None None None None
    (Some 1) None None.

Definition item (name : string) : IngredientSchema.json :=
  IngredientSchema.mk None (Some name) (Some "1") None None None.

End Sample.

(** ** Queries the list handlers build *)

Module Sql.

(** SQLite's [lower()]: the 26 letters A-Z only. *)
Definition lower_char (c : ascii) : ascii :=
  let n := Py.code c in
  if ((65 <=? n) && (n <=? 90))%nat then ascii_of_nat (n + 32) else c.

Definition lower (s : string) : string := Py.map_chars lower_char s.

(** [value LIKE pattern]: [%] stands for any run of characters, [_] for
    any one character, every other character for itself. *)
Fixpoint like (pattern : string) : string -> bool :=
  match pattern with
  | EmptyString =>
      fun value => match value with
                   | EmptyString => true
                   | String _ _ => false
                   end
  | String p rest =>
      if Ascii.eqb p "%" then
        fix any (value : string) : bool :=
          like rest value
          || match value with
             | EmptyString => false
             | String _ value' => any value'
             end
      else if Ascii.eqb p "_" then
        fun value => match value with
                     | EmptyString => false
                     | String _ value' => like rest value'
                     end
      else
        fun value => match value with
                     | EmptyString => false
                     | String c value' => Ascii.eqb c p && like rest value'
                     end
  end.

(** [column.ilike(f'%{text}%')], rendered for SQLite as
    [lower(column) LIKE lower('%' || text || '%')]. *)
Definition ilike_contains (column text : string) : bool :=
  like (lower ("%" ++ text ++ "%")) (lower column).

(** What [query.paginate(page=page, per_page=per_page, error_out=False)]
    of Flask-SQLAlchemy 3 returns. *)
Record pagination (A : Type) : Type := mk_pagination {
  items : list A;
  page : Z;
  per_page : Z;
  total : Z
}.
Arguments mk_pagination {A} _ _ _ _.
Arguments items {A} _.
Arguments page {A} _.
Arguments per_page {A} _.
Arguments total {A} _.

(** [Pagination.pages], [has_prev] and [has_next] *)
Definition pages {A} (p : pagination A) : Z :=
  if total p =? 0 then 0 else (total p + per_page p - 1) / per_page p.

Definition has_prev {A} (p : pagination A) : bool := 1 <? page p.

Definition has_next {A} (p : pagination A) : bool := page p <? pages p.

(** The OFFSET of the statement that [paginate] executes: a page below 1
    is page 1, a page size below 1 is 20. *)
Definition offset (page per_page : Z) : Z :=
  let page := if page <? 1 then 1 else page in
  let per_page := if per_page <? 1 then 20 else per_page in
  (page - 1) * per_page.

(** A page below 1 is page 1, a page size below 1 is 20; the items are
    that slice of the query's rows, the total is their number.  This is
    what [paginate] returns when the store can bind its [offset]. *)
Definition paginate {A} (page per_page : Z) (rows : list A) : pagination A :=
  let page := if page <? 1 then 1 else page in
  let per_page := if per_page <? 1 then 20 else per_page in
  mk_pagination
    (firstn (Z.to_nat per_page) (skipn (Z.to_nat ((page - 1) * per_page)) rows))
    page per_page (Z.of_nat (List.length rows)).

End Sql.

(** ** Recipes: update, delete and the list handlers
       ([app/api/v1/recipes.py]) *)

Module RecipeUpdate.

(** The JSON object of a recipe update.  A key is missing ([None]) or
    present; a field with [allow_none=True] may be present and null. *)
Record json : Type := mk {
  title : option string;
  description : option (option string);
  instructions : option string;
  prep_time : option (option Z);
  cook_time : option (option Z);
  servings : option (option Z);
  difficulty : option (option string);
  category_id : option Z;
  image : option (option string);
  is_published : option bool
}.

Definition is_empty (j : json) : bool :=
  match title j, description j, instructions j, prep_time j, cook_time j with
  | None, None, None, None, None =>
      match servings j, difficulty j, category_id j, image j,
            is_published j with
      | None, None, None, None, None => true
      | _, _, _, _, _ => false
      end
  | _, _, _, _, _ => false
  end.

(** A validator on a field that may be missing or null. *)
Definition nullable_ok {A} (ok : A -> bool) (v : option (option A)) : bool :=
  match v with
  | Some (Some x) => ok x
  | _ => true
  end.

(** [recipe_update_schema.load]: [None] is [ValidationError]. *)
Definition load (j : json) : option json :=
  if RecipeSchema.opt_ok RecipeSchema.title_ok (title j)
     && RecipeSchema.opt_ok (fun i => (10 <=? String.length i)%nat)
          (instructions j)
     && nullable_ok (fun t => 0 <=? t) (prep_time j)
     && nullable_ok (fun t => 0 <=? t) (cook_time j)
     && nullable_ok (fun n => 1 <=? n) (servings j)
     && nullable_ok RecipeSchema.difficulty_ok (difficulty j)
     && nullable_ok (fun s => (String.length s <=? 255)%nat) (image j)
  then Some j
  else None.

(** Whether the store can bind a field that may be missing or null. *)
Definition fits (v : option (option Z)) : bool :=
  match v with
  | Some (Some z) => Db.fits_integer z
  | _ => true
  end.

(** Whether the UPDATE of the commit can bind the numbers of the body. *)
Definition integers_fit (validated_data : json) : bool :=
  fits (prep_time validated_data) && fits (cook_time validated_data)
  && fits (servings validated_data).

Definition pick {A} (new : option A) (old : A) : A :=
  match new with
  | Some v => v
  | None => old
  end.

(** [for key, value in validated_data.items(): setattr(recipe, key, value)]
    on a recipe whose slug is already [slug]. *)
Definition setattrs (recipe : Recipe.t) (slug : string) (validated_data : json)
    : Recipe.t :=
  Recipe.mk (Recipe.id recipe)
    (pick (title validated_data) (Recipe.title recipe))
    slug
    (pick (description validated_data) (Recipe.description recipe))
    (pick (prep_time validated_data) (Recipe.prep_time recipe))
    (pick (cook_time validated_data) (Recipe.cook_time recipe))
    (pick (servings validated_data) (Recipe.servings recipe))
    (pick (difficulty validated_data) (Recipe.difficulty recipe))
    (pick (instructions validated_data) (Recipe.instructions recipe))
    (pick (image validated_data) (Recipe.image recipe))
    (pick (is_published validated_data) (Recipe.is_published recipe))
    (Recipe.user_id recipe)
    (pick (category_id validated_data) (Recipe.category_id recipe)).

End RecipeUpdate.

Module RecipeApi.

Import Http.

(** [Recipe.query.filter(Recipe.slug == new_slug, Recipe.id != recipe_id)
    .first()] as a truth value. *)
Definition slug_taken_by_other (db : Db.t) (recipe_id : Z) (new_slug : string)
    : bool :=
  existsb (fun r => String.eqb (Recipe.slug r) new_slug
                    && negb (Recipe.id r =? recipe_id)) (Db.recipes db).

(** The slug loop of the update; it tests its condition at most once more
    than there are recipes. *)
Definition ensure_unique_among_others (db : Db.t) (recipe_id : Z)
    (base_slug : string) : option string :=
  Slug.unique_loop (S (List.length (Db.recipes db)))
    (slug_taken_by_other db recipe_id) base_slug base_slug 1.

(** The slug after the block
    [if 'title' in validated_data and validated_data['title'] != recipe.title]. *)
Definition slug_after_update (db : Db.t) (recipe : Recipe.t)
    (validated_data : RecipeUpdate.json) : option string :=
  match RecipeUpdate.title validated_data with
  | Some new_title =>
      if negb (String.eqb new_title (Recipe.title recipe))
      then ensure_unique_among_others db (Recipe.id recipe)
             (Slug.derive_slug new_title)
      else Some (Recipe.slug recipe)
  | None => Some (Recipe.slug recipe)
  end.

(** The answer of the [except Exception] branch of
    [RecipeDetailResource.put] to the [OverflowError] of a number that the
    store cannot bind; the rollback leaves the store as it was. *)
Definition put_overflow (db : Db.t) : response Recipe.t * Db.t :=
  (error_response
     "Error updating recipe: Python int too large to convert to SQLite INTEGER"
     500, db).

(** [RecipeDetailResource.put] *)
Definition RecipeDetailResource_put (auth : credentials) (recipe_id : Z)
    (json_data : option RecipeUpdate.json) (db : Db.t)
    : response Recipe.t * Db.t :=
  jwt_required auth
    (fun current_user_id db =>
       if negb (Db.fits_integer recipe_id) then put_overflow db else
       match Db.get_int Recipe.id (Db.recipes db) recipe_id with
       | None => (not_found_response "Recipe not found", db)
       | Some recipe =>
           match Ingredients.check_permission db recipe current_user_id with
           | Ingredients.NoUser =>
               (error_response
                  "Error updating recipe: 'NoneType' object has no attribute 'is_admin'"
                  500, db)
           | Ingredients.Denied =>
               (forbidden_response
                  "You don't have permission to update this recipe", db)
           | Ingredients.Allowed =>
               match json_data with
               | None => (error_response "No input data provided" 400, db)
               | Some j =>
                   if RecipeUpdate.is_empty j
                   then (error_response "No input data provided" 400, db)
                   else
                     match RecipeUpdate.load j with
                     | None => (validation_error_response, db)
                     | Some validated_data =>
                         if negb (RecipeSchema.opt_ok Db.fits_integer
                                    (RecipeUpdate.category_id validated_data))
                         then put_overflow db
                         else
                         let category_known :=
                           match RecipeUpdate.category_id validated_data with
                           | Some c =>
                               match Db.get_int Category.id (Db.categories db)
                                       c with
                               | Some _ => true
                               | None => false
                               end
                           | None => true
                           end in
                         if negb category_known
                         then (not_found_response "Category not found", db)
                         else
                           match slug_after_update db recipe validated_data
                           with
                           | None =>
                               (error_response "Error updating recipe" 500, db)
                           | Some slug =>
                               let recipe' :=
                                 RecipeUpdate.setattrs recipe slug
                                   validated_data in
                               if negb (RecipeUpdate.integers_fit
                                          validated_data)
                               then put_overflow db
                               else
                               (success_response (Some recipe')
                                  "Recipe updated successfully" 200,
                                Db.set_recipes db
                                  (Db.update Recipe.id recipe'
                                     (Db.recipes db)))
                           end
                     end
               end
           end
       end) db.

(** [RecipeDetailResource.delete] *)
Definition RecipeDetailResource_delete (auth : credentials) (recipe_id : Z)
    (db : Db.t) : response Recipe.t * Db.t :=
  jwt_required auth
    (fun current_user_id db =>
       match Db.get_int Recipe.id (Db.recipes db) recipe_id with
       | None => (not_found_response "Recipe not found", db)
       | Some recipe =>
           match Ingredients.check_permission db recipe current_user_id with
           | Ingredients.NoUser =>
               (error_response
                  "Error deleting recipe: 'NoneType' object has no attribute 'is_admin'"
                  500, db)
           | Ingredients.Denied =>
               (forbidden_response
                  "You don't have permission to delete this recipe", db)
           | Ingredients.Allowed =>
               (success_response None "Recipe deleted successfully" 200,
                Recipes.delete_cascade db (Recipe.id recipe))
           end
       end) db.

(** The query string of the list handlers; a key that is missing, or that
    does not convert to its type, is [None]. *)
Record args : Type := mk_args {
  page : Z;
  per_page : Z;
  category_id : option Z;
  difficulty : option string;
  user_id : option Z;
  is_published : option string;
  search : option string
}.

(** [if value:] on an optional number. *)
Definition nonzero (v : option Z) : option Z :=
  match v with
  | Some n => if n =? 0 then None else Some n
  | None => None
  end.

(** [if value:] on an optional text. *)
Definition nonempty (v : option string) : option string :=
  match v with
  | Some EmptyString => None
  | other => other
  end.

Definition one_of (words : list string) (s : string) : bool :=
  existsb (String.eqb s) words.

(** The published filter of [RecipeListResource.get] and
    [RecipesByUserResource.get]: the test [filter_by(is_published=...)]
    adds to the query, or none. *)
Definition published_filter (is_published : option string)
    : Recipe.t -> bool :=
  match nonempty is_published with
  | Some word =>
      if one_of ["true"; "1"; "yes"] (Py.lower word)
      then fun r => Recipe.is_published r
      else if one_of ["false"; "0"; "no"] (Py.lower word)
      then fun r => negb (Recipe.is_published r)
      else fun _ => true
  | None => fun r => Recipe.is_published r
  end.

Definition difficulty_filter (difficulty : option string)
    : Recipe.t -> bool :=
  match nonempty difficulty with
  | Some d =>
      if one_of ["easy"; "medium"; "hard"] d
      then fun r => match Recipe.difficulty r with
                    | Some d' => String.eqb d' d
                    | None => false
                    end
      else fun _ => true
  | None => fun _ => true
  end.

Definition search_filter (search : option string) : Recipe.t -> bool :=
  match nonempty search with
  | Some text => fun r => Sql.ilike_contains (Recipe.title r) text
  | None => fun _ => true
  end.

Definition equals_filter (column : Recipe.t -> Z) (v : option Z)
    : Recipe.t -> bool :=
  match nonzero v with
  | Some k => fun r => column r =? k
  | None => fun _ => true
  end.

(** [order_by(Recipe.created_at.desc())] followed by [paginate] with
    [per_page = min(per_page, 100)]: rows are stored in the order of their
    creation. *)
Definition newest_first_page (a : args) (rows : list Recipe.t)
    : Sql.pagination Recipe.t :=
  Sql.paginate (page a) (Z.min (per_page a) 100) (List.rev rows).

(** The rows of the query of [RecipeListResource.get]. *)
Definition list_query (a : args) (db : Db.t) : list Recipe.t :=
  filter (search_filter (search a))
    (filter (published_filter (is_published a))
       (filter (equals_filter Recipe.user_id (user_id a))
          (filter (difficulty_filter (difficulty a))
             (filter (equals_filter Recipe.category_id (category_id a))
                (Db.recipes db))))).

(** [RecipeListResource.get] *)
Definition RecipeListResource_get (a : args) (db : Db.t)
    : response (Sql.pagination Recipe.t) :=
  success_response (Some (newest_first_page a (list_query a db)))
    "Recipes retrieved successfully" 200.

(** What [RecipesByUserResource.get] answers: the dictionary under 'user'
    and the page. *)
Record by_user : Type := mk_by_user {
  u_id : Z;
  u_username : string;
  u_email : string;
  u_recipes : Sql.pagination Recipe.t
}.

(** [RecipesByUserResource.get]; a [user_id] or an OFFSET that the store
    cannot bind raises [OverflowError], which the handler answers with
    500. *)
Definition RecipesByUserResource_get (user_id : Z) (a : args) (db : Db.t)
    : response by_user :=
  if negb (Db.fits_integer user_id)
  then error_response
         "Error retrieving user recipes: Python int too large to convert to SQLite INTEGER"
         500
  else
  match Db.get_int User.id (Db.users db) user_id with
  | None => not_found_response "User not found"
  | Some user =>
      if negb (Db.fits_integer
                 (Sql.offset (page a) (Z.min (per_page a) 100)))
      then error_response
             "Error retrieving user recipes: Python int too large to convert to SQLite INTEGER"
             500
      else
      success_response
        (Some (mk_by_user (User.id user) (User.username user)
                 (User.email user)
                 (newest_first_page a
                    (filter (published_filter (is_published a))
                       (filter (fun r => Recipe.user_id r =? user_id)
                          (Db.recipes db))))))
        ("Recipes by " ++ User.username user ++ " retrieved successfully") 200
  end.

(** What [RecipesByCategoryResource.get] answers: the dictionary under
    'category' and the page. *)
Record by_category : Type := mk_by_category {
  c_id : Z;
  c_name : string;
  c_slug : string;
  c_description : option string;
  c_recipes : Sql.pagination Recipe.t
}.

(** [RecipesByCategoryResource.get] *)
Definition RecipesByCategoryResource_get (category_id : Z) (a : args)
    (db : Db.t) : response by_category :=
  match Db.get_int Category.id (Db.categories db) category_id with
  | None => not_found_response "Category not found"
  | Some category =>
      success_response
        (Some (mk_by_category (Category.id category) (Category.name category)
                 (Category.slug category) (Category.description category)
                 (newest_first_page a
                    (filter (search_filter (search a))
                       (filter (difficulty_filter (difficulty a))
                          (filter (fun r =>
                                     (Recipe.category_id r =? category_id)
                                     && Recipe.is_published r)
                             (Db.recipes db)))))))
        ("Recipes in category '" ++ Category.name category
         ++ "' retrieved successfully") 200
  end.

End RecipeApi.

(** ** Categories: read, update, list and search
       ([app/api/v1/categories.py]) *)

Module CategoryApi.

Import Http.

(** [category_update_schema.load]: [None] is [ValidationError]. *)
Definition load_update (j : CategorySchema.json) : option CategorySchema.json :=
  if RecipeSchema.opt_ok (CategorySchema.length_between 2 50)
       (CategorySchema.name j)
     && RecipeSchema.opt_ok (CategorySchema.length_between 0 500)
          (CategorySchema.description j)
     && RecipeSchema.opt_ok (CategorySchema.length_between 0 255)
          (CategorySchema.image j)
  then Some j
  else None.

(** [CategoryDetailResource.get] *)
Definition CategoryDetailResource_get (category_id : Z) (db : Db.t)
    : response Category.t :=
  match Db.get_int Category.id (Db.categories db) category_id with
  | None => not_found_response "Category not found"
  | Some category =>
      success_response (Some category) "Category retrieved successfully" 200
  end.

(** The assignments of the update, in the order of the handler. *)
Definition assign (category : Category.t) (validated_data : CategorySchema.json)
    : Category.t :=
  let category :=
    match CategorySchema.name validated_data with
    | Some n =>
        Category.mk (Category.id category) n (Category._generate_slug n)
          (Category.description category) (Category.image category)
    | None => category
    end in
  let category :=
    match CategorySchema.description validated_data with
    | Some d =>
        Category.mk (Category.id category) (Category.name category)
          (Category.slug category) (Some d) (Category.image category)
    | None => category
    end in
  match CategorySchema.image validated_data with
  | Some i => Category.with_image category (Some i)
  | None => category
  end.

(** The two [unique=True] columns, as the store tests them when the row
    [c] is updated. *)
Definition violates_unique_on_update (db : Db.t) (c : Category.t) : bool :=
  existsb (fun other => negb (Category.id other =? Category.id c)
                        && (String.eqb (Category.name other) (Category.name c)
                            || String.eqb (Category.slug other)
                                 (Category.slug c)))
    (Db.categories db).

(** [CategoryDetailResource.put] *)
Definition CategoryDetailResource_put (auth : credentials) (category_id : Z)
    (data : option CategorySchema.json) (db : Db.t)
    : response Category.t * Db.t :=
  jwt_required auth
    (fun current_user_id db =>
       let user := Db.get User.id (Db.users db) current_user_id in
       if Categories.not_admin user
       then (forbidden_response
               "Admin privileges required to update categories", db)
       else
         match Db.get_int Category.id (Db.categories db) category_id with
         | None => (not_found_response "Category not found", db)
         | Some category =>
             match data with
             | None => (error_response "No input data provided" 400, db)
             | Some j =>
                 if CategorySchema.is_empty j
                 then (error_response "No input data provided" 400, db)
                 else
                   match load_update j with
                   | None => (validation_error_response, db)
                   | Some validated_data =>
                       let name_in_use :=
                         match CategorySchema.name validated_data with
                         | Some n =>
                             existsb
                               (fun c => String.eqb (Category.name c) n
                                         && negb (Category.id c =? category_id))
                               (Db.categories db)
                         | None => false
                         end in
                       if name_in_use
                       then (error_response
                               "Another category with this name already exists"
                               400, db)
                       else
                         let category' := assign category validated_data in
                         if violates_unique_on_update db category'
                         then (error_response
                                 "Category with this name already exists" 400,
                               db)
                         else
                           (success_response (Some category')
                              "Category updated successfully" 200,
                            Db.set_categories db
                              (Db.update Category.id category'
                                 (Db.categories db)))
                   end
             end
         end) db.

(** The two corrections [if page < 1] and
    [if per_page < 1 or per_page > 100]. *)
Definition clamp_page (page : Z) : Z := if page <? 1 then 1 else page.

Definition clamp_per_page (per_page : Z) : Z :=
  if (per_page <? 1) || (100 <? per_page) then 10 else per_page.

Definition page_of (page per_page : Z) (rows : list Category.t)
    : Sql.pagination Category.t :=
  Sql.paginate (clamp_page page) (clamp_per_page per_page) rows.

(** [CategoryListResource.get] *)
Definition CategoryListResource_get (page per_page : Z) (db : Db.t)
    : response (Sql.pagination Category.t) :=
  success_response (Some (page_of page per_page (Db.categories db)))
    "Categories retrieved successfully" 200.

(** [str.strip()]: whitespace removed at both ends. *)
Definition strip (s : string) : string :=
  Py.rstrip Py.isspace (Py.lstrip Py.isspace s).

(** What [CategorySearchResource.get] answers. *)
Record found : Type := mk_found {
  categories : Sql.pagination Category.t;
  search_query : string
}.

(** [CategorySearchResource.get]; [q] is [request.args.get('q', '')]. *)
Definition CategorySearchResource_get (q : string) (page per_page : Z)
    (db : Db.t) : response found :=
  let search_query := strip q in
  match search_query with
  | EmptyString =>
      error_response "Search query parameter 'q' is required" 400
  | _ =>
      let rows := filter (fun c => Sql.ilike_contains (Category.name c)
                                     search_query) (Db.categories db) in
      success_response (Some (mk_found (page_of page per_page rows)
                                search_query))
        ("Found " ++ Py.str (Z.of_nat (List.length rows)) ++ " category(ies)")
        200
  end.

End CategoryApi.

(** ** Ingredients one at a time ([app/api/v1/ingredients.py]) *)

Module IngredientUpdate.

(** The JSON object of an ingredient update; [unit] and [notes] may be
    present and null. *)
Record json : Type := mk {
  name : option string;
  quantity : option string;
  unit : option (option string);
  notes : option (option string);
  order : option Z
}.

Definition is_empty (j : json) : bool :=
  match name j, quantity j, unit j, notes j, order j with
  | None, None, None, None, None => true
  | _, _, _, _, _ => false
  end.

(** [ingredient_update_schema.load]: [None] is [ValidationError]. *)
Definition load (j : json) : option json :=
  if RecipeSchema.opt_ok (CategorySchema.length_between 1 100) (name j)
     && RecipeSchema.opt_ok (CategorySchema.length_between 1 50) (quantity j)
     && RecipeUpdate.nullable_ok (CategorySchema.length_between 0 20) (unit j)
     && RecipeSchema.opt_ok (fun o => 0 <=? o) (order j)
  then Some j
  else None.

(** The assignments guarded by [if 'name' in validated_data], ... *)
Definition assign (ingredient : Ingredient.t) (validated_data : json)
    : Ingredient.t :=
  Ingredient.mk (Ingredient.id ingredient)
    (RecipeUpdate.pick (name validated_data) (Ingredient.name ingredient))
    (RecipeUpdate.pick (quantity validated_data)
       (Ingredient.quantity ingredient))
    (RecipeUpdate.pick (unit validated_data) (Ingredient.unit ingredient))
    (RecipeUpdate.pick (notes validated_data) (Ingredient.notes ingredient))
    (RecipeUpdate.pick (order validated_data) (Ingredient.order ingredient))
    (Ingredient.recipe_id ingredient).

End IngredientUpdate.

Module IngredientApi.

Import Http.

Record listing : Type := mk_listing {
  recipe_id : Z;
  recipe_title : string;
  ingredients : list Ingredient.t;
  total_ingredients : Z
}.

(** [IngredientListResource.get] *)
Definition IngredientListResource_get (recipe_id : Z) (db : Db.t)
    : response listing :=
  match Db.get_int Recipe.id (Db.recipes db) recipe_id with
  | None => not_found_response "Recipe not found"
  | Some recipe =>
      let ingredients :=
        RecipeSchema.order_by_order (Db.ingredients_of db recipe_id) in
      success_response
        (Some (mk_listing recipe_id (Recipe.title recipe) ingredients
                 (Z.of_nat (List.length ingredients))))
        "Ingredients retrieved successfully" 200
  end.

(** [not data] on the object of a create request. *)
Definition is_empty (j : IngredientSchema.json) : bool :=
  match IngredientSchema.id j, IngredientSchema.name j,
        IngredientSchema.quantity j with
  | None, None, None =>
      match IngredientSchema.unit j, IngredientSchema.notes j,
            IngredientSchema.order j with
      | None, None, None => true
      | _, _, _ => false
      end
  | _, _, _ => false
  end.

(** [IngredientListResource.post] *)
Definition IngredientListResource_post (auth : credentials) (recipe_id : Z)
    (data : option IngredientSchema.json) (db : Db.t)
    : response Ingredient.t * Db.t :=
  jwt_required auth
    (fun current_user_id db =>
       match Db.get_int Recipe.id (Db.recipes db) recipe_id with
       | None => (not_found_response "Recipe not found", db)
       | Some recipe =>
           match Ingredients.check_permission db recipe current_user_id with
           | Ingredients.NoUser =>
               (error_response
                  "Error adding ingredient: 'NoneType' object has no attribute 'is_admin'"
                  500, db)
           | Ingredients.Denied =>
               (forbidden_response
                  "You don't have permission to add ingredients to this recipe",
                db)
           | Ingredients.Allowed =>
               match data with
               | None => (error_response "No input data provided" 400, db)
               | Some j =>
                   if is_empty j
                   then (error_response "No input data provided" 400, db)
                   else
                     match IngredientSchema.load_item j with
                     | None => (validation_error_response, db)
                     | Some validated_data =>
                         let new_ingredient :=
                           Ingredient.mk
                             (Db.next_id Ingredient.id (Db.ingredients db))
                             (IngredientSchema.v_name validated_data)
                             (IngredientSchema.v_quantity validated_data)
                             (IngredientSchema.v_unit validated_data)
                             (IngredientSchema.v_notes validated_data)
                             (match IngredientSchema.v_order validated_data
                              with
                              | Some o => o
                              | None => 0
                              end)
                             recipe_id in
                         (success_response (Some new_ingredient)
                            "Ingredient added successfully" 201,
                          Db.set_ingredients db
                            (Db.ingredients db ++ [new_ingredient])%list)
                     end
               end
           end
       end) db.

(** [Ingredient.query.filter_by(id=ingredient_id, recipe_id=recipe_id)
    .first()] *)
Definition ingredient_of_recipe (db : Db.t) (ingredient_id recipe_id : Z)
    : option Ingredient.t :=
  find (fun i => (Ingredient.id i =? ingredient_id)
                 && (Ingredient.recipe_id i =? recipe_id)) (Db.ingredients db).

(** [IngredientDetailResource.get] *)
Definition IngredientDetailResource_get (recipe_id ingredient_id : Z)
    (db : Db.t) : response Ingredient.t :=
  match Db.get_int Recipe.id (Db.recipes db) recipe_id with
  | None => not_found_response "Recipe not found"
  | Some _ =>
      match ingredient_of_recipe db ingredient_id recipe_id with
      | None => not_found_response "Ingredient not found"
      | Some ingredient =>
          success_response (Some ingredient)
            "Ingredient retrieved successfully" 200
      end
  end.

(** [IngredientDetailResource.put] *)
Definition IngredientDetailResource_put (auth : credentials)
    (recipe_id ingredient_id : Z) (data : option IngredientUpdate.json)
    (db : Db.t) : response Ingredient.t * Db.t :=
  jwt_required auth
    (fun current_user_id db =>
       match Db.get_int Recipe.id (Db.recipes db) recipe_id with
       | None => (not_found_response "Recipe not found", db)
       | Some recipe =>
           match Ingredients.check_permission db recipe current_user_id with
           | Ingredients.NoUser =>
               (error_response
                  "Error updating ingredient: 'NoneType' object has no attribute 'is_admin'"
                  500, db)
           | Ingredients.Denied =>
               (forbidden_response
                  "You don't have permission to update ingredients in this recipe",
                db)
           | Ingredients.Allowed =>
               match ingredient_of_recipe db ingredient_id recipe_id with
               | None => (not_found_response "Ingredient not found", db)
               | Some ingredient =>
                   match data with
                   | None => (error_response "No input data provided" 400, db)
                   | Some j =>
                       if IngredientUpdate.is_empty j
                       then (error_response "No input data provided" 400, db)
                       else
                         match IngredientUpdate.load j with
                         | None => (validation_error_response, db)
                         | Some validated_data =>
                             let ingredient' :=
                               IngredientUpdate.assign ingredient
                                 validated_data in
                             (success_response (Some ingredient')
                                "Ingredient updated successfully" 200,
                              Db.set_ingredients db
                                (Db.update Ingredient.id ingredient'
                                   (Db.ingredients db)))
                         end
                   end
               end
           end
       end) db.

(** [IngredientDetailResource.delete] *)
Definition IngredientDetailResource_delete (auth : credentials)
    (recipe_id ingredient_id : Z) (db : Db.t)
    : response Ingredient.t * Db.t :=
  jwt_required auth
    (fun current_user_id db =>
       match Db.get_int Recipe.id (Db.recipes db) recipe_id with
       | None => (not_found_response "Recipe not found", db)
       | Some recipe =>
           match Ingredients.check_permission db recipe current_user_id with
           | Ingredients.NoUser =>
               (error_response
                  "Error deleting ingredient: 'NoneType' object has no attribute 'is_admin'"
                  500, db)
           | Ingredients.Denied =>
               (forbidden_response
                  "You don't have permission to delete ingredients from this recipe",
                db)
           | Ingredients.Allowed =>
               match ingredient_of_recipe db ingredient_id recipe_id with
               | None => (not_found_response "Ingredient not found", db)
               | Some ingredient =>
                   (success_response None "Ingredient deleted successfully"
                      200,
                    Db.set_ingredients db
                      (Db.delete Ingredient.id (Ingredient.id ingredient)
                         (Db.ingredients db)))
               end
           end
       end) db.

End IngredientApi.

(** ** Ratings: the read handlers ([app/api/v1/ratings.py]) *)

Module RatingApi.

Import Http.

(** [order_by(desc(Rating.created_at))] followed by [paginate] with
    [per_page = min(per_page, 100)]. *)
Definition newest_first_page (page per_page : Z) (rows : list Rating.t)
    : Sql.pagination Rating.t :=
  Sql.paginate page (Z.min per_page 100) (List.rev rows).

(** What [RatingListResource.get] answers. *)
Record of_recipe : Type := mk_of_recipe {
  recipe_id : Z;
  recipe_title : string;
  ratings : Sql.pagination Rating.t
}.

(** [RatingListResource.get] *)
Definition RatingListResource_get (recipe_id page per_page : Z) (db : Db.t)
    : response of_recipe :=
  match Db.get_int Recipe.id (Db.recipes db) recipe_id with
  | None => not_found_response "Recipe not found"
  | Some recipe =>
      success_response
        (Some (mk_of_recipe recipe_id (Recipe.title recipe)
                 (newest_first_page page per_page
                    (Db.ratings_of db recipe_id))))
        "Ratings retrieved successfully" 200
  end.

(** [RatingDetailResource.get] *)
Definition RatingDetailResource_get (recipe_id rating_id : Z) (db : Db.t)
    : response Rating.t :=
  match Db.get_int Recipe.id (Db.recipes db) recipe_id with
  | None => not_found_response "Recipe not found"
  | Some _ =>
      match Ratings.rating_by_id_and_recipe db rating_id recipe_id with
      | None => not_found_response "Rating not found"
      | Some rating =>
          success_response (Some rating) "Rating retrieved successfully" 200
      end
  end.

(** What [UserRatingsResource.get] puts under 'user' and beside it. *)
Record by_user : Type := mk_by_user {
  user_id : Z;
  username : string;
  email : string;
  user_ratings : Sql.pagination Rating.t
}.

(** [UserRatingsResource.get]; a [user_id] or an OFFSET that the store
    cannot bind raises [OverflowError], which the handler answers with
    500. *)
Definition UserRatingsResource_get (user_id page per_page : Z) (db : Db.t)
    : response by_user :=
  if negb (Db.fits_integer user_id)
  then error_response
         "Error retrieving user ratings: Python int too large to convert to SQLite INTEGER"
         500
  else
  match Db.get_int User.id (Db.users db) user_id with
  | None => not_found_response "User not found"
  | Some user =>
      if negb (Db.fits_integer (Sql.offset page (Z.min per_page 100)))
      then error_response
             "Error retrieving user ratings: Python int too large to convert to SQLite INTEGER"
             500
      else
      success_response
        (Some (mk_by_user (User.id user) (User.username user) (User.email user)
                 (newest_first_page page per_page
                    (filter (fun r => Rating.user_id r =? user_id)
                       (Db.ratings db)))))
        ("Ratings by " ++ User.username user ++ " retrieved successfully") 200
  end.

End RatingApi.

(** ** Regular expressions of the validators *)

Module Re.

(** One piece of a pattern: a character class repeated between [min] and
    [max] times ([None]: without bound), or the anchor [$]. *)
Inductive item : Type :=
| Rep (cls : ascii -> bool) (min : nat) (max : option nat)
| Dollar.

Definition pattern : Type := list item.

(** [$] holds at the end of the text and before a final newline. *)
Definition at_end (s : string) : bool :=
  match s with
  | EmptyString => true
  | String c EmptyString => Ascii.eqb c RecipeSchema.newline
  | _ => false
  end.

Definition allows (max : option nat) : bool :=
  match max with
  | Some O => false
  | _ => true
  end.

(** Some count of leading characters of the class, within the bounds,
    leaves a rest that [k] accepts. *)
Fixpoint rep (cls : ascii -> bool) (min : nat) (max : option nat)
    (k : string -> bool) (s : string) : bool :=
  match min with
  | O => k s
  | S _ => false
  end
  || match s with
     | EmptyString => false
     | String c s' =>
         cls c && allows max
         && rep cls (Nat.pred min) (option_map Nat.pred max) k s'
     end.

(** [bool(re.match(pattern, s))]: the pattern matches at the start. *)
Fixpoint matches (p : pattern) : string -> bool :=
  match p with
  | [] => fun _ => true
  | Dollar :: rest => fun s => at_end s && matches rest s
  | Rep cls min max :: rest => rep cls min max (matches rest)
  end.

(** [bool(re.search(pattern, s))]: the pattern matches somewhere. *)
Fixpoint search (p : pattern) (s : string) : bool :=
  matches p s
  || match s with
     | EmptyString => false
     | String _ s' => search p s'
     end.

Definition between (lo hi : nat) (c : ascii) : bool :=
  ((lo <=? Py.code c) && (Py.code c <=? hi))%nat.

Definition upper : ascii -> bool := between 65 90.
Definition lower : ascii -> bool := between 97 122.
Definition digit : ascii -> bool := between 48 57.
Definition letter (c : ascii) : bool := upper c || lower c.
Definition is_char (x : ascii) (c : ascii) : bool := Ascii.eqb c x.

(** [[a-zA-Z0-9_-]] *)
Definition username_char (c : ascii) : bool :=
  letter c || digit c || is_char "_" c || is_char "-" c.

(** [[a-zA-Z0-9._%+-]] *)
Definition local_char (c : ascii) : bool :=
  letter c || digit c || is_char "." c || is_char "_" c || is_char "%" c
  || is_char "+" c || is_char "-" c.

(** [[a-zA-Z0-9.-]] *)
Definition domain_char (c : ascii) : bool :=
  letter c || digit c || is_char "." c || is_char "-" c.

Definition one (cls : ascii -> bool) : item := Rep cls 1 (Some 1%nat).
Definition plus (cls : ascii -> bool) : item := Rep cls 1 None.

End Re.

(** ** Validators ([app/utils/validators.py]) *)

Module Validators.

(** [validate_email]:
    [^[a-zA-Z0-9._%+-]+@[a-zA-Z0-9.-]+\.[a-zA-Z]{2,}$] *)
Definition email_pattern : Re.pattern :=
  [Re.plus Re.local_char; Re.one (Re.is_char "@"); Re.plus Re.domain_char;
   Re.one (Re.is_char "."); Re.Rep Re.letter 2 None; Re.Dollar].

Definition validate_email (email : string) : bool :=
  Re.matches email_pattern email.

(** What [validate_password] and [validate_username] return. *)
Record result : Type := mk_result {
  valid : bool;
  errors : list string
}.

Definition when (test : bool) (message : string) : list string :=
  if test then [message] else [].

(** [validate_password] *)
Definition validate_password (password : string) : result :=
  let errors :=
    (when (String.length password <? 8)%nat
       "Password must be at least 8 characters long"
     ++ when (negb (Re.search [Re.one Re.upper] password))
          "Password must contain at least one uppercase letter"
     ++ when (negb (Re.search [Re.one Re.lower] password))
          "Password must contain at least one lowercase letter"
     ++ when (negb (Re.search [Re.one Re.digit] password))
          "Password must contain at least one number")%list in
  mk_result (Nat.eqb (List.length errors) 0) errors.

(** [validate_username] *)
Definition validate_username (username : string) : result :=
  let errors :=
    (when (String.length username <? 3)%nat
       "Username must be at least 3 characters long"
     ++ when (80 <? String.length username)%nat
          "Username must not exceed 80 characters"
     ++ when (negb (Re.matches [Re.one Re.letter] username))
          "Username must start with a letter"
     ++ when (negb (Re.matches [Re.plus Re.username_char; Re.Dollar] username))
          "Username can only contain letters, numbers, underscores, and hyphens")%list
  in
  mk_result (Nat.eqb (List.length errors) 0) errors.

End Validators.

(** ** Registration, login and the profile
       ([app/schemas/user_schema.py], [app/api/v1/auth.py]) *)

Module UserSchema.

Record json : Type := mk {
  username : option string;
  email : option string;
  password : option string;
  full_name : option string
}.

Definition is_empty (j : json) : bool :=
  match username j, email j, password j, full_name j with
  | None, None, None, None => true
  | _, _, _, _ => false
  end.

(** The validated fields of a registration. *)
Record registration : Type := mk_registration {
  r_username : string;
  r_email : string;
  r_password : string
}.

Section WithEmailField.

(** [fields.Email]'s validator, which is marshmallow's own. *)
Variable email_ok : string -> bool.

(** [user_registration_schema.load]: [None] is [ValidationError]. *)
Definition load_registration (j : json) : option registration :=
  match username j, email j, password j with
  | Some u, Some e, Some p =>
      if CategorySchema.length_between 3 80 u
         && Validators.valid (Validators.validate_username u)
         && email_ok e
         && (8 <=? String.length p)%nat
         && Validators.valid (Validators.validate_password p)
         && RecipeSchema.opt_ok (CategorySchema.length_between 0 100)
              (full_name j)
      then Some (mk_registration u e p)
      else None
  | _, _, _ => None
  end.

(** [user_login_schema.load]: the email and the password. *)
Definition load_login (j : json) : option (string * string) :=
  match username j, email j, password j, full_name j with
  | None, Some e, Some p, None => if email_ok e then Some (e, p) else None
  | _, _, _, _ => None
  end.

End WithEmailField.

End UserSchema.

Module AuthApi.

Import Http.

(** The store with the column [users.password_hash], kept apart from the
    rows of [Db.users] under the user's id. *)
Record state : Type := mk_state {
  db : Db.t;
  password_hash : list (Z * string)
}.

Definition hash_of (st : state) (user_id : Z) : option string :=
  option_map snd (find (fun row => fst row =? user_id) (password_hash st)).

(** Every user has a row of the column, which is [nullable=False]. *)
Definition well_formed (st : state) : Prop :=
  map fst (password_hash st) = map User.id (Db.users (db st)).

(** What register and login answer: the user, the access token, and the
    identity the refresh token is issued for. *)
Record session : Type := mk_session {
  user : User.t;
  access_token : credentials;
  refresh_identity : string
}.

Section WithBcrypt.

Variable email_ok : string -> bool.

(** [bcrypt.generate_password_hash] with the salt it draws, and
    [bcrypt.check_password_hash]. *)
Variable generate_password_hash : string -> string -> string.
Variable check_password_hash : string -> string -> bool.

(** The [unique=True] columns of [users], as the store tests them on an
    insert. *)
Definition violates_unique (d : Db.t) (u : User.t) : bool :=
  existsb (fun old => String.eqb (User.username old) (User.username u)
                      || String.eqb (User.email old) (User.email u))
    (Db.users d).

Definition set_users (d : Db.t) (us : list User.t) : Db.t :=
  Db.mk us (Db.categories d) (Db.recipes d) (Db.ingredients d) (Db.ratings d).

(** [User.query.filter((User.email == email) | (User.username == username))
    .first()]: SQLite answers the OR of two indexed columns from the index
    of the first, so a row with the email comes before one with the
    username. *)
Definition first_by_email_or_username (users : list User.t)
    (email username : string) : option User.t :=
  match find (fun u => String.eqb (User.email u) email) users with
  | Some u => Some u
  | None => find (fun u => String.eqb (User.username u) username) users
  end.

(** [RegisterResource.post]; [salt] is what bcrypt draws for the hash. *)
Definition RegisterResource_post (salt : string)
    (data : option UserSchema.json) (st : state) : response session * state :=
  match data with
  | None => (error_response "No input data provided" 400, st)
  | Some j =>
      if UserSchema.is_empty j
      then (error_response "No input data provided" 400, st)
      else
        match UserSchema.load_registration email_ok j with
        | None => (validation_error_response, st)
        | Some validated_data =>
            let email := UserSchema.r_email validated_data in
            let username := UserSchema.r_username validated_data in
            match first_by_email_or_username (Db.users (db st)) email
                    username with
            | Some existing_user =>
                if String.eqb (User.email existing_user) email
                then (error_response "User with this email already exists" 400,
                      st)
                else (error_response "User with this username already exists"
                        400, st)
            | None =>
                let new_user :=
                  User.mk (Db.next_id User.id (Db.users (db st))) username
                    email false in
                if violates_unique (db st) new_user
                then (error_response
                        "User with this email or username already exists" 400,
                      st)
                else
                  (success_response
                     (Some (mk_session new_user
                              (Auth.create_access_token (User.id new_user))
                              (Py.str (User.id new_user))))
                     "User registered successfully" 201,
                   mk_state
                     (set_users (db st) (Db.users (db st) ++ [new_user])%list)
                     (password_hash st
                      ++ [(User.id new_user,
                           generate_password_hash salt
                             (UserSchema.r_password validated_data))])%list)
            end
        end
  end.

(** [LoginResource.post] *)
Definition LoginResource_post (data : option UserSchema.json) (st : state)
    : response session :=
  match data with
  | None => error_response "No input data provided" 400
  | Some j =>
      if UserSchema.is_empty j
      then error_response "No input data provided" 400
      else
        match UserSchema.load_login email_ok j with
        | None => validation_error_response
        | Some (email, password) =>
            match find (fun u => String.eqb (User.email u) email)
                    (Db.users (db st)) with
            | None => unauthorized_response "Invalid email or password"
            | Some user =>
                match hash_of st (User.id user) with
                | None =>
                    error_response "An error occurred during login" 500
                | Some h =>
                    if negb (check_password_hash h password)
                    then unauthorized_response "Invalid email or password"
                    else
                      success_response
                        (Some (mk_session user
                                 (Auth.create_access_token (User.id user))
                                 (Py.str (User.id user))))
                        "Login successful" 200
                end
            end
        end
  end.

End WithBcrypt.

(** [UserProfileResource.get] *)
Definition UserProfileResource_get (auth : credentials) (d : Db.t)
    : response User.t :=
  match auth with
  | Token sub =>
      match Db.get User.id (Db.users d) (Py.PyStr sub) with
      | None => error_response "User not found" 404
      | Some user =>
          success_response (Some user) "Profile retrieved successfully" 200
      end
  | NoToken => unauthorized_response "Missing Authorization Header"
  | BadToken => error_response "Invalid token" 422
  end.

End AuthApi.

(** ** Decorators ([app/utils/decorators.py]) *)

Module Decorators.

Import Http.

(** [get_current_user]: the user of the token, or [None]. *)
Definition get_current_user (auth : credentials) (d : Db.t) : option User.t :=
  match auth with
  | Token sub => Db.get User.id (Db.users d) (Py.PyStr sub)
  | _ => None
  end.

(** [admin_required(fn)]; [fn] is the outcome of the wrapped call, [inl]
    the text of an exception it raises. *)
Definition admin_required {D} (fn : string + response D)
    (auth : credentials) (d : Db.t) : response D :=
  match auth with
  | Token sub =>
      match Db.get User.id (Db.users d) (Py.PyStr sub) with
      | None => unauthorized_response "User not found"
      | Some user =>
          if negb (User.is_admin user)
          then forbidden_response "Admin privileges required"
          else match fn with
               | inr r => r
               | inl text => unauthorized_response text
               end
      end
  | NoToken => unauthorized_response "Missing Authorization Header"
  | BadToken => unauthorized_response "Invalid token"
  end.

End Decorators.

(** ** The application as a transition system *)

Module System.

(** One request to a handler that writes to the store. *)
Inductive step : Db.t -> Db.t -> Prop :=
| register email_ok generate_password_hash salt data st :
    step (AuthApi.db st)
      (AuthApi.db
         (snd (AuthApi.RegisterResource_post email_ok generate_password_hash
                 salt data st)))
| category_post auth data db :
    step db (snd (Categories.CategoryListResource_post auth data db))
| category_put auth category_id data db :
    step db (snd (CategoryApi.CategoryDetailResource_put auth category_id data
                    db))
| category_delete auth category_id db :
    step db (snd (Categories.CategoryDetailResource_delete auth category_id db))
| recipe_post auth json_data db :
    step db (snd (Recipes.RecipeListResource_post auth json_data db))
| recipe_put auth recipe_id json_data db :
    step db (snd (RecipeApi.RecipeDetailResource_put auth recipe_id json_data
                    db))
| recipe_delete auth recipe_id db :
    step db (snd (RecipeApi.RecipeDetailResource_delete auth recipe_id db))
| ingredient_post auth recipe_id data db :
    step db (snd (IngredientApi.IngredientListResource_post auth recipe_id data
                    db))
| ingredient_put auth recipe_id ingredient_id data db :
    step db (snd (IngredientApi.IngredientDetailResource_put auth recipe_id
                    ingredient_id data db))
| ingredient_delete auth recipe_id ingredient_id db :
    step db (snd (IngredientApi.IngredientDetailResource_delete auth recipe_id
                    ingredient_id db))
| ingredient_bulk_create auth recipe_id json_data db :
    step db (snd (Ingredients.IngredientBulkCreateResource_post auth recipe_id
                    json_data db))
| ingredient_bulk_update auth recipe_id json_data db :
    step db (snd (Ingredients.IngredientBulkUpdateResource_put auth recipe_id
                    json_data db))
| rating_post auth recipe_id json_data db :
    step db (snd (Ratings.RatingListResource_post auth recipe_id json_data db))
| rating_put auth recipe_id rating_id json_data db :
    step db (snd (Ratings.RatingDetailResource_put auth recipe_id rating_id
                    json_data db))
| rating_delete auth recipe_id rating_id db :
    step db (snd (Ratings.RatingDetailResource_delete auth recipe_id rating_id
                    db)).

(** Any number of requests, one after the other. *)
Inductive steps : Db.t -> Db.t -> Prop :=
| steps_none db : steps db db
| steps_more db db' db'' : steps db db' -> step db' db'' -> steps db db''.

(** Primary keys are distinct in every table. *)
Definition unique_ids (db : Db.t) : Prop :=
  NoDup (map User.id (Db.users db))
  /\ NoDup (map Category.id (Db.categories db))
  /\ NoDup (map Recipe.id (Db.recipes db))
  /\ NoDup (map Ingredient.id (Db.ingredients db))
  /\ NoDup (map Rating.id (Db.ratings db)).

(** The [unique=True] columns hold distinct values. *)
Definition unique_columns (db : Db.t) : Prop :=
  NoDup (map User.username (Db.users db))
  /\ NoDup (map User.email (Db.users db))
  /\ NoDup (map Category.name (Db.categories db))
  /\ NoDup (map Category.slug (Db.categories db))
  /\ NoDup (map Recipe.slug (Db.recipes db)).

(** Every foreign key to [categories] and [recipes] names a stored row. *)
Definition references_hold (db : Db.t) : Prop :=
  (forall r, In r (Db.recipes db) ->
             In (Recipe.category_id r) (map Category.id (Db.categories db)))
  /\ (forall i, In i (Db.ingredients db) ->
                In (Ingredient.recipe_id i) (map Recipe.id (Db.recipes db)))
  /\ (forall r, In r (Db.ratings db) ->
                In (Rating.recipe_id r) (map Recipe.id (Db.recipes db))).

(** The store a deployment starts from and every store after it. *)
Definition consistent (db : Db.t) : Prop :=
  unique_ids db /\ unique_columns db /\ references_hold db.

(** What one request does to the store, by table. *)
Inductive effect : Db.t -> Db.t -> Prop :=
| nothing db : effect db db
| user_added db u :
    User.id u = Db.next_id User.id (Db.users db) ->
    User.is_admin u = false ->
    ~ In (User.username u) (map User.username (Db.users db)) ->
    ~ In (User.email u) (map User.email (Db.users db)) ->
    effect db (AuthApi.set_users db (Db.users db ++ [u])%list)
| category_added db c :
    Category.id c = Db.next_id Category.id (Db.categories db) ->
    ~ In (Category.name c) (map Category.name (Db.categories db)) ->
    ~ In (Category.slug c) (map Category.slug (Db.categories db)) ->
    effect db (Db.set_categories db (Db.categories db ++ [c])%list)
| category_changed db old c :
    In old (Db.categories db) ->
    Category.id c = Category.id old ->
    (forall other, In other (Db.categories db) ->
                   Category.id other <> Category.id c ->
                   Category.name other <> Category.name c
                   /\ Category.slug other <> Category.slug c) ->
    effect db
      (Db.set_categories db (Db.update Category.id c (Db.categories db)))
| category_removed db category_id :
    Db.recipes_of db category_id = [] ->
    effect db
      (Db.set_categories db
         (Db.delete Category.id category_id (Db.categories db)))
| recipe_added db r :
    Recipe.id r = Db.next_id Recipe.id (Db.recipes db) ->
    ~ In (Recipe.slug r) (map Recipe.slug (Db.recipes db)) ->
    In (Recipe.category_id r) (map Category.id (Db.categories db)) ->
    effect db (Db.set_recipes db (Db.recipes db ++ [r])%list)
| recipe_changed db old r :
    In old (Db.recipes db) ->
    Recipe.id r = Recipe.id old ->
    Recipe.user_id r = Recipe.user_id old ->
    (forall other, In other (Db.recipes db) ->
                   Recipe.id other <> Recipe.id r ->
                   Recipe.slug other <> Recipe.slug r) ->
    In (Recipe.category_id r) (map Category.id (Db.categories db))
    \/ Recipe.category_id r = Recipe.category_id old ->
    effect db (Db.set_recipes db (Db.update Recipe.id r (Db.recipes db)))
| recipe_removed db recipe_id :
    effect db (Recipes.delete_cascade db recipe_id)
| ingredients_added db news :
    (forall i, In i news ->
               In (Ingredient.recipe_id i) (map Recipe.id (Db.recipes db))) ->
    NoDup (map Ingredient.id news) ->
    (forall i, In i news ->
               ~ In (Ingredient.id i) (map Ingredient.id (Db.ingredients db))) ->
    effect db (Db.set_ingredients db (Db.ingredients db ++ news)%list)
| ingredients_changed db rows :
    map Ingredient.id rows = map Ingredient.id (Db.ingredients db) ->
    map Ingredient.recipe_id rows
    = map Ingredient.recipe_id (Db.ingredients db) ->
    effect db (Db.set_ingredients db rows)
| ingredient_removed db ingredient_id :
    effect db
      (Db.set_ingredients db
         (Db.delete Ingredient.id ingredient_id (Db.ingredients db)))
| rating_added db r :
    Rating.id r = Db.next_id Rating.id (Db.ratings db) ->
    In (Rating.recipe_id r) (map Recipe.id (Db.recipes db)) ->
    effect db (Db.set_ratings db (Db.ratings db ++ [r])%list).

End System.

(** ** Vocabulary of the statements about the validators *)

Module ValidatorSpec.

(** Every character of the text is of the class. *)
Fixpoint every (cls : ascii -> bool) (s : string) : bool :=
  match s with
  | EmptyString => true
  | String c s' => cls c && every cls s'
  end.

(** Some character of the text is of the class. *)
Fixpoint some (cls : ascii -> bool) (s : string) : bool :=
  match s with
  | EmptyString => false
  | String c s' => cls c || some cls s'
  end.

(** The text begins with a character of the class. *)
Definition starts_with (cls : ascii -> bool) (s : string) : bool :=
  match s with
  | EmptyString => false
  | String c _ => cls c
  end.

(** The text is empty or one newline: what [$] accepts as the rest. *)
Definition end_of_text (s : string) : Prop :=
  s = "" \/ s = String RecipeSchema.newline "".

End ValidatorSpec.

(** ** Vocabulary of the statements about sequences of requests *)

Module SystemSpec.

(** No stored user is an administrator. *)
Definition no_admin (db : Db.t) : Prop :=
  forall u, In u (Db.users db) -> User.is_admin u = false.

(** The table [new] is the table [old] with rows added at its end. *)
Definition extends {A : Type} (old new : list A) : Prop :=
  exists added : list A, new = (old ++ added)%list.

(** What requests do to a store without administrator: users, recipes and
    ratings are added, and nothing else changes. *)
Definition grows (db db' : Db.t) : Prop :=
  no_admin db'
  /\ extends (Db.users db) (Db.users db')
  /\ Db.categories db' = Db.categories db
  /\ extends (Db.recipes db) (Db.recipes db')
  /\ Db.ingredients db' = Db.ingredients db
  /\ extends (Db.ratings db) (Db.ratings db').

(** A store whose tables satisfy [System.consistent]. *)
Definition db_admin : Db.t := Sample.db_rated.

(** The same store without its administrator. *)
Definition db_no_admin : Db.t :=
  Db.mk [Sample.alice; Sample.bob] [Sample.mains] [Sample.draft]
    [Sample.salt] [Sample.four_stars_by_bob].

(** alice posts a second recipe titled as her draft, then bob asks for the
    deletion of his rating. *)
Definition after_recipe_post (db : Db.t) : Db.t :=
  snd (Recipes.RecipeListResource_post (Sample.token_of Sample.alice)
         (Some (Sample.recipe_json "Spicy Chicken")) db).

Definition after_rating_delete (db : Db.t) : Db.t :=
  snd (Ratings.RatingDetailResource_delete (Sample.token_of Sample.bob) 1 1
         db).

End SystemSpec.

(** ** Vocabulary of the statements about the lists of recipes *)

Module ListSpec.

(** The recipes on the page a list handler answers with; none when it
    answers with an error. *)
Definition listed (a : RecipeApi.args) (db : Db.t) : list Recipe.t :=
  match Http.data (RecipeApi.RecipeListResource_get a db) with
  | Some p => Sql.items p
  | None => []
  end.

Definition listed_by_user (user_id : Z) (a : RecipeApi.args) (db : Db.t)
    : list Recipe.t :=
  match Http.data (RecipeApi.RecipesByUserResource_get user_id a db) with
  | Some b => Sql.items (RecipeApi.u_recipes b)
  | None => []
  end.

Definition listed_by_category (category_id : Z) (a : RecipeApi.args)
    (db : Db.t) : list Recipe.t :=
  match Http.data (RecipeApi.RecipesByCategoryResource_get category_id a db)
  with
  | Some b => Sql.items (RecipeApi.c_recipes b)
  | None => []
  end.

(** The query string with [page] and [is_published] alone; [per_page] has
    its default. *)
Definition query (page : Z) (is_published : option string) : RecipeApi.args :=
  RecipeApi.mk_args page 10 None None None is_published None.

(** A page within the limits of the list handlers. *)
Definition bounded {A : Type} (p : Sql.pagination A) : Prop :=
  1 <= Sql.page p
  /\ Sql.per_page p <= 100
  /\ Z.of_nat (List.length (Sql.items p)) <= Sql.per_page p.

(** [%] and [_], which [LIKE] does not take for themselves. *)
Definition is_wildcard (c : ascii) : bool :=
  Ascii.eqb c "%" || Ascii.eqb c "_".

(** A published recipe of bob. *)
Definition pasta : Recipe.t :=
  Recipe.mk 2 "Pasta" "pasta" None None None None None
    "Boil the pasta for ten minutes." None true 2 1.

Definition db_two_recipes : Db.t :=
  Db.mk [Sample.alice; Sample.bob; Sample.root] [Sample.mains]
    [Sample.draft; pasta] [Sample.salt] [Sample.four_stars_by_bob].

End ListSpec.

(** ** Vocabulary of the statements about ingredients *)

Module IngredientSpec.

(** One request to a handler that writes ingredients, under the URL of the
    recipe [recipe_id]. *)
Inductive request (recipe_id : Z) : Db.t -> Db.t -> Prop :=
| by_post auth data db :
    request recipe_id db
      (snd (IngredientApi.IngredientListResource_post auth recipe_id data db))
| by_put auth ingredient_id data db :
    request recipe_id db
      (snd (IngredientApi.IngredientDetailResource_put auth recipe_id
              ingredient_id data db))
| by_delete auth ingredient_id db :
    request recipe_id db
      (snd (IngredientApi.IngredientDetailResource_delete auth recipe_id
              ingredient_id db))
| by_bulk_create auth json_data db :
    request recipe_id db
      (snd (Ingredients.IngredientBulkCreateResource_post auth recipe_id
              json_data db))
| by_bulk_update auth json_data db :
    request recipe_id db
      (snd (Ingredients.IngredientBulkUpdateResource_put auth recipe_id
              json_data db)).

(** The order of [order_by(Ingredient.order)]. *)
Definition by_order (a b : Ingredient.t) : Prop :=
  Ingredient.order a <= Ingredient.order b.

(** A second recipe with two ingredients given out of order. *)
Definition db_three_ingredients : Db.t :=
  Db.mk [Sample.alice; Sample.bob; Sample.root] [Sample.mains]
    [Sample.draft; ListSpec.pasta]
    [Sample.salt; Ingredient.mk 2 "pasta" "500" (Some "g") None 2 2;
     Ingredient.mk 3 "water" "2" (Some "l") None 1 2]
    [].

End IngredientSpec.

(** ** Facts about the Python primitives *)

Section PyFacts.

Lemma to_int_not_nil (z : Z) :
  Z.to_int z <> Decimal.Pos Nil /\ Z.to_int z <> Decimal.Neg Nil.
Proof.
  split; intros E; pose proof (DecimalZ.of_to z) as R; rewrite E in R;
    cbn in R; subst z; discriminate E.
Qed.

Lemma int_of_str_str (z : Z) : Py.int_of_str (Py.str z) = Some z.
Proof.
  unfold Py.int_of_str, Py.str.
  destruct (to_int_not_nil z) as [Hp Hn].
  rewrite NilZero.isi by assumption.
  cbn. now rewrite DecimalZ.of_to.
Qed.

Lemma str_inj (a b : Z) : Py.str a = Py.str b -> a = b.
Proof.
  intros E. pose proof (int_of_str_str a) as Ra.
  rewrite E, int_of_str_str in Ra. congruence.
Qed.

Lemma sql_integer_identity (user_id : Z) :
  Db.sql_integer (Py.PyStr (Py.str user_id)) = Some user_id.
Proof. apply int_of_str_str. Qed.

(** A [str] never equals an [int]. *)
Lemma ne_int_str (n : Z) (s : string) :
  Py.ne (Py.PyInt n) (Py.PyStr s) = true.
Proof. reflexivity. Qed.

Lemma ne_str_int (n : Z) (s : string) :
  Py.ne (Py.PyStr s) (Py.PyInt n) = true.
Proof. reflexivity. Qed.

Lemma pow10_pos (n : nat) : 0 < Py.pow10 n.
Proof. unfold Py.pow10. apply Z.pow_pos_nonneg; lia. Qed.

Lemma pow10_Qpos (n : nat) : (0 < inject_Z (Py.pow10 n))%Q.
Proof.
  change 0%Q with (inject_Z 0). rewrite <- Zlt_Qlt. apply pow10_pos.
Qed.

Lemma round_half_even_near (x : Q) :
  (Qabs (inject_Z (Py.round_half_even x) - x) <= 1 # 2)%Q.
Proof.
  unfold Py.round_half_even.
  pose proof (Qfloor_le x) as Hlo.
  pose proof (Qlt_floor x) as Hhi.
  rewrite inject_Z_plus in Hhi. change (inject_Z 1) with 1%Q in Hhi.
  apply Qabs_case; intros _;
    destruct (Qcompare_spec (x - inject_Z (Qfloor x)) (1 # 2)) as [E|L|G];
    try destruct (Z.even (Qfloor x));
    rewrite ?inject_Z_plus; change (inject_Z 1) with 1%Q; lra.
Qed.

Lemma round_half_even_inject (k : Z) : Py.round_half_even (inject_Z k) = k.
Proof.
  unfold Py.round_half_even. rewrite Qfloor_Z.
  destruct (Qcompare_spec (inject_Z k - inject_Z k) (1 # 2)) as [E|L|G];
    [lra | reflexivity | lra].
Qed.

Lemma round_half_even_comp (x y : Q) :
  (x == y)%Q -> Py.round_half_even x = Py.round_half_even y.
Proof.
  intros E. unfold Py.round_half_even.
  rewrite (Qfloor_comp _ _ E).
  assert (C : (x - inject_Z (Qfloor y) ?= 1 # 2)%Q
              = (y - inject_Z (Qfloor y) ?= 1 # 2)%Q)
    by (apply Qcompare_comp; [rewrite E|]; reflexivity).
  now rewrite C.
Qed.

Local Open Scope Q_scope.

Lemma pow2_pos (e : Z) : 0 < 2 ^ e.
Proof. apply Qpower_0_lt. reflexivity. Qed.

Lemma inject_pow2 (n : Z) : (0 <= n)%Z -> inject_Z (2 ^ n) == 2 ^ n.
Proof. intros H. now rewrite (Zpower_Qpower 2 n H). Qed.

(** The bounds of [Z.log2], in [Q]. *)
Lemma log2_bounds (p : Z) :
  (0 < p)%Z -> 2 ^ Z.log2 p <= inject_Z p /\ inject_Z p < 2 ^ (Z.log2 p + 1).
Proof.
  intros H. destruct (Z.log2_spec p H) as [L U].
  pose proof (Z.log2_nonneg p) as N.
  rewrite <- (inject_pow2 (Z.log2 p)) by assumption.
  rewrite <- (inject_pow2 (Z.log2 p + 1)) by lia.
  rewrite <- Zle_Qle, <- Zlt_Qlt.
  replace (Z.log2 p + 1)%Z with (Z.succ (Z.log2 p)) by lia. now split.
Qed.

Lemma pow2_succ (e : Z) : 2 ^ (e + 1) == 2 * 2 ^ e.
Proof. rewrite Qpower_plus by discriminate. rewrite Qpower_1_r. ring. Qed.

Lemma pow2_minus (a b : Z) : 2 ^ (a - b) == 2 ^ a / 2 ^ b.
Proof. apply Qpower_minus. discriminate. Qed.

(** [exponent x] is the binary exponent of a positive [x]. *)
Lemma exponent_spec (x : Q) :
  0 < x -> 2 ^ Py.exponent x <= x /\ x < 2 ^ (Py.exponent x + 1).
Proof.
  intros Hx. unfold Py.exponent.
  rewrite (Qabs_pos x) by lra.
  destruct x as [p q]. cbn [Qnum Qden].
  assert (Hp : (0 < p)%Z).
  { unfold Qlt in Hx. cbn in Hx. lia. }
  rewrite (Z.abs_eq p) by lia.
  set (a := Z.log2 p). set (b := Z.log2 (Z.pos q)).
  destruct (log2_bounds p Hp) as [La Ua]. fold a in La, Ua.
  destruct (log2_bounds (Z.pos q) eq_refl) as [Lb Ub]. fold b in Lb, Ub.
  assert (E : p # q == inject_Z p / inject_Z (Z.pos q)) by apply Qmake_Qdiv.
  assert (Q0 : 0 < inject_Z (Z.pos q)) by reflexivity.
  pose proof (pow2_pos a) as Pa. pose proof (pow2_pos b) as Pb.
  pose proof (pow2_pos (a - b)) as Pd.
  rewrite pow2_succ in Ua, Ub.
  assert (Lo : 2 ^ (a - b - 1) <= p # q).
  { rewrite E, pow2_minus, pow2_minus, Qpower_1_r.
    apply Qle_shift_div_l; [assumption|].
    set (P := inject_Z p) in *. set (Qq := inject_Z (Z.pos q)) in *.
    set (A := 2 ^ a) in *. set (B := 2 ^ b) in *.
    assert (X : A / B / 2 * Qq == A * Qq / (2 * B)) by (field; lra).
    rewrite X. apply Qle_shift_div_r; [lra|]. nra. }
  assert (Hi : p # q < 2 ^ (a - b + 1)).
  { rewrite E, pow2_succ, pow2_minus.
    apply Qlt_shift_div_r; [assumption|].
    set (P := inject_Z p) in *. set (Qq := inject_Z (Z.pos q)) in *.
    set (A := 2 ^ a) in *. set (B := 2 ^ b) in *.
    assert (X : 2 * (A / B) * Qq == 2 * A * Qq / B) by (field; lra).
    rewrite X. apply Qlt_shift_div_l; [lra|]. nra. }
  destruct (Qle_bool (2 ^ (a - b)) (p # q)) eqn:T.
  - apply Qle_bool_iff in T. now split.
  - split; [assumption|].
    replace (a - b - 1 + 1)%Z with (a - b)%Z by lia.
    apply Qnot_le_lt. intros C. apply Qle_bool_iff in C. congruence.
Qed.

(** A correctly rounded result is off by no more than one part in 2^53. *)
Lemma nearest_error (x : Q) :
  0 <= x -> Qabs (Py.nearest x - x) <= x * (1 # 2 ^ 53).
Proof.
  intros Hx. unfold Py.nearest.
  destruct (Qeq_bool x 0) eqn:Z0.
  - apply Qeq_bool_iff in Z0. rewrite Z0. vm_compute. discriminate.
  - assert (P : 0 < x).
    { apply Qeq_bool_neq in Z0. lra. }
    cbv zeta. rewrite Qred_correct.
    destruct (exponent_spec x P) as [L _].
    set (e := Py.exponent x) in *.
    pose proof (pow2_pos (e - 52)) as U.
    pose proof (round_half_even_near (x / 2 ^ (e - 52))) as N.
    set (m := inject_Z (Py.round_half_even (x / 2 ^ (e - 52)))) in *.
    assert (S : 2 ^ e == 2 ^ (e - 52) * inject_Z (2 ^ 52)).
    { rewrite pow2_minus. rewrite (inject_pow2 52) by lia.
      field. }
    set (u := 2 ^ (e - 52)) in *.
    apply Qabs_Qle_condition in N. destruct N as [N1 N2].
    assert (Y : x / u * u == x) by (field; lra).
    set (y := x / u) in *.
    change (1 # 2 ^ 53) with (/ inject_Z (2 ^ 53)).
    assert (K : inject_Z (2 ^ 53) == 2 * inject_Z (2 ^ 52)) by reflexivity.
    set (c := inject_Z (2 ^ 52)) in *.
    assert (C : 0 < c) by reflexivity.
    assert (B : u * (1 # 2) <= x * / inject_Z (2 ^ 53)).
    { rewrite K. apply Qle_shift_div_l; [lra|].
      rewrite S in L. nra. }
    apply Qabs_Qle_condition. split; nra.
Qed.

(** Rounding to an integer is not disturbed by an error smaller than the
    distance between [t] and the nearest tie. *)
Lemma round_half_even_stable (t y : Q) (a d : Z) :
  (0 < d)%Z ->
  t * inject_Z (2 * d) == inject_Z a ->
  Qabs (y - t) < 1 / inject_Z (2 * d) ->
  Qabs (inject_Z (Py.round_half_even y) - t) <= 1 # 2.
Proof.
  intros Hd Ht Hy.
  pose proof (round_half_even_near y) as N.
  set (k := Py.round_half_even y) in *.
  assert (D : 0 < inject_Z d).
  { change 0 with (inject_Z 0). now rewrite <- Zlt_Qlt. }
  rewrite inject_Z_mult in Ht, Hy. change (inject_Z 2) with 2 in Ht, Hy.
  set (dq := inject_Z d) in *.
  assert (Hy' : Qabs (y - t) * (2 * dq) < 1).
  { apply (Qmult_lt_r _ _ (2 * dq)) in Hy; [|lra].
    assert (X : 1 / (2 * dq) * (2 * dq) == 1) by (field; lra).
    now rewrite X in Hy. }
  clear Hy.
  assert (I : inject_Z (2 * d * k - a)
              == 2 * dq * (inject_Z k - t)).
  { unfold Zminus. rewrite inject_Z_plus, inject_Z_opp, !inject_Z_mult.
    change (inject_Z 2) with 2. fold dq. rewrite <- Ht. ring. }
  apply Qabs_Qle_condition in N. destruct N as [N1 N2].
  assert (Y1 : - (1) < (y - t) * (2 * dq) /\ (y - t) * (2 * dq) < 1).
  { revert Hy'. apply Qabs_case; intros; split; nra. }
  destruct Y1 as [Y1 Y2].
  assert (M1 : (inject_Z k - y) * (2 * dq) <= dq) by nra.
  assert (M2 : - dq <= (inject_Z k - y) * (2 * dq)) by nra.
  assert (S : 2 * dq * (inject_Z k - t)
              == (inject_Z k - y) * (2 * dq) + (y - t) * (2 * dq)) by ring.
  apply Qabs_Qle_condition.
  destruct (Z_lt_le_dec d (2 * d * k - a)) as [G|G].
  - exfalso. assert (G' : (d + 1 <= 2 * d * k - a)%Z) by lia.
    rewrite Zle_Qle, I, inject_Z_plus in G'. fold dq in G'.
    change (inject_Z 1) with 1 in G'. rewrite S in G'. lra.
  - destruct (Z_lt_le_dec (2 * d * k - a) (- d)) as [G2|G2].
    + exfalso. assert (G' : (2 * d * k - a <= - d - 1)%Z) by lia.
      rewrite Zle_Qle, I in G'. unfold Zminus in G'.
      rewrite inject_Z_plus, inject_Z_opp in G'. fold dq in G'.
      change (inject_Z (Z.opp 1)) with (-(1)) in G'. rewrite S in G'. lra.
    + rewrite Zle_Qle, I in G, G2. rewrite inject_Z_opp in G2.
      fold dq in G, G2. split; nra.
Qed.

Lemma nearest_bounds (x : Q) :
  0 <= x ->
  x - x * (1 # 2 ^ 53) <= Py.nearest x /\ Py.nearest x <= x + x * (1 # 2 ^ 53).
Proof.
  intros Hx. pose proof (nearest_error x Hx) as E.
  apply Qabs_Qle_condition in E. lra.
Qed.

(** An error below 2^-41 leaves the rounding to an integer a rounding of
    a number whose doubled denominator is below 2^41. *)
Lemma small_error_rounds (t y : Q) (a d : Z) :
  (0 < d < 2 ^ 40)%Z ->
  t * inject_Z (2 * d) == inject_Z a ->
  Qabs (y - t) <= 1 # 2 ^ 41 ->
  Qabs (inject_Z (Py.round_half_even y) - t) <= 1 # 2.
Proof.
  intros Hd Ht Hy. apply (round_half_even_stable t y a d); try lia;
    [assumption|].
  eapply Qle_lt_trans; [exact Hy|].
  apply Qlt_shift_div_l.
  - change 0 with (inject_Z 0). rewrite <- Zlt_Qlt. lia.
  - change (1 # 2 ^ 41) with (/ inject_Z (2 ^ 41)).
    assert (B : inject_Z (2 * d) < inject_Z (2 ^ 41)).
    { rewrite <- Zlt_Qlt. lia. }
    assert (P : 0 < inject_Z (2 ^ 41)) by reflexivity.
    set (X := inject_Z (2 * d)) in *. set (Y := inject_Z (2 ^ 41)) in *.
    assert (E : / Y * X == X / Y) by (field; lra).
    rewrite E. apply Qlt_shift_div_r; lra.
Qed.

(** An integer at most one half from another is that integer. *)
Lemma half_apart_same (k j : Z) :
  Qabs (inject_Z k - inject_Z j) <= 1 # 2 -> k = j.
Proof.
  intros H. apply Qabs_Qle_condition in H. destruct H as [H1 H2].
  assert (A : inject_Z k - inject_Z j == inject_Z (k - j)).
  { unfold Zminus. rewrite inject_Z_plus, inject_Z_opp. ring. }
  rewrite A in H1, H2.
  assert (L : inject_Z (-1) < inject_Z (k - j)).
  { eapply Qlt_le_trans; [|exact H1]. reflexivity. }
  assert (U : inject_Z (k - j) < inject_Z 1).
  { eapply Qle_lt_trans; [exact H2|]. reflexivity. }
  rewrite <- Zlt_Qlt in L, U. lia.
Qed.

(** [round(total / count, 2)] for a total between the count and five
    times the count, below 2^40: the decimal is a rounding of the exact
    quotient, and the result is not 0 and does not change when rounded
    again. *)
Lemma round_truediv (total count : Z) :
  (0 < count < 2 ^ 40)%Z -> (count <= total <= 5 * count)%Z ->
  exists k : Z,
    Py.round (Py.truediv total count) 2 = Py.nearest (inject_Z k / 100)
    /\ Qabs (inject_Z k - inject_Z total / inject_Z count * 100) <= 1 # 2
    /\ Py.round (Py.nearest (inject_Z k / 100)) 2
       = Py.nearest (inject_Z k / 100)
    /\ Py.truthy (Py.nearest (inject_Z k / 100)) = true.
Proof.
  intros Hc Ht.
  set (q := inject_Z total / inject_Z count).
  assert (C : 0 < inject_Z count).
  { change 0 with (inject_Z 0). rewrite <- Zlt_Qlt. lia. }
  assert (Q1 : 1 <= q).
  { unfold q. apply Qle_shift_div_l; [assumption|].
    rewrite Qmult_1_l, <- Zle_Qle. lia. }
  assert (Q5 : q <= 5).
  { unfold q. apply Qle_shift_div_r; [assumption|].
    change 5 with (inject_Z 5). rewrite <- inject_Z_mult, <- Zle_Qle. lia. }
  destruct (nearest_bounds q ltac:(lra)) as [B1 B2].
  set (x := Py.truediv total count) in *.
  change (Py.nearest q) with x in B1, B2.
  set (k := Py.round_half_even (x * inject_Z (Py.pow10 2))).
  assert (K : Qabs (inject_Z k - q * 100) <= 1 # 2).
  { apply (small_error_rounds (q * 100) _ (200 * total) count Hc).
    - unfold q. rewrite !inject_Z_mult. change (inject_Z 2) with 2.
      change (inject_Z 200) with 200. field. lra.
    - change (inject_Z (Py.pow10 2)) with 100.
      apply Qabs_Qle_condition.
      assert (E : (1 # 2 ^ 53) * 500 <= 1 # 2 ^ 41) by (vm_compute; discriminate).
      set (e := 1 # 2 ^ 53) in *.
      assert (Epos : 0 < e) by reflexivity.
      assert (QE : q * e <= 5 * e) by nra.
      split; lra. }
  exists k. split; [reflexivity|]. split; [exact K|].
  apply Qabs_Qle_condition in K. destruct K as [K1 K2].
  assert (Klo : 99 < inject_Z k) by lra.
  assert (Khi : inject_Z k < 501) by lra.
  destruct (nearest_bounds (inject_Z k / 100)) as [Y1 Y2].
  { apply Qle_shift_div_l; lra. }
  set (y := Py.nearest (inject_Z k / 100)) in *.
  assert (D : inject_Z k / 100 * 100 == inject_Z k) by field.
  set (z := inject_Z k / 100) in *.
  split.
  - unfold Py.round at 1.
    assert (R : Py.round_half_even (y * inject_Z (Py.pow10 2)) = k).
    { apply half_apart_same.
      apply (round_half_even_stable (inject_Z k) _ (2 * k) 1); [lia| |].
      - rewrite !inject_Z_mult. ring.
      - change (inject_Z (Py.pow10 2)) with 100.
        change (1 / inject_Z (2 * 1)) with (1 # 2).
        assert (E : (1 # 2 ^ 53) * 600 <= 1 # 4) by (vm_compute; discriminate).
        set (e := 1 # 2 ^ 53) in *.
        assert (Epos : 0 < e) by reflexivity.
        assert (ZE : z * e <= 6 * e) by nra.
        apply Qabs_case; intros _; lra. }
    rewrite R. reflexivity.
  - unfold Py.truthy. apply negb_true_iff.
    destruct (Qeq_bool y 0) eqn:Z0; [|reflexivity].
    apply Qeq_bool_iff in Z0.
    assert (E : (1 # 2 ^ 53) <= 1 # 2) by (vm_compute; discriminate).
    set (e := 1 # 2 ^ 53) in *.
    assert (ZE : z * e <= z * (1 # 2)) by nra.
    lra.
Qed.

(** [round((n / total) * 100, 1)] for a part of a total below 2^40: the
    decimal is a rounding of the exact share. *)
Lemma round_share (n total : Z) :
  (0 < total < 2 ^ 40)%Z -> (0 <= n <= total)%Z ->
  exists k : Z,
    Py.round (Py.mul (Py.truediv n total) 100) 1
    = Py.nearest (inject_Z k / 10)
    /\ Qabs (inject_Z k - inject_Z n / inject_Z total * 100 * 10) <= 1 # 2.
Proof.
  intros Ht Hn.
  set (q := inject_Z n / inject_Z total).
  assert (T : 0 < inject_Z total).
  { change 0 with (inject_Z 0). rewrite <- Zlt_Qlt. lia. }
  assert (Q0 : 0 <= q).
  { unfold q. apply Qle_shift_div_l; [assumption|].
    rewrite Qmult_0_l. change 0 with (inject_Z 0). rewrite <- Zle_Qle. lia. }
  assert (Q1 : q <= 1).
  { unfold q. apply Qle_shift_div_r; [assumption|].
    rewrite Qmult_1_l, <- Zle_Qle. lia. }
  destruct (nearest_bounds q Q0) as [B1 B2].
  set (x := Py.truediv n total) in *.
  change (Py.nearest q) with x in B1, B2.
  assert (E : (1 # 2 ^ 53) <= 1 # 2) by (vm_compute; discriminate).
  assert (X0 : 0 <= x * inject_Z 100).
  { change (inject_Z 100) with 100. nra. }
  destruct (nearest_bounds (x * inject_Z 100) X0) as [C1 C2].
  set (p := Py.mul x 100) in *.
  change (Py.nearest (x * inject_Z 100)) with p in C1, C2.
  change (inject_Z 100) with 100 in C1, C2.
  exists (Py.round_half_even (p * inject_Z (Py.pow10 1))).
  split; [reflexivity|].
  apply (small_error_rounds (q * 100 * 10) _ (2000 * n) total Ht).
  - unfold q. rewrite !inject_Z_mult. change (inject_Z 2) with 2.
    change (inject_Z 2000) with 2000. field. lra.
  - change (inject_Z (Py.pow10 1)) with 10.
    apply Qabs_Qle_condition.
    assert (E2 : (1 # 2 ^ 53) * 4000 <= 1 # 2 ^ 41) by (vm_compute; discriminate).
    set (e := 1 # 2 ^ 53) in *.
    assert (Epos : 0 < e) by reflexivity.
    assert (QE : q * e <= e) by nra.
    assert (XE : x * e <= 2 * e) by nra.
    split; lra.
Qed.

End PyFacts.

(** ** Facts about slugs *)

Section SlugFacts.

Lemma length_append (s t : string) :
  String.length (s ++ t) = (String.length s + String.length t)%nat.
Proof. induction s as [|c s IH]; cbn; [reflexivity | now rewrite IH]. Qed.

Lemma append_cancel (s x y : string) : s ++ x = s ++ y -> x = y.
Proof.
  induction s as [|c s IH]; cbn; intros E; [assumption|].
  injection E as E. now apply IH.
Qed.

Lemma attempt_injective (candidate : string) :
  Injective (SlugSpec.attempt candidate).
Proof.
  intros [|i] [|j] E; cbn in E; unfold Slug.suffixed in E.
  - reflexivity.
  - apply (f_equal String.length) in E. rewrite length_append in E.
    cbn in E. lia.
  - apply (f_equal String.length) in E. rewrite length_append in E.
    cbn in E. lia.
  - apply append_cancel in E. injection E as E. apply str_inj in E. lia.
Qed.

Lemma attempt_succ (candidate : string) (k : nat) :
  Slug.suffixed candidate (Z.of_nat k + 1) = SlugSpec.attempt candidate (S k).
Proof. cbn [SlugSpec.attempt]. f_equal. lia. Qed.

(** What a run of the loop started at attempt [k] returns. *)
Lemma unique_loop_run (taken : string -> bool) (base_slug : string)
    (fuel : nat) :
  forall k : nat,
    match Slug.unique_loop fuel taken base_slug
            (SlugSpec.attempt base_slug k) (Z.of_nat k + 1) with
    | Some s =>
        exists j : nat,
          (j < fuel)%nat
          /\ s = SlugSpec.attempt base_slug (k + j)
          /\ taken s = false
          /\ forall i : nat,
               (i < j)%nat -> taken (SlugSpec.attempt base_slug (k + i)) = true
    | None =>
        forall i : nat,
          (i < fuel)%nat -> taken (SlugSpec.attempt base_slug (k + i)) = true
    end.
Proof.
  induction fuel as [|fuel IH]; intros k; cbn [Slug.unique_loop].
  - intros i Hi. lia.
  - destruct (taken (SlugSpec.attempt base_slug k)) eqn:T.
    + rewrite attempt_succ.
      replace (Z.of_nat k + 1 + 1) with (Z.of_nat (S k) + 1) by lia.
      specialize (IH (S k)).
      destruct (Slug.unique_loop fuel taken base_slug
                  (SlugSpec.attempt base_slug (S k)) (Z.of_nat (S k) + 1))
        as [s|].
      * destruct IH as (j & Hj & Hs & Hfree & Hbefore).
        exists (S j). repeat split.
        -- lia.
        -- rewrite Hs. f_equal. lia.
        -- assumption.
        -- intros [|i] Hi.
           ++ now rewrite Nat.add_0_r.
           ++ replace (k + S i)%nat with (S k + i)%nat by lia.
              apply Hbefore. lia.
      * intros [|i] Hi.
        -- now rewrite Nat.add_0_r.
        -- replace (k + S i)%nat with (S k + i)%nat by lia. apply IH. lia.
    + exists 0%nat. rewrite Nat.add_0_r. repeat split.
      * lia.
      * assumption.
      * intros i Hi. lia.
Qed.

Lemma slug_taken_In (db : Db.t) (s : string) :
  Recipes.slug_taken db s = true <-> In s (map Recipe.slug (Db.recipes db)).
Proof.
  unfold Recipes.slug_taken. rewrite existsb_exists, in_map_iff.
  split; intros (r & H1 & H2).
  - exists r. split; [now apply String.eqb_eq | assumption].
  - exists r. split; [assumption | now apply String.eqb_eq].
Qed.

(** The loop of the recipe handlers ends within its bound, on the first
    attempt that no recipe has. *)
Lemma ensure_unique_first_free (db : Db.t) (base_slug : string) :
  exists final : string,
    Recipes.ensure_unique db base_slug = Some final
    /\ SlugSpec.first_free (Recipes.slug_taken db) base_slug final.
Proof.
  unfold Recipes.ensure_unique.
  pose proof (unique_loop_run (Recipes.slug_taken db) base_slug
                (S (List.length (Db.recipes db))) 0) as R.
  cbn [SlugSpec.attempt Z.of_nat Z.add] in R.
  destruct (Slug.unique_loop (S (List.length (Db.recipes db)))
              (Recipes.slug_taken db) base_slug base_slug 1) as [s|].
  - destruct R as (j & _ & Hs & Hfree & Hbefore).
    exists s. split; [reflexivity|]. exists j. now repeat split.
  - exfalso.
    set (n := List.length (Db.recipes db)) in *.
    assert (I : incl (map (SlugSpec.attempt base_slug) (seq 0 (S n)))
                  (map Recipe.slug (Db.recipes db))).
    { intros s Hs. apply in_map_iff in Hs. destruct Hs as (i & <- & Hi).
      apply in_seq in Hi. apply slug_taken_In. apply (R i). lia. }
    apply NoDup_incl_length in I.
    + rewrite !length_map, length_seq in I. subst n. lia.
    + apply Injective_map_NoDup; [apply attempt_injective | apply seq_NoDup].
Qed.

Lemma lower_keeps_spaces_only (c : ascii) :
  negb (Py.isspace c) || Ascii.eqb c " " = true ->
  negb (Py.isspace (Py.lower_char c)) || Ascii.eqb (Py.lower_char c) " " = true.
Proof.
  destruct c as [[] [] [] [] [] [] [] []]; vm_compute; auto.
Qed.

Lemma spaces_only_lower (s : string) :
  SlugSpec.spaces_only s = true -> SlugSpec.spaces_only (Py.lower s) = true.
Proof.
  unfold SlugSpec.spaces_only.
  induction s as [|c s IH]; cbn; [reflexivity|].
  rewrite !andb_true_iff. intros [Hc Hs]. split.
  - now apply lower_keeps_spaces_only.
  - now apply IH.
Qed.

Lemma is_hyphen_eq (c : ascii) : Py.is_hyphen c = true -> c = "-"%char.
Proof. apply Ascii.eqb_eq. Qed.

Lemma first_char_sub_hyphen_runs (s : string) :
  SlugSpec.first_char (Py.sub_hyphen_runs s) = SlugSpec.first_char s.
Proof.
  induction s as [|c s IH]; [reflexivity|].
  cbn [Py.sub_hyphen_runs].
  destruct (Py.is_hyphen c) eqn:Hc; [|reflexivity].
  destruct s as [|c' s']; [reflexivity|].
  destruct (Py.is_hyphen c') eqn:Hc'; [|reflexivity].
  rewrite IH. cbn. apply is_hyphen_eq in Hc, Hc'. congruence.
Qed.

Lemma sub_hyphen_runs_cons (c : ascii) (a b : string) :
  Py.sub_hyphen_runs a = Py.sub_hyphen_runs b ->
  Py.sub_hyphen_runs (String c a) = Py.sub_hyphen_runs (String c b).
Proof.
  intros E.
  pose proof (first_char_sub_hyphen_runs a) as Fa.
  pose proof (first_char_sub_hyphen_runs b) as Fb.
  rewrite E in Fa. rewrite Fa in Fb.
  cbn [Py.sub_hyphen_runs].
  destruct (Py.is_hyphen c); [|now rewrite E].
  destruct a as [|a' a], b as [|b' b]; cbn in Fb; try discriminate;
    [reflexivity|].
  injection Fb as ->.
  destruct (Py.is_hyphen b'); [assumption | now rewrite E].
Qed.

Lemma slug_runs_agree (s : string) :
  SlugSpec.spaces_only s = true ->
  Py.sub_hyphen_runs (Py.sub_non_slug_chars (Py.replace " " "-" s))
  = Py.sub_hyphen_runs (Py.sub_non_slug_chars (SlugSpec.sub_space_runs s)).
Proof.
  unfold SlugSpec.spaces_only, Py.sub_non_slug_chars, Py.replace.
  induction s as [|c s IH]; [reflexivity|].
  cbn [SlugSpec.all_chars]. rewrite andb_true_iff. intros [Hc Hs].
  specialize (IH Hs).
  cbn [SlugSpec.sub_space_runs Py.map_chars].
  destruct (Py.isspace c) eqn:Sc.
  - cbn in Hc. apply Ascii.eqb_eq in Hc. subst c.
    change (Ascii.eqb " " " ") with true. cbv iota.
    change (Py.filter_chars Py.slug_char (String "-" ?x))
      with (String "-"%char (Py.filter_chars Py.slug_char x)).
    destruct s as [|c' s']; [reflexivity|].
    destruct (Py.isspace c') eqn:Sc'.
    + rewrite <- IH.
      cbn [SlugSpec.all_chars] in Hs. rewrite Sc' in Hs. cbn in Hs.
      apply andb_true_iff in Hs. destruct Hs as [Hs _].
      apply Ascii.eqb_eq in Hs. subst c'. reflexivity.
    + change (Py.filter_chars Py.slug_char (String "-" ?x))
        with (String "-"%char (Py.filter_chars Py.slug_char x)).
      now apply sub_hyphen_runs_cons.
  - destruct (Ascii.eqb c " ") eqn:Ec.
    + apply Ascii.eqb_eq in Ec. subst c. discriminate Sc.
    + cbn [Py.filter_chars].
      destruct (Py.slug_char c); [now apply sub_hyphen_runs_cons | exact IH].
Qed.

(** On a title whose only whitespace is the space character the code's slug
    is the specification's [deriveSlug]. *)
Lemma derive_slug_agrees (title : string) :
  SlugSpec.spaces_only title = true ->
  Slug.derive_slug title = SlugSpec.deriveSlug title.
Proof.
  intros H. unfold Slug.derive_slug, SlugSpec.deriveSlug. cbv zeta.
  f_equal. apply slug_runs_agree. now apply spaces_only_lower.
Qed.

End SlugFacts.

(** ** Facts about the store *)

Lemma NoDup_map_filter {A B : Type} (f : A -> B) (keep : A -> bool)
    (rows : list A) :
  NoDup (map f rows) -> NoDup (map f (filter keep rows)).
Proof.
  induction rows as [|r rows IH]; cbn; [easy|].
  intros N. inversion N as [|? ? Hnot N']; subst.
  destruct (keep r); cbn; [|now apply IH].
  constructor; [|now apply IH].
  intros H. apply Hnot. apply in_map_iff in H. destruct H as (x & E & H).
  apply filter_In in H. apply in_map_iff. exists x. tauto.
Qed.

Section DbFacts.

Context {A : Type} (pk : A -> Z).

Lemma next_id_above (rows : list A) (row : A) :
  In row rows -> pk row < Db.next_id pk rows.
Proof.
  unfold Db.next_id. induction rows as [|r rows IH]; [easy|].
  cbn [map fold_right In].
  intros [->|H]; [lia|]. specialize (IH H). lia.
Qed.

Lemma next_id_fresh (rows : list A) :
  ~ In (Db.next_id pk rows) (map pk rows).
Proof.
  intros H. apply in_map_iff in H. destruct H as (r & E & H).
  apply next_id_above in H. lia.
Qed.

Lemma same_key_same_row (rows : list A) (a b : A) :
  NoDup (map pk rows) -> In a rows -> In b rows -> pk a = pk b -> a = b.
Proof.
  induction rows as [|r rows IH]; cbn; [easy|].
  intros N Ha Hb E. inversion N as [|? ? Hnot N']; subst.
  destruct Ha as [->|Ha], Hb as [->|Hb].
  - reflexivity.
  - exfalso. apply Hnot. rewrite E. now apply in_map.
  - exfalso. apply Hnot. rewrite <- E. now apply in_map.
  - now apply IH.
Qed.

(** Updating a row in place changes no attribute that the old and the new
    row share. *)
Lemma map_update {B : Type} (f : A -> B) (rows : list A) (old new : A) :
  NoDup (map pk rows) -> In old rows -> pk new = pk old -> f new = f old ->
  map f (Db.update pk new rows) = map f rows.
Proof.
  intros N Hold Epk Ef. unfold Db.update. rewrite map_map.
  apply map_ext_in. intros r Hr.
  destruct (pk r =? pk new) eqn:E; [|reflexivity].
  apply Z.eqb_eq in E.
  assert (r = old) by (apply (same_key_same_row rows); congruence).
  congruence.
Qed.

End DbFacts.

(** ** The rating invariant *)

Section RatingFacts.

Import RatingInvariant.

Lemma violates_unique_spec (db : Db.t) (user_id recipe_id : Z) :
  Ratings.violates_unique_user_recipe db user_id recipe_id = false ->
  ~ In (user_id, recipe_id) (map key (Db.ratings db)).
Proof.
  unfold Ratings.violates_unique_user_recipe. intros E H.
  apply in_map_iff in H. destruct H as (r & K & H).
  unfold key in K. injection K as K1 K2.
  assert (X : existsb (fun r => (Rating.user_id r =? user_id)
                                && (Rating.recipe_id r =? recipe_id))
                (Db.ratings db) = true).
  { apply existsb_exists. exists r. split; [assumption|].
    rewrite K1, K2, !Z.eqb_refl. reflexivity. }
  congruence.
Qed.

(** What the commit of a new rating does to the store. *)
Lemma insert_rating_cases (db : Db.t) (score : Z) (comment : option string)
    (user_id : Py.value) (recipe_id : Z) :
  match Ratings.insert_rating db score comment user_id recipe_id with
  | (Ratings.Committed db', new_rating) =>
      exists uid : Z,
        Db.sql_integer user_id = Some uid
        /\ Ratings.violates_unique_user_recipe db uid recipe_id = false
        /\ new_rating
           = Some (Rating.mk (Db.next_id Rating.id (Db.ratings db)) score
                     comment uid recipe_id)
        /\ db' = Db.set_ratings db
                   (Db.ratings db
                    ++ [Rating.mk (Db.next_id Rating.id (Db.ratings db)) score
                          comment uid recipe_id])%list
  | (Ratings.IntegrityError, _) =>
      exists uid : Z,
        Db.sql_integer user_id = Some uid
        /\ Ratings.violates_unique_user_recipe db uid recipe_id = true
  | (Ratings.DataError, _) => Db.sql_integer user_id = None
  end.
Proof.
  unfold Ratings.insert_rating.
  destruct (Db.sql_integer user_id) as [uid|]; [|reflexivity].
  destruct (Ratings.violates_unique_user_recipe db uid recipe_id) eqn:V.
  - exists uid. now split.
  - exists uid. now repeat split.
Qed.

Lemma well_keyed_insert (db : Db.t) (row : Rating.t) :
  well_keyed db ->
  Rating.id row = Db.next_id Rating.id (Db.ratings db) ->
  Ratings.violates_unique_user_recipe db (Rating.user_id row)
    (Rating.recipe_id row) = false ->
  well_keyed (Db.set_ratings db (Db.ratings db ++ [row])%list).
Proof.
  intros [Hid Hkey] Eid V. split.
  - unfold unique_ids in *. cbn. rewrite map_app. cbn.
    apply NoDup_app_remove_l with (l := []). cbn.
    apply Permutation.Permutation_NoDup
      with (l := Rating.id row :: map Rating.id (Db.ratings db)).
    + apply Permutation.Permutation_cons_append.
    + constructor; [|assumption]. rewrite Eid. apply next_id_fresh.
  - unfold unique_user_recipe in *. cbn. rewrite map_app. cbn.
    apply Permutation.Permutation_NoDup
      with (l := key row :: map key (Db.ratings db)).
    + apply Permutation.Permutation_cons_append.
    + constructor; [|assumption]. now apply violates_unique_spec.
Qed.

Lemma well_keyed_post_between (db db_at_commit : Db.t)
    (current_user_id : Py.value) (recipe_id : Z)
    (json_data : option RatingSchema.json) :
  well_keyed db_at_commit ->
  well_keyed (snd (Ratings.post_between db db_at_commit current_user_id
                     recipe_id json_data)).
Proof.
  intros W. unfold Ratings.post_between.
  destruct (Db.get_int Recipe.id (Db.recipes db) recipe_id); [|exact W].
  destruct (Ratings.rating_by_user_and_recipe db current_user_id recipe_id);
    [exact W|].
  destruct json_data as [j|]; [|exact W].
  destruct (RatingSchema.is_empty j); [exact W|].
  destruct (RatingSchema.load_create j) as [[score comment]|]; [|exact W].
  pose proof (insert_rating_cases db_at_commit score comment current_user_id
                recipe_id) as C.
  destruct (Ratings.insert_rating db_at_commit score comment current_user_id
              recipe_id) as [[db'| |] new_rating]; try exact W.
  destruct C as (uid & _ & V & _ & ->). cbn [snd].
  apply well_keyed_insert; [exact W | reflexivity | exact V].
Qed.

Lemma rating_by_id_In (db : Db.t) (rating_id recipe_id : Z) (r : Rating.t) :
  Ratings.rating_by_id_and_recipe db rating_id recipe_id = Some r ->
  In r (Db.ratings db) /\ Rating.id r = rating_id
  /\ Rating.recipe_id r = recipe_id.
Proof.
  unfold Ratings.rating_by_id_and_recipe. intros F.
  apply find_some in F. destruct F as [H T].
  apply andb_true_iff in T. destruct T as [T1 T2].
  apply Z.eqb_eq in T1, T2. tauto.
Qed.

Lemma apply_update_keeps (r : Rating.t) (j : RatingSchema.json) :
  Rating.id (Ratings.apply_update r j) = Rating.id r
  /\ key (Ratings.apply_update r j) = key r.
Proof.
  unfold Ratings.apply_update.
  destruct (RatingSchema.score j), (RatingSchema.comment j); now split.
Qed.

Lemma well_keyed_put (auth : Http.credentials) (recipe_id rating_id : Z)
    (json_data : option RatingSchema.json) (db : Db.t) :
  well_keyed db ->
  well_keyed (snd (Ratings.RatingDetailResource_put auth recipe_id rating_id
                     json_data db)).
Proof.
  intros W. unfold Ratings.RatingDetailResource_put, Http.jwt_required.
  destruct auth as [| |sub]; try exact W.
  destruct (Db.get_int Recipe.id (Db.recipes db) recipe_id); [|exact W].
  destruct (Ratings.rating_by_id_and_recipe db rating_id recipe_id)
    as [rating|] eqn:F; [|exact W].
  destruct (Py.ne _ _); [exact W|].
  destruct json_data as [j|]; [|exact W].
  destruct (RatingSchema.is_empty j); [exact W|].
  destruct (RatingSchema.load_update j) as [validated|]; [|exact W].
  cbn [snd]. apply rating_by_id_In in F. destruct F as (H & _ & _).
  destruct (apply_update_keeps rating validated) as [Eid Ekey].
  destruct W as [Hid Hkey]. split.
  - unfold unique_ids in *. cbn [Db.ratings Db.set_ratings].
    rewrite (map_update Rating.id Rating.id _ rating); assumption.
  - unfold unique_user_recipe in *. cbn [Db.ratings Db.set_ratings].
    rewrite (map_update Rating.id key _ rating); assumption.
Qed.

Lemma well_keyed_filter (db : Db.t) (keep : Rating.t -> bool) :
  well_keyed db -> well_keyed (Db.set_ratings db (filter keep (Db.ratings db))).
Proof.
  intros [Hid Hkey]. split.
  - unfold unique_ids in *. cbn [Db.ratings Db.set_ratings].
    now apply NoDup_map_filter.
  - unfold unique_user_recipe in *. cbn [Db.ratings Db.set_ratings].
    now apply NoDup_map_filter.
Qed.

Lemma well_keyed_delete (auth : Http.credentials) (recipe_id rating_id : Z)
    (db : Db.t) :
  well_keyed db ->
  well_keyed (snd (Ratings.RatingDetailResource_delete auth recipe_id
                     rating_id db)).
Proof.
  intros W. unfold Ratings.RatingDetailResource_delete, Http.jwt_required.
  destruct auth as [| |sub]; try exact W.
  destruct (Db.get_int Recipe.id (Db.recipes db) recipe_id); [|exact W].
  destruct (Ratings.rating_by_id_and_recipe db rating_id recipe_id)
    as [rating|]; [|exact W].
  destruct (Py.ne _ _); [exact W|].
  cbn [snd]. unfold Db.delete. now apply well_keyed_filter.
Qed.

Lemma well_keyed_step (db db' : Db.t) :
  step db db' -> well_keyed db -> well_keyed db'.
Proof.
  intros S W. destruct S.
  - unfold Ratings.RatingListResource_post, Http.jwt_required.
    destruct auth; try exact W. now apply well_keyed_post_between.
  - now apply well_keyed_post_between.
  - now apply well_keyed_put.
  - now apply well_keyed_delete.
  - destruct W as [Hid Hkey]. split.
    + unfold unique_ids in *. cbn [Db.ratings Recipes.delete_cascade].
      now apply NoDup_map_filter.
    + unfold unique_user_recipe in *. cbn [Db.ratings Recipes.delete_cascade].
      now apply NoDup_map_filter.
  - destruct W as [Hid Hkey].
    unfold well_keyed, unique_ids, unique_user_recipe. rewrite H.
    now split.
Qed.

Lemma reachable_well_keyed (db : Db.t) : reachable db -> well_keyed db.
Proof.
  induction 1 as [db E|db db' _ IH S].
  - unfold well_keyed, unique_ids, unique_user_recipe. rewrite E.
    split; constructor.
  - now apply (well_keyed_step db).
Qed.

End RatingFacts.

Section ScoreFacts.

Import RatingInvariant.

Lemma score_in_range_spec (s : Z) :
  RatingSchema.score_in_range s = true -> 1 <= s <= 5.
Proof. unfold RatingSchema.score_in_range. lia. Qed.

Lemma load_create_score (j : RatingSchema.json) (score : Z)
    (comment : option string) :
  RatingSchema.load_create j = Some (score, comment) -> 1 <= score <= 5.
Proof.
  unfold RatingSchema.load_create.
  destruct (RatingSchema.score j) as [s|]; [|discriminate].
  destruct (RatingSchema.score_in_range s) eqn:R; [|discriminate].
  destruct (RatingSchema.comment_ok _); [|discriminate].
  intros [= <- _]. now apply score_in_range_spec.
Qed.

Lemma load_update_score (j validated : RatingSchema.json) (s : Z) :
  RatingSchema.load_update j = Some validated ->
  RatingSchema.score validated = Some s -> 1 <= s <= 5.
Proof.
  unfold RatingSchema.load_update.
  destruct (RatingSchema.score j) as [s'|] eqn:E.
  - destruct (RatingSchema.score_in_range s') eqn:R; [|discriminate].
    destruct (RatingSchema.comment_ok _); [|discriminate].
    intros [= <-] S. rewrite E in S. injection S as <-.
    now apply score_in_range_spec.
  - destruct (_ && _); [|discriminate]. intros [= <-] S. congruence.
Qed.

Lemma scores_valid_post_between (db db_at_commit : Db.t)
    (current_user_id : Py.value) (recipe_id : Z)
    (json_data : option RatingSchema.json) :
  scores_valid (Db.ratings db_at_commit) ->
  scores_valid
    (Db.ratings (snd (Ratings.post_between db db_at_commit current_user_id
                        recipe_id json_data))).
Proof.
  intros V. unfold Ratings.post_between.
  destruct (Db.get_int Recipe.id (Db.recipes db) recipe_id); [|exact V].
  destruct (Ratings.rating_by_user_and_recipe db current_user_id recipe_id);
    [exact V|].
  destruct json_data as [j|]; [|exact V].
  destruct (RatingSchema.is_empty j); [exact V|].
  destruct (RatingSchema.load_create j) as [[score comment]|] eqn:L;
    [|exact V].
  pose proof (insert_rating_cases db_at_commit score comment current_user_id
                recipe_id) as C.
  destruct (Ratings.insert_rating db_at_commit score comment current_user_id
              recipe_id) as [[db'| |] new_rating]; try exact V.
  destruct C as (uid & _ & _ & _ & ->). cbn [snd Db.ratings Db.set_ratings].
  apply Forall_app. split; [exact V|].
  constructor; [|constructor]. cbn [Rating.score].
  now apply (load_create_score j score comment).
Qed.

Lemma scores_valid_put (auth : Http.credentials) (recipe_id rating_id : Z)
    (json_data : option RatingSchema.json) (db : Db.t) :
  scores_valid (Db.ratings db) ->
  scores_valid
    (Db.ratings (snd (Ratings.RatingDetailResource_put auth recipe_id
                        rating_id json_data db))).
Proof.
  intros V. unfold Ratings.RatingDetailResource_put, Http.jwt_required.
  destruct auth as [| |sub]; try exact V.
  destruct (Db.get_int Recipe.id (Db.recipes db) recipe_id); [|exact V].
  destruct (Ratings.rating_by_id_and_recipe db rating_id recipe_id)
    as [rating|] eqn:F; [|exact V].
  destruct (Py.ne _ _); [exact V|].
  destruct json_data as [j|]; [|exact V].
  destruct (RatingSchema.is_empty j); [exact V|].
  destruct (RatingSchema.load_update j) as [validated|] eqn:L; [|exact V].
  cbn [snd Db.ratings Db.set_ratings].
  apply rating_by_id_In in F. destruct F as (H & _ & _).
  unfold scores_valid in *. rewrite Forall_forall in V.
  unfold Db.update. apply Forall_forall. intros r Hr.
  apply in_map_iff in Hr. destruct Hr as (old & <- & Hold).
  destruct (Rating.id old =? _); [|now apply V].
  unfold Ratings.apply_update.
  destruct (RatingSchema.score validated) as [s|] eqn:S.
  - assert (1 <= s <= 5) by now apply (load_update_score j validated).
    now destruct (RatingSchema.comment validated).
  - specialize (V rating H).
    now destruct (RatingSchema.comment validated).
Qed.

Lemma scores_valid_filter (keep : Rating.t -> bool)
    (ratings : list Rating.t) :
  scores_valid ratings -> scores_valid (filter keep ratings).
Proof.
  unfold scores_valid. rewrite !Forall_forall. intros V r Hr.
  apply filter_In in Hr. now apply V.
Qed.

Lemma scores_valid_step (db db' : Db.t) :
  step db db' -> scores_valid (Db.ratings db) -> scores_valid (Db.ratings db').
Proof.
  intros S V. destruct S.
  - unfold Ratings.RatingListResource_post, Http.jwt_required.
    destruct auth; try exact V. now apply scores_valid_post_between.
  - now apply scores_valid_post_between.
  - now apply scores_valid_put.
  - unfold Ratings.RatingDetailResource_delete, Http.jwt_required.
    destruct auth as [| |sub]; try exact V.
    destruct (Db.get_int Recipe.id (Db.recipes db) recipe_id); [|exact V].
    destruct (Ratings.rating_by_id_and_recipe db rating_id recipe_id);
      [|exact V].
    destruct (Py.ne _ _); [exact V|].
    cbn [snd Db.ratings Db.set_ratings]. now apply scores_valid_filter.
  - cbn [Recipes.delete_cascade Db.ratings]. now apply scores_valid_filter.
  - now rewrite H.
Qed.

(** In every store reached through the handlers the scores are 1 to 5, for
    the ratings of each recipe in particular. *)
Lemma reachable_scores_valid (db : Db.t) (recipe_id : Z) :
  reachable db -> scores_valid (Db.ratings_of db recipe_id).
Proof.
  intros R. apply scores_valid_filter.
  induction R as [db E|db db' _ IH S].
  - rewrite E. constructor.
  - now apply (scores_valid_step db).
Qed.

(** The sample store with three ratings is what three POSTs leave. *)
Lemma db_three_ratings_reachable : reachable Sample.db_three_ratings.
Proof.
  pose (post := fun u score db =>
          snd (Ratings.RatingListResource_post (Sample.token_of u) 1
                 (Some (RatingSchema.mk (Some score) None)) db)).
  apply (reachable_step
           (post Sample.bob 2 (post Sample.alice 1 Sample.db_unrated))).
  - apply (reachable_step (post Sample.alice 1 Sample.db_unrated)).
    + apply (reachable_step Sample.db_unrated).
      * now apply reachable_init.
      * apply step_post.
    + apply step_post.
  - exact (step_post (Sample.token_of Sample.root) 1
             (Some (RatingSchema.mk (Some 3) None))
             (post Sample.bob 2 (post Sample.alice 1 Sample.db_unrated))).
Qed.

(** The stores that [Sample.rated] builds are left by POSTs. *)
Lemma rated_reachable (scores : list Z) : reachable (Sample.rated scores).
Proof.
  unfold Sample.rated.
  generalize (combine (map Z.of_nat (seq 1 (List.length scores))) scores).
  assert (H : forall l db,
             reachable db ->
             reachable (fold_left
                          (fun db us => Sample.rate db (fst us) (snd us))
                          l db)).
  { induction l as [|us l IH]; intros db R; cbn [fold_left]; [exact R|].
    apply IH. apply (reachable_step db); [exact R | apply step_post]. }
  intros l. apply H. now apply reachable_init.
Qed.

End ScoreFacts.

(** ** Facts about the aggregation *)

Section StatsFacts.

Import RatingInvariant.

Lemma sum_scores_at_least_count (ratings : list Rating.t) :
  scores_valid ratings -> Stats.count ratings <= Stats.sum_scores ratings.
Proof.
  unfold Stats.count, Stats.sum_scores.
  induction 1 as [|r rs Hr _ IH]; cbn [map fold_right List.length]; lia.
Qed.

Lemma count_pos (r : Rating.t) (rs : list Rating.t) :
  0 < Stats.count (r :: rs).
Proof. unfold Stats.count. cbn [List.length]. lia. Qed.

Lemma sum_scores_at_most (ratings : list Rating.t) :
  scores_valid ratings -> Stats.sum_scores ratings <= 5 * Stats.count ratings.
Proof.
  unfold Stats.count, Stats.sum_scores.
  induction 1 as [|r rs Hr _ IH]; cbn [map fold_right List.length]; lia.
Qed.

(** The number of ratings with a score, read on the list of the scores. *)
Lemma count_score_count_occ (ratings : list Rating.t) (s : Z) :
  Stats.count_score ratings s
  = Z.of_nat (count_occ Z.eq_dec (map Rating.score ratings) s).
Proof.
  unfold Stats.count_score. f_equal.
  induction ratings as [|r rs IH]; [reflexivity|].
  cbn [filter map count_occ].
  destruct (Z.eqb_spec (Rating.score r) s) as [E|E];
    destruct (Z.eq_dec (Rating.score r) s) as [E'|E'];
    try contradiction; cbn [List.length]; now rewrite IH.
Qed.

Lemma count_score_bounds (ratings : list Rating.t) (s : Z) :
  0 <= Stats.count_score ratings s <= Stats.count ratings.
Proof.
  unfold Stats.count_score, Stats.count. split; [lia|].
  apply Nat2Z.inj_le.
  induction ratings as [|r rs IH]; [reflexivity|].
  cbn [filter]. destruct (Rating.score r =? s); cbn [List.length]; lia.
Qed.

Lemma count_zero_iff (ratings : list Rating.t) :
  (Stats.count ratings =? 0) = true <-> ratings = [].
Proof.
  unfold Stats.count. rewrite Z.eqb_eq.
  destruct ratings; cbn [List.length]; split; intros H;
    (reflexivity || lia || discriminate).
Qed.

(** [Recipe.average_rating] on a recipe with ratings. *)
Lemma Recipe_average_rating_rated (db : Db.t) (recipe : Recipe.t) :
  Db.ratings_of db (Recipe.id recipe) <> [] ->
  Stats.Recipe_average_rating db recipe
  = Py.round (Stats.mean (Db.ratings_of db (Recipe.id recipe))) 2.
Proof.
  intros Hne. unfold Stats.Recipe_average_rating. cbv zeta.
  destruct (Stats.count (Db.ratings_of db (Recipe.id recipe)) =? 0) eqn:E;
    [|reflexivity].
  apply count_zero_iff in E. contradiction.
Qed.

Lemma Recipe_average_rating_unrated (db : Db.t) (recipe : Recipe.t) :
  Db.ratings_of db (Recipe.id recipe) = [] ->
  Stats.Recipe_average_rating db recipe = 0%Q.
Proof.
  intros E. unfold Stats.Recipe_average_rating. now rewrite E.
Qed.

(** With valid scores the five buckets partition the ratings. *)
Lemma buckets_sum_to_count (ratings : list Rating.t) :
  scores_valid ratings ->
  Stats.count_score ratings 5 + Stats.count_score ratings 4
  + Stats.count_score ratings 3 + Stats.count_score ratings 2
  + Stats.count_score ratings 1 = Stats.count ratings.
Proof.
  unfold Stats.count_score, Stats.count.
  induction 1 as [|r rs Hr _ IH]; [reflexivity|].
  cbn [filter].
  assert (C : Rating.score r = 1 \/ Rating.score r = 2 \/ Rating.score r = 3
              \/ Rating.score r = 4 \/ Rating.score r = 5) by lia.
  destruct C as [E|[E|[E|[E|E]]]]; rewrite E; cbn [Z.eqb Pos.eqb];
    cbn [List.length]; lia.
Qed.

Lemma bucket_distribution (ratings : list Rating.t) (score : Z) :
  1 <= score <= 5 ->
  Stats.bucket
    (Stats.mk_stars (Stats.count_score ratings 5) (Stats.count_score ratings 4)
       (Stats.count_score ratings 3) (Stats.count_score ratings 2)
       (Stats.count_score ratings 1)) score
  = Some (Stats.count_score ratings score).
Proof.
  intros H.
  assert (C : score = 1 \/ score = 2 \/ score = 3 \/ score = 4 \/ score = 5)
    by lia.
  destruct C as [E|[E|[E|[E|E]]]]; subst score; reflexivity.
Qed.

(** The body of the statistics response for a recipe with ratings. *)
Lemma stats_of_rated (db : Db.t) (recipe_id : Z) (recipe : Recipe.t) :
  Db.fits_integer recipe_id = true ->
  Db.get_int Recipe.id (Db.recipes db) recipe_id = Some recipe ->
  Db.ratings_of db recipe_id <> [] ->
  let ratings := Db.ratings_of db recipe_id in
  let distribution :=
    Stats.mk_stars (Stats.count_score ratings 5) (Stats.count_score ratings 4)
      (Stats.count_score ratings 3) (Stats.count_score ratings 2)
      (Stats.count_score ratings 1) in
  Http.data (Stats.RecipeRatingStatsResource_get recipe_id db)
  = Some (Stats.mk_data recipe_id (Recipe.title recipe) (Stats.count ratings)
            (Some (Py.round (Stats.mean ratings) 2)) distribution
            (Some (Stats.mk_stars
                     (Stats.percentage (Stats.count_score ratings 5)
                        (Stats.count ratings))
                     (Stats.percentage (Stats.count_score ratings 4)
                        (Stats.count ratings))
                     (Stats.percentage (Stats.count_score ratings 3)
                        (Stats.count ratings))
                     (Stats.percentage (Stats.count_score ratings 2)
                        (Stats.count ratings))
                     (Stats.percentage (Stats.count_score ratings 1)
                        (Stats.count ratings))))).
Proof.
  intros F G Hne. unfold Stats.RecipeRatingStatsResource_get.
  rewrite F, G. cbn [negb].
  destruct (Db.ratings_of db recipe_id) as [|r rs]; [congruence|].
  reflexivity.
Qed.

Lemma stats_of_unrated (db : Db.t) (recipe_id : Z) (recipe : Recipe.t) :
  Db.fits_integer recipe_id = true ->
  Db.get_int Recipe.id (Db.recipes db) recipe_id = Some recipe ->
  Db.ratings_of db recipe_id = [] ->
  Http.data (Stats.RecipeRatingStatsResource_get recipe_id db)
  = Some (Stats.mk_data recipe_id (Recipe.title recipe) 0 None
            (Stats.mk_stars 0 0 0 0 0) None).
Proof.
  intros F G E. unfold Stats.RecipeRatingStatsResource_get.
  now rewrite F, G, E.
Qed.

End StatsFacts.

Section RatingClaims.

Import RatingInvariant.

Lemma rating_by_user_found (db : Db.t) (user_id recipe_id : Z)
    (existing : Rating.t) :
  In existing (Db.ratings db) ->
  Rating.user_id existing = user_id ->
  Rating.recipe_id existing = recipe_id ->
  exists r,
    Ratings.rating_by_user_and_recipe db (Py.PyStr (Py.str user_id)) recipe_id
    = Some r.
Proof.
  intros H Eu Er. unfold Ratings.rating_by_user_and_recipe.
  rewrite sql_integer_identity.
  destruct (find _ (Db.ratings db)) as [r|] eqn:F; [now exists r|].
  exfalso. apply (find_none _ _ F) in H.
  rewrite Eu, Er, !Z.eqb_refl in H. discriminate.
Qed.

Lemma violates_unique_of_In (db : Db.t) (user_id recipe_id : Z)
    (other : Rating.t) :
  In other (Db.ratings db) ->
  Rating.user_id other = user_id ->
  Rating.recipe_id other = recipe_id ->
  Ratings.violates_unique_user_recipe db user_id recipe_id = true.
Proof.
  intros H Eu Er. unfold Ratings.violates_unique_user_recipe.
  apply existsb_exists. exists other. split; [assumption|].
  now rewrite Eu, Er, !Z.eqb_refl.
Qed.

Lemma load_create_not_empty (j : RatingSchema.json) v :
  RatingSchema.load_create j = Some v -> RatingSchema.is_empty j = false.
Proof.
  unfold RatingSchema.load_create, RatingSchema.is_empty.
  destruct (RatingSchema.score j); [reflexivity | discriminate].
Qed.

(** C1.  At most one rating per (user_id, recipe_id) exists in every store
    reached through the handlers, racing posts included; a POST by a user
    who has already rated the recipe is answered 400 "already rated" and
    leaves the store as it was; and when another request commits the same
    user's rating between the handler's check and its own commit, the
    constraint violation is answered 400 "already rated" as well, the store
    untouched. *)
Theorem one_rating_per_user_and_recipe :
  (forall db : Db.t, reachable db -> unique_user_recipe db)
  /\ (forall (db : Db.t) (user_id recipe_id : Z) (recipe : Recipe.t)
        (existing : Rating.t) (json_data : option RatingSchema.json),
        Db.get_int Recipe.id (Db.recipes db) recipe_id = Some recipe ->
        In existing (Db.ratings db) ->
        Rating.user_id existing = user_id ->
        Rating.recipe_id existing = recipe_id ->
        Ratings.RatingListResource_post (Auth.create_access_token user_id)
          recipe_id json_data db
        = (Http.error_response
             "You have already rated this recipe. Use PUT to update your rating."
             400, db))
  /\ (forall (db db_at_commit : Db.t) (user_id recipe_id : Z)
        (recipe : Recipe.t) (j : RatingSchema.json) (score : Z)
        (comment : option string) (other : Rating.t),
        Db.get_int Recipe.id (Db.recipes db) recipe_id = Some recipe ->
        Ratings.rating_by_user_and_recipe db (Py.PyStr (Py.str user_id))
          recipe_id = None ->
        RatingSchema.load_create j = Some (score, comment) ->
        In other (Db.ratings db_at_commit) ->
        Rating.user_id other = user_id ->
        Rating.recipe_id other = recipe_id ->
        Ratings.post_between db db_at_commit (Py.PyStr (Py.str user_id))
          recipe_id (Some j)
        = (Http.error_response "You have already rated this recipe" 400,
           db_at_commit)).
Proof.
  split; [|split].
  - intros db R. now apply reachable_well_keyed.
  - intros db user_id recipe_id recipe existing json_data G H Eu Er.
    destruct (rating_by_user_found db user_id recipe_id existing H Eu Er)
      as [r F].
    unfold Ratings.RatingListResource_post, Auth.create_access_token,
      Http.jwt_required, Ratings.post_between.
    now rewrite G, F.
  - intros db db_at_commit user_id recipe_id recipe j score comment other
      G F L H Eu Er.
    unfold Ratings.post_between.
    rewrite G, F, (load_create_not_empty j _ L), L.
    unfold Ratings.insert_rating. rewrite sql_integer_identity.
    now rewrite (violates_unique_of_In db_at_commit user_id recipe_id other).
Qed.

Lemma one_rating_per_user_and_recipe_witness :
  Ratings.RatingListResource_post (Sample.token_of Sample.bob) 1
    (Some (RatingSchema.mk (Some 5) None)) Sample.db_rated
  = (Http.error_response
       "You have already rated this recipe. Use PUT to update your rating."
       400, Sample.db_rated).
Proof.
  exact (proj1 (proj2 one_rating_per_user_and_recipe) Sample.db_rated 2 1
           Sample.draft Sample.four_stars_by_bob
           (Some (RatingSchema.mk (Some 5) None)) eq_refl
           (or_introl eq_refl) eq_refl eq_refl).
Defined.

End RatingClaims.

Section AggregationClaims.

Import RatingInvariant.

(** [Py.truediv] and the product by 100 give what the binary64 arithmetic
    of the Standard Library gives, on every total and count up to 60
    ratings and on every share of up to 60 ratings. *)
Lemma truediv_as_SpecFloat :
  forallb
    (fun count =>
       forallb
         (fun total =>
            Qeq_bool (Py.truediv total count) (RoundSpec.div total count)
            && Qeq_bool (Py.mul (Py.truediv total count) 100)
                 (RoundSpec.div_mul total count 100))
         (map Z.of_nat (seq 0 (5 * Z.to_nat count + 1))))
    (map Z.of_nat (seq 1 60))
  = true.
Proof. vm_compute. reflexivity. Qed.

(** [Recipe.to_dict], which no handler calls, carries the number 0 under
    'average_rating' for a recipe without ratings. *)
Lemma average_rating_zero_in_to_dict :
  Stats.d_rating_count (Stats.Recipe_to_dict Sample.db_unrated Sample.draft)
  = 0
  /\ Stats.d_average_rating
       (Stats.Recipe_to_dict Sample.db_unrated Sample.draft) = 0%Q.
Proof. split; reflexivity. Qed.

(** C2.  In every store reached through the handlers, and for every recipe
    of it (with fewer than 2^40 ratings), the statistics response and the
    recipe response schema carry null as the average when the recipe has
    no rating; when it has one, both carry the same number: the float
    nearest to a decimal of two places, [k] hundredths, that is at most
    half a hundredth from the sum of the recipe's scores divided by their
    count. *)
Theorem average_rating_absent_or_rounded_mean
    (db : Db.t) (recipe : Recipe.t) :
  reachable db ->
  Db.get_int Recipe.id (Db.recipes db) (Recipe.id recipe) = Some recipe ->
  Db.fits_integer (Recipe.id recipe) = true ->
  let scores :=
    map Rating.score
      (filter (fun r => Rating.recipe_id r =? Recipe.id recipe)
         (Db.ratings db)) in
  let total := fold_right Z.add 0 scores in
  let count := Z.of_nat (List.length scores) in
  count < 2 ^ 40 ->
  let stats := Stats.RecipeRatingStatsResource_get (Recipe.id recipe) db in
  (scores = [] ->
     Http.status_code stats = 200
     /\ option_map Stats.average_rating (Http.data stats) = Some None
     /\ Stats.get_average_rating db recipe = None)
  /\ (scores <> [] ->
        exists k : Z,
          (Qabs (inject_Z k - inject_Z total / inject_Z count * 100)
           <= 1 # 2)%Q
          /\ Http.status_code stats = 200
          /\ option_map Stats.average_rating (Http.data stats)
             = Some (Some (Py.nearest (inject_Z k / 100)))
          /\ Stats.get_average_rating db recipe
             = Some (Py.nearest (inject_Z k / 100))).
Proof.
  intros R G F scores total count Hc stats.
  pose proof (reachable_scores_valid db (Recipe.id recipe) R) as V.
  set (ratings := Db.ratings_of db (Recipe.id recipe)) in *.
  assert (Es : scores = map Rating.score ratings) by reflexivity.
  assert (Et : total = Stats.sum_scores ratings) by reflexivity.
  assert (Ec : count = Stats.count ratings).
  { unfold count, Stats.count. now rewrite Es, length_map. }
  split.
  - intros E. rewrite Es in E. apply map_eq_nil in E.
    subst stats. unfold Stats.RecipeRatingStatsResource_get.
    unfold Stats.get_average_rating, Stats.Recipe_average_rating.
    fold ratings. rewrite F, G, E. repeat split; reflexivity.
  - intros Hne.
    assert (Hr : ratings <> []).
    { intros E. apply Hne. rewrite Es, E. reflexivity. }
    assert (Hp : 0 < Stats.count ratings).
    { destruct ratings as [|r rs]; [congruence | apply count_pos]. }
    destruct (round_truediv (Stats.sum_scores ratings) (Stats.count ratings))
      as (k & Hk & Hn & Hi & Ht).
    { lia. }
    { split; [now apply sum_scores_at_least_count
             | now apply sum_scores_at_most]. }
    exists k. rewrite Et, Ec. split; [exact Hn|].
    subst stats.
    assert (D : Http.data
                  (Stats.RecipeRatingStatsResource_get (Recipe.id recipe) db)
                = Some (Stats.mk_data (Recipe.id recipe) (Recipe.title recipe)
                          (Stats.count ratings)
                          (Some (Py.round (Stats.mean ratings) 2))
                          (Stats.mk_stars (Stats.count_score ratings 5)
                             (Stats.count_score ratings 4)
                             (Stats.count_score ratings 3)
                             (Stats.count_score ratings 2)
                             (Stats.count_score ratings 1))
                          (Some (Stats.mk_stars
                             (Stats.percentage (Stats.count_score ratings 5)
                                (Stats.count ratings))
                             (Stats.percentage (Stats.count_score ratings 4)
                                (Stats.count ratings))
                             (Stats.percentage (Stats.count_score ratings 3)
                                (Stats.count ratings))
                             (Stats.percentage (Stats.count_score ratings 2)
                                (Stats.count ratings))
                             (Stats.percentage (Stats.count_score ratings 1)
                                (Stats.count ratings)))))).
    { exact (stats_of_rated db (Recipe.id recipe) recipe F G Hr). }
    rewrite D. split; [|split].
    + unfold Stats.RecipeRatingStatsResource_get. rewrite F, G.
      fold ratings. destruct ratings; [congruence | reflexivity].
    + cbn [option_map Stats.average_rating]. unfold Stats.mean.
      now rewrite Hk.
    + unfold Stats.get_average_rating.
      rewrite (Recipe_average_rating_rated db recipe Hr). fold ratings.
      unfold Stats.mean. rewrite Hk, Hi, Ht. reflexivity.
Qed.

Lemma average_rating_absent_or_rounded_mean_witness :
  exists k : Z,
    option_map Stats.average_rating
      (Http.data
         (Stats.RecipeRatingStatsResource_get 1 Sample.db_three_ratings))
    = Some (Some (Py.nearest (inject_Z k / 100)))
    /\ Stats.get_average_rating Sample.db_three_ratings Sample.draft
       = Some (Py.nearest (inject_Z k / 100)).
Proof.
  destruct (average_rating_absent_or_rounded_mean Sample.db_three_ratings
              Sample.draft db_three_ratings_reachable eq_refl eq_refl
              eq_refl) as [_ R].
  destruct R as (k & _ & _ & R1 & R2).
  - discriminate.
  - exists k. split; [exact R1 | exact R2].
Defined.

(** At a tie the decimal below may be the one given: 40 ratings that add
    up to 43 have the mean 1.075; the float of 43/40 lies below it, and
    both responses carry 1.07. *)
Lemma average_rating_at_a_tie :
  reachable Sample.db_forty_ratings
  /\ map Rating.score (Db.ratings_of Sample.db_forty_ratings 1)
     = 4 :: repeat 1 39%nat
  /\ option_map Stats.average_rating
       (Http.data
          (Stats.RecipeRatingStatsResource_get 1 Sample.db_forty_ratings))
     = Some (Some (Py.nearest (107 # 100)))
  /\ Stats.get_average_rating Sample.db_forty_ratings Sample.draft
     = Some (Py.nearest (107 # 100))
  /\ (Py.truediv 43 40 < 1075 # 1000)%Q.
Proof.
  split; [apply rated_reachable|].
  vm_compute. repeat split; reflexivity.
Qed.

(** C7.  In every store reached through the handlers, for a recipe with at
    least one rating (and fewer than 2^40) the statistics response holds
    under each of 1..5 the number of the recipe's ratings with that score,
    the five numbers add up to the total, and each percentage is the float
    nearest to a decimal of one place, [k] tenths, that is at most half a
    tenth from the bucket's count divided by the total times 100; the
    percentages of some recipe do not add up to 100. *)
Theorem rating_distribution_counts_and_percentages :
  (forall (db : Db.t) (recipe_id : Z) (recipe : Recipe.t),
     reachable db ->
     Db.get_int Recipe.id (Db.recipes db) recipe_id = Some recipe ->
     Db.fits_integer recipe_id = true ->
     let scores :=
       map Rating.score
         (filter (fun r => Rating.recipe_id r =? recipe_id)
            (Db.ratings db)) in
     let total := Z.of_nat (List.length scores) in
     scores <> [] ->
     total < 2 ^ 40 ->
     exists (d : Stats.data) (p : Stats.stars Q),
       Http.data (Stats.RecipeRatingStatsResource_get recipe_id db) = Some d
       /\ Stats.distribution_percentages d = Some p
       /\ Stats.total_ratings d = total
       /\ (forall score : Z,
             1 <= score <= 5 ->
             Stats.bucket (Stats.distribution d) score
             = Some (Z.of_nat (count_occ Z.eq_dec scores score)))
       /\ Stats.five_stars (Stats.distribution d)
          + Stats.four_stars (Stats.distribution d)
          + Stats.three_stars (Stats.distribution d)
          + Stats.two_stars (Stats.distribution d)
          + Stats.one_star (Stats.distribution d) = total
       /\ (forall score : Z,
             1 <= score <= 5 ->
             exists k : Z,
               (Qabs (inject_Z k
                      - inject_Z (Z.of_nat (count_occ Z.eq_dec scores score))
                        / inject_Z total * 100 * 10) <= 1 # 2)%Q
               /\ Stats.bucket p score
                  = Some (Py.nearest (inject_Z k / 10))))
  /\ (exists p : Stats.stars Q,
        option_map Stats.distribution_percentages
          (Http.data
             (Stats.RecipeRatingStatsResource_get 1 Sample.db_three_ratings))
        = Some (Some p)
        /\ ~ (Stats.five_stars p + Stats.four_stars p + Stats.three_stars p
              + Stats.two_stars p + Stats.one_star p == 100)%Q).
Proof.
  split.
  - intros db recipe_id recipe R G F scores total Hne Ht.
    pose proof (reachable_scores_valid db recipe_id R) as V.
    set (ratings := Db.ratings_of db recipe_id) in *.
    assert (Es : scores = map Rating.score ratings) by reflexivity.
    assert (Ec : total = Stats.count ratings).
    { unfold total, Stats.count. now rewrite Es, length_map. }
    assert (Hr : ratings <> []).
    { intros E. apply Hne. rewrite Es, E. reflexivity. }
    assert (Hp : 0 < Stats.count ratings).
    { destruct ratings as [|r rs]; [congruence | apply count_pos]. }
    eexists. eexists.
    split; [exact (stats_of_rated db recipe_id recipe F G Hr)|].
    split; [reflexivity|].
    cbn [Stats.total_ratings Stats.distribution Stats.five_stars
           Stats.four_stars Stats.three_stars Stats.two_stars Stats.one_star].
    fold ratings. split; [now rewrite Ec|]. split; [|split].
    + intros score Hs. rewrite Es, <- count_score_count_occ.
      now apply bucket_distribution.
    + rewrite Ec. now apply buckets_sum_to_count.
    + intros score Hs. rewrite Es, <- count_score_count_occ, Ec.
      destruct (round_share (Stats.count_score ratings score)
                  (Stats.count ratings)) as (k & Hk & Hn).
      { lia. }
      { apply count_score_bounds. }
      exists k. split; [exact Hn|].
      fold (Stats.percentage (Stats.count_score ratings score)
              (Stats.count ratings)) in Hk.
      rewrite <- Hk.
      assert (C : score = 1 \/ score = 2 \/ score = 3 \/ score = 4
                  \/ score = 5) by lia.
      destruct C as [E|[E|[E|[E|E]]]]; subst score; reflexivity.
  - eexists. split; [reflexivity|]. vm_compute. discriminate.
Qed.

Lemma rating_distribution_counts_and_percentages_witness :
  exists (d : Stats.data) (p : Stats.stars Q),
    Http.data (Stats.RecipeRatingStatsResource_get 1 Sample.db_three_ratings)
    = Some d
    /\ Stats.distribution_percentages d = Some p
    /\ Stats.total_ratings d = 3
    /\ Stats.five_stars (Stats.distribution d)
       + Stats.four_stars (Stats.distribution d)
       + Stats.three_stars (Stats.distribution d)
       + Stats.two_stars (Stats.distribution d)
       + Stats.one_star (Stats.distribution d) = 3.
Proof.
  assert (N : map Rating.score
                (filter (fun r => Rating.recipe_id r =? 1)
                   (Db.ratings Sample.db_three_ratings)) <> [])
    by discriminate.
  destruct (proj1 rating_distribution_counts_and_percentages
              Sample.db_three_ratings 1 Sample.draft
              db_three_ratings_reachable eq_refl eq_refl N eq_refl)
    as (d & p & Hd & Hp & Ht & _ & Hsum & _).
  exists d, p. repeat split; assumption.
Defined.

(** At a tie the decimal below may be the one given: 23 of 80 ratings are
    28.75 percent; the float of 23/80 times 100 lies below it, and the
    response carries 28.7. *)
Lemma percentage_at_a_tie :
  reachable Sample.db_eighty_ratings
  /\ map Rating.score (Db.ratings_of Sample.db_eighty_ratings 1)
     = (repeat 5 23%nat ++ repeat 1 57%nat)%list
  /\ (exists d : Stats.data,
        Http.data
          (Stats.RecipeRatingStatsResource_get 1 Sample.db_eighty_ratings)
        = Some d
        /\ option_map Stats.five_stars (Stats.distribution_percentages d)
           = Some (Py.nearest (287 # 10)))
  /\ (Py.mul (Py.truediv 23 80) 100 < 2875 # 100)%Q.
Proof.
  split; [apply rated_reachable|].
  split; [vm_compute; reflexivity|].
  split; [eexists; split; vm_compute; reflexivity|].
  vm_compute. reflexivity.
Qed.

End AggregationClaims.

Section SlugClaims.

Ltac not_created :=
  match goal with
  | H : Http.status_code _ = 201 |- _ => now (cbn in H)
  end.

(** The examples of the specification. *)
Example derive_slug_spicy_chicken :
  Slug.derive_slug "Spicy Chicken!!" = "spicy-chicken"
  /\ SlugSpec.deriveSlug "Spicy Chicken!!" = "spicy-chicken".
Proof. split; reflexivity. Qed.

Example second_spicy_chicken :
  option_map Recipe.slug
    (Http.data
       (fst (Recipes.RecipeListResource_post (Sample.token_of Sample.bob)
               (Some (Sample.recipe_json "Spicy Chicken"))
               Sample.db_unrated)))
  = Some "spicy-chicken-1".
Proof. reflexivity. Qed.

(** A valid request with a token of this application creates the recipe. *)
Lemma recipe_create_succeeds (db : Db.t) (user_id : Z)
    (j : RecipeSchema.json) (validated : RecipeSchema.created)
    (category : Category.t) :
  RecipeSchema.load_create j = Some validated ->
  Db.get_int Category.id (Db.categories db)
    (RecipeSchema.c_category_id validated) = Some category ->
  Http.status_code
    (fst (Recipes.RecipeListResource_post (Auth.create_access_token user_id)
            (Some j) db)) = 201.
Proof.
  intros L G.
  unfold Recipes.RecipeListResource_post, Auth.create_access_token,
    Http.jwt_required.
  assert (E : RecipeSchema.is_empty j = false).
  { unfold RecipeSchema.load_create in L. unfold RecipeSchema.is_empty.
    destruct (RecipeSchema.title j); [reflexivity | discriminate]. }
  rewrite E, L, G, sql_integer_identity.
  destruct (ensure_unique_first_free db
              (Slug.derive_slug (RecipeSchema.c_title validated)))
    as (final & -> & _).
  reflexivity.
Qed.

(** C5, the claim as stated fails: a tab in the title is dropped by the
    handler, where [deriveSlug] puts a hyphen. *)
Lemma recipe_slug_drops_tab :
  option_map Recipe.slug
    (Http.data
       (fst (Recipes.RecipeListResource_post (Sample.token_of Sample.bob)
               (Some (Sample.recipe_json Sample.tab_title))
               Sample.db_unrated)))
  = Some "ab"
  /\ SlugSpec.deriveSlug Sample.tab_title = "a-b".
Proof. split; reflexivity. Qed.

(** C5, amended.  A recipe created with title t is stored with the first
    free name among c, c-1, c-2, ... where c is t lowercased, every space
    character replaced by a hyphen, characters outside [a-z0-9-] stripped
    (other whitespace with them), repeated hyphens collapsed and leading and
    trailing hyphens trimmed; when the only whitespace of t is the space
    character, c is [deriveSlug t]. *)
Theorem recipe_slug_derived_and_unique
    (auth : Http.credentials) (json_data : option RecipeSchema.json)
    (db : Db.t) :
  let result := Recipes.RecipeListResource_post auth json_data db in
  Http.status_code (fst result) = 201 ->
  exists (title : string) (new_recipe : Recipe.t),
    option_map RecipeSchema.title json_data = Some (Some title)
    /\ Http.data (fst result) = Some new_recipe
    /\ snd result = Db.set_recipes db (Db.recipes db ++ [new_recipe])%list
    /\ Recipe.title new_recipe = title
    /\ SlugSpec.first_free (Recipes.slug_taken db)
         (Py.strip_hyphens
            (Py.sub_hyphen_runs
               (Py.sub_non_slug_chars
                  (Py.replace " " "-" (Py.lower title)))))
         (Recipe.slug new_recipe)
    /\ (SlugSpec.spaces_only title = true ->
        SlugSpec.first_free (Recipes.slug_taken db)
          (SlugSpec.deriveSlug title) (Recipe.slug new_recipe)).
Proof.
  cbv zeta.
  unfold Recipes.RecipeListResource_post, Http.jwt_required.
  destruct auth as [| |sub]; try (intros; not_created).
  destruct json_data as [j|]; try (intros; not_created).
  destruct (RecipeSchema.is_empty j); try (intros; not_created).
  destruct (RecipeSchema.load_create j) as [validated|] eqn:L;
    try (intros; not_created).
  destruct (Db.get_int Category.id (Db.categories db)
              (RecipeSchema.c_category_id validated));
    try (intros; not_created).
  destruct (ensure_unique_first_free db
              (Slug.derive_slug (RecipeSchema.c_title validated)))
    as (final & -> & F).
  destruct (Db.sql_integer (Py.PyStr sub)) as [uid|];
    try (intros; not_created).
  intros _. cbn [fst snd Http.data Http.success_response].
  exists (RecipeSchema.c_title validated). eexists.
  split; [|split; [reflexivity|split; [reflexivity|split; [reflexivity|]]]].
  - unfold RecipeSchema.load_create in L. cbn [option_map].
    destruct (RecipeSchema.title j), (RecipeSchema.instructions j),
      (RecipeSchema.category_id j); try discriminate.
    destruct (_ && _); [|discriminate]. injection L as <-. reflexivity.
  - cbn [Recipe.slug]. split; [exact F|].
    intros S. rewrite <- (derive_slug_agrees _ S). exact F.
Qed.

Lemma recipe_slug_derived_and_unique_witness :
  exists (title : string) (new_recipe : Recipe.t),
    option_map RecipeSchema.title
      (Some (Sample.recipe_json "Spicy Chicken")) = Some (Some title)
    /\ Http.data
         (fst (Recipes.RecipeListResource_post (Sample.token_of Sample.bob)
                 (Some (Sample.recipe_json "Spicy Chicken"))
                 Sample.db_unrated)) = Some new_recipe
    /\ snd (Recipes.RecipeListResource_post (Sample.token_of Sample.bob)
              (Some (Sample.recipe_json "Spicy Chicken")) Sample.db_unrated)
       = Db.set_recipes Sample.db_unrated
           (Db.recipes Sample.db_unrated ++ [new_recipe])%list
    /\ Recipe.title new_recipe = title
    /\ SlugSpec.first_free (Recipes.slug_taken Sample.db_unrated)
         (Py.strip_hyphens
            (Py.sub_hyphen_runs
               (Py.sub_non_slug_chars
                  (Py.replace " " "-" (Py.lower title)))))
         (Recipe.slug new_recipe)
    /\ (SlugSpec.spaces_only title = true ->
        SlugSpec.first_free (Recipes.slug_taken Sample.db_unrated)
          (SlugSpec.deriveSlug title) (Recipe.slug new_recipe)).
Proof.
  apply (recipe_slug_derived_and_unique (Sample.token_of Sample.bob)
           (Some (Sample.recipe_json "Spicy Chicken")) Sample.db_unrated).
  reflexivity.
Defined.


Lemma violates_unique_false (db : Db.t) (c old : Category.t) :
  Categories.violates_unique db c = false ->
  In old (Db.categories db) ->
  Category.name old <> Category.name c /\ Category.slug old <> Category.slug c.
Proof.
  unfold Categories.violates_unique. intros V H.
  assert (X : String.eqb (Category.name old) (Category.name c)
              || String.eqb (Category.slug old) (Category.slug c) = false).
  { destruct (_ || _) eqn:E; [|reflexivity].
    rewrite <- V. symmetry. apply existsb_exists. now exists old. }
  apply orb_false_iff in X. destruct X as [X1 X2].
  now apply String.eqb_neq in X1, X2.
Qed.





End SlugClaims.

Section CategoryClaims.

Lemma get_int_pk {A : Type} (pk : A -> Z) (rows : list A) (k : Z) (row : A) :
  Db.get_int pk rows k = Some row -> In row rows /\ pk row = k.
Proof.
  unfold Db.get_int. intros F. apply find_some in F.
  destruct F as [H E]. now apply Z.eqb_eq in E.
Qed.

(** C8.  An admin's DELETE of a category that recipes refer to is answered
    400 and leaves the store as it was; it is answered 200, the category
    gone, when no recipe refers to it.  Whoever asks, a 200 means that the
    category had no recipe, any other answer leaves the store as it was,
    and the recipes are never touched. *)
Theorem category_with_recipes_is_not_deleted
    (auth : Http.credentials) (category_id : Z) (db : Db.t) :
  let result := Categories.CategoryDetailResource_delete auth category_id db in
  (forall (sub : string) (user : User.t) (category : Category.t),
     auth = Http.Token sub ->
     Db.get User.id (Db.users db) (Py.PyStr sub) = Some user ->
     User.is_admin user = true ->
     Db.get_int Category.id (Db.categories db) category_id = Some category ->
     (Db.recipes_of db category_id <> [] ->
      Http.status_code (fst result) = 400 /\ snd result = db)
     /\ (Db.recipes_of db category_id = [] ->
         Http.status_code (fst result) = 200
         /\ snd result
            = Db.set_categories db
                (Db.delete Category.id category_id (Db.categories db))
         /\ Db.get_int Category.id (Db.categories (snd result)) category_id
            = None))
  /\ (Http.status_code (fst result) = 200 -> Db.recipes_of db category_id = [])
  /\ (Http.status_code (fst result) <> 200 -> snd result = db)
  /\ Db.recipes (snd result) = Db.recipes db.
Proof.
  cbv zeta. split; [|split; [|split]].
  - intros sub user category -> U A G.
    unfold Categories.CategoryDetailResource_delete, Http.jwt_required.
    rewrite U. unfold Categories.not_admin. rewrite A. cbn [negb]. rewrite G.
    destruct (get_int_pk _ _ _ _ G) as [_ ->].
    split.
    + intros Hne. destruct (Db.recipes_of db category_id) as [|r rs];
        [congruence|].
      split; reflexivity.
    + intros ->. cbn [List.length Z.of_nat Z.ltb Z.compare fst snd].
      split; [reflexivity|]. split; [reflexivity|].
      cbn [Db.categories Db.set_categories]. unfold Db.get_int, Db.delete.
      destruct (find _ (filter _ _)) as [c|] eqn:F; [|reflexivity].
      apply find_some in F. destruct F as [F1 F2].
      apply filter_In in F1. destruct F1 as [_ F1].
      rewrite F2 in F1. discriminate.
  - unfold Categories.CategoryDetailResource_delete, Http.jwt_required.
    destruct auth as [| |sub]; try discriminate.
    destruct (Categories.not_admin _); try discriminate.
    destruct (Db.get_int Category.id (Db.categories db) category_id)
      as [category|] eqn:G; try discriminate.
    destruct (get_int_pk _ _ _ _ G) as [_ ->].
    destruct (Db.recipes_of db category_id) as [|r rs]; [reflexivity|].
    cbn. discriminate.
  - unfold Categories.CategoryDetailResource_delete, Http.jwt_required.
    destruct auth as [| |sub]; try reflexivity.
    destruct (Categories.not_admin _); try reflexivity.
    destruct (Db.get_int Category.id (Db.categories db) category_id)
      as [category|]; try reflexivity.
    destruct (0 <? _); [reflexivity|]. cbn. congruence.
  - unfold Categories.CategoryDetailResource_delete, Http.jwt_required.
    destruct auth as [| |sub]; try reflexivity.
    destruct (Categories.not_admin _); try reflexivity.
    destruct (Db.get_int Category.id (Db.categories db) category_id)
      as [category|]; try reflexivity.
    destruct (0 <? _); reflexivity.
Qed.

Lemma category_with_recipes_is_not_deleted_witness :
  Http.status_code
    (fst (Categories.CategoryDetailResource_delete
            (Sample.token_of Sample.root) 1 Sample.db_unrated)) = 400
  /\ snd (Categories.CategoryDetailResource_delete
            (Sample.token_of Sample.root) 1 Sample.db_unrated)
     = Sample.db_unrated.
Proof.
  refine (proj1 (proj1 (category_with_recipes_is_not_deleted
                          (Sample.token_of Sample.root) 1 Sample.db_unrated)
                   "3" Sample.root Sample.mains eq_refl eq_refl eq_refl
                   eq_refl) _).
  discriminate.
Defined.

End CategoryClaims.

(** ** Ownership checks against the token's subject *)

Section OwnershipClaims.

(** Who is let through to an unpublished recipe: the comparison with the
    owner never succeeds for a token of this application, so the admin flag
    of the token's user decides alone. *)
Lemma unpublished_recipe_read_by_admin_only (auth : Http.credentials)
    (recipe_id : Z) (db : Db.t) (recipe : Recipe.t) :
  Db.get_int Recipe.id (Db.recipes db) recipe_id = Some recipe ->
  Recipe.is_published recipe = false ->
  let response := Recipes.RecipeDetailResource_get auth recipe_id db in
  (forall (sub : string) (user : User.t),
     auth = Http.Token sub ->
     Db.get User.id (Db.users db) (Py.PyStr sub) = Some user ->
     User.is_admin user = true ->
     response
     = Http.success_response (Some (RecipeSchema.dump_detail db recipe))
         "Recipe retrieved successfully" 200)
  /\ ((forall (sub : string) (user : User.t),
         auth = Http.Token sub ->
         Db.get User.id (Db.users db) (Py.PyStr sub) = Some user ->
         User.is_admin user = false) ->
      response = Http.forbidden_response "This recipe is not published").
Proof.
  intros G P. cbv zeta. unfold Recipes.RecipeDetailResource_get.
  rewrite G, P. cbn [negb]. split.
  - intros sub user -> U A. cbn [Http.optional_jwt_identity].
    rewrite ne_str_int, U, A. reflexivity.
  - intros H. destruct auth as [| |sub]; try reflexivity.
    cbn [Http.optional_jwt_identity]. rewrite ne_str_int.
    destruct (Db.get User.id (Db.users db) (Py.PyStr sub)) as [user|] eqn:U;
      [|reflexivity].
    now rewrite (H sub user eq_refl U).
Qed.

(** C3, where the code departs from the claim: alice, who is not an admin,
    asks for her own unpublished recipe with the token issued to her and is
    answered 403; without a token the answer is 403 and for an admin 200
    with ingredients and ratings, as the claim says. *)
Theorem owner_is_refused_own_unpublished_recipe :
  Recipe.user_id Sample.draft = User.id Sample.alice
  /\ Recipe.is_published Sample.draft = false
  /\ Recipes.RecipeDetailResource_get (Sample.token_of Sample.alice) 1
       Sample.db_rated
     = Http.forbidden_response "This recipe is not published"
  /\ Http.status_code
       (Recipes.RecipeDetailResource_get Http.NoToken 1 Sample.db_rated) = 403
  /\ Http.status_code
       (Recipes.RecipeDetailResource_get (Sample.token_of Sample.bob) 1
          Sample.db_rated) = 403
  /\ option_map
       (fun d => (RecipeSchema.r_ingredients d, RecipeSchema.r_ratings d))
       (Http.data
          (Recipes.RecipeDetailResource_get (Sample.token_of Sample.root) 1
             Sample.db_rated))
     = Some ([Sample.salt], [Sample.four_stars_by_bob]).
Proof. repeat split; reflexivity. Qed.

(** Every bearer of a token is refused the update of a rating that exists,
    its author included. *)
Lemma rating_put_refused_to_everyone (sub : string) (recipe_id rating_id : Z)
    (json_data : option RatingSchema.json) (db : Db.t) (recipe : Recipe.t)
    (rating : Rating.t) :
  Db.get_int Recipe.id (Db.recipes db) recipe_id = Some recipe ->
  Ratings.rating_by_id_and_recipe db rating_id recipe_id = Some rating ->
  Ratings.RatingDetailResource_put (Http.Token sub) recipe_id rating_id
    json_data db
  = (Http.forbidden_response "You can only update your own ratings", db).
Proof.
  intros G F. unfold Ratings.RatingDetailResource_put, Http.jwt_required.
  now rewrite G, F, ne_int_str.
Qed.

Lemma rating_delete_refused_to_everyone (sub : string)
    (recipe_id rating_id : Z) (db : Db.t) (recipe : Recipe.t)
    (rating : Rating.t) :
  Db.get_int Recipe.id (Db.recipes db) recipe_id = Some recipe ->
  Ratings.rating_by_id_and_recipe db rating_id recipe_id = Some rating ->
  Ratings.RatingDetailResource_delete (Http.Token sub) recipe_id rating_id db
  = (Http.forbidden_response "You can only delete your own ratings", db).
Proof.
  intros G F. unfold Ratings.RatingDetailResource_delete, Http.jwt_required.
  now rewrite G, F, ne_int_str.
Qed.

(** C4, where the code departs from the claim: bob, the author of the
    rating, is answered 403 on PUT and on DELETE with the token issued to
    him, and the rating stays as it was; the admin is refused too, as the
    claim says. *)
Theorem author_is_refused_update_and_delete :
  Rating.user_id Sample.four_stars_by_bob = User.id Sample.bob
  /\ Ratings.RatingDetailResource_put (Sample.token_of Sample.bob) 1 1
       (Some (RatingSchema.mk (Some 5) None)) Sample.db_rated
     = (Http.forbidden_response "You can only update your own ratings",
        Sample.db_rated)
  /\ Ratings.RatingDetailResource_delete (Sample.token_of Sample.bob) 1 1
       Sample.db_rated
     = (Http.forbidden_response "You can only delete your own ratings",
        Sample.db_rated)
  /\ Http.status_code
       (fst (Ratings.RatingDetailResource_put (Sample.token_of Sample.root)
               1 1 (Some (RatingSchema.mk (Some 5) None)) Sample.db_rated))
     = 403
  /\ Http.status_code
       (fst (Ratings.RatingDetailResource_delete
               (Sample.token_of Sample.root) 1 1 Sample.db_rated)) = 403.
Proof. repeat split; reflexivity. Qed.

(** The owner-or-admin check of the ingredient handlers lets a token of
    this application through exactly when its user is an admin. *)
Lemma check_permission_by_admin_flag (db : Db.t) (recipe : Recipe.t)
    (sub : string) :
  Ingredients.check_permission db recipe (Py.PyStr sub)
  = match Db.get User.id (Db.users db) (Py.PyStr sub) with
    | Some user =>
        if User.is_admin user then Ingredients.Allowed
        else Ingredients.Denied
    | None => Ingredients.NoUser
    end.
Proof.
  unfold Ingredients.check_permission. rewrite ne_int_str.
  destruct (Db.get User.id (Db.users db) (Py.PyStr sub)) as [user|];
    [|reflexivity].
  now destruct (User.is_admin user).
Qed.

End OwnershipClaims.

(** ** Ingredients in bulk *)

Section BulkClaims.

(** The schema loads 0 for an item that names no order, so the position
    offered by the handler is never used. *)
Lemma load_item_order (j : IngredientSchema.json)
    (v : IngredientSchema.validated) :
  IngredientSchema.load_item j = Some v ->
  IngredientSchema.v_order v
  = Some (match IngredientSchema.order j with
          | Some o => o
          | None => 0
          end).
Proof.
  unfold IngredientSchema.load_item.
  destruct (IngredientSchema.id j), (IngredientSchema.name j),
    (IngredientSchema.quantity j); try discriminate.
  destruct (_ && _); [|discriminate].
  intros [= <-]. cbn. now destruct (IngredientSchema.order j).
Qed.

(** More than 50 items do not load, and an allowed request with such a list
    is answered 422 with the store left as it was. *)
Lemma bulk_create_over_50_rejected (sub : string) (user : User.t)
    (recipe_id : Z) (recipe : Recipe.t) (items : list IngredientSchema.json)
    (db : Db.t) :
  Db.get_int Recipe.id (Db.recipes db) recipe_id = Some recipe ->
  Db.get User.id (Db.users db) (Py.PyStr sub) = Some user ->
  User.is_admin user = true ->
  (50 < List.length items)%nat ->
  Ingredients.IngredientBulkCreateResource_post (Http.Token sub) recipe_id
    (IngredientSchema.Ingredients items) db
  = (Http.validation_error_response, db).
Proof.
  intros G U A L.
  unfold Ingredients.IngredientBulkCreateResource_post, Http.jwt_required.
  rewrite G, check_permission_by_admin_flag, U, A.
  unfold IngredientSchema.load_bulk_create.
  assert (E : (List.length items <=? 50)%nat = false)
    by (apply Nat.leb_gt; lia).
  rewrite E, andb_false_r. reflexivity.
Qed.

(** C9, where the code departs from the claim: an admin submits two valid
    items without 'order'; both are stored with order 0, the second one not
    with its position 1.  A list of 51 items is answered 422 and nothing is
    written, as the claim says. *)
Theorem bulk_create_unspecified_order_is_zero :
  option_map
    (fun created => map Ingredient.order (Ingredients.bc_ingredients created))
    (Http.data
       (fst (Ingredients.IngredientBulkCreateResource_post
               (Sample.token_of Sample.root) 1
               (IngredientSchema.Ingredients
                  [Sample.item "flour"; Sample.item "butter"])
               Sample.db_unrated)))
  = Some [0; 0]
  /\ Ingredients.IngredientBulkCreateResource_post
       (Sample.token_of Sample.root) 1
       (IngredientSchema.Ingredients (repeat (Sample.item "flour") 51))
       Sample.db_unrated
     = (Http.validation_error_response, Sample.db_unrated)
  /\ Http.status_code
       (fst (Ingredients.IngredientBulkCreateResource_post
               (Sample.token_of Sample.root) 1
               (IngredientSchema.Ingredients (repeat (Sample.item "flour") 50))
               Sample.db_unrated)) = 201.
Proof. repeat split; vm_compute; reflexivity. Qed.

Lemma find_map_same_test {A : Type} (test : A -> bool) (g : A -> A)
    (rows : list A) :
  (forall r, In r rows -> test (g r) = test r) ->
  (exists r, find test (map g rows) = Some r)
  <-> (exists r, find test rows = Some r).
Proof.
  induction rows as [|r rows IH]; intros H; cbn [map find].
  - tauto.
  - rewrite (H r (or_introl eq_refl)).
    destruct (test r).
    + split; intros _; eexists; reflexivity.
    + apply IH. intros x Hx. apply H. now right.
Qed.

Lemma assign_fields_keys (i : Ingredient.t) (entry : IngredientSchema.json) :
  Ingredient.id (Ingredients.assign_fields i entry) = Ingredient.id i
  /\ Ingredient.recipe_id (Ingredients.assign_fields i entry)
     = Ingredient.recipe_id i.
Proof. split; reflexivity. Qed.

Lemma ingredient_found (rows : list Ingredient.t) (ident : Py.value)
    (recipe_id : Z) (i : Ingredient.t) :
  Ingredients.ingredient_by_id_and_recipe rows ident recipe_id = Some i ->
  In i rows.
Proof.
  unfold Ingredients.ingredient_by_id_and_recipe.
  destruct (Db.sql_integer ident); [|discriminate].
  intros F. now apply find_some in F.
Qed.

(** Assigning fields to a row leaves every entry matched or unmatched as it
    was. *)
Lemma matched_after_update (recipe_id : Z) (rows : list Ingredient.t)
    (i : Ingredient.t) (data entry : IngredientSchema.json) :
  NoDup (map Ingredient.id rows) ->
  In i rows ->
  BulkSpec.matched recipe_id
    (Db.update Ingredient.id (Ingredients.assign_fields i data) rows) entry
  = BulkSpec.matched recipe_id rows entry.
Proof.
  intros N H. unfold BulkSpec.matched.
  destruct (IngredientSchema.id entry) as [ident|]; [|reflexivity].
  unfold Ingredients.ingredient_by_id_and_recipe.
  destruct (Db.sql_integer ident) as [k|]; [|reflexivity].
  unfold Db.update.
  set (test := fun x => (Ingredient.id x =? k)
                        && (Ingredient.recipe_id x =? recipe_id)).
  set (g := fun old => if Ingredient.id old
                          =? Ingredient.id (Ingredients.assign_fields i data)
                       then Ingredients.assign_fields i data else old).
  assert (T : forall r, In r rows -> test (g r) = test r).
  { intros r Hr. subst g test. cbv beta.
    destruct (Ingredient.id r =? _) eqn:E; [|reflexivity].
    apply Z.eqb_eq in E. cbn [Ingredients.assign_fields Ingredient.id] in E.
    assert (r = i) by now apply (same_key_same_row Ingredient.id rows).
    subst r. reflexivity. }
  pose proof (find_map_same_test test g rows T) as [F1 F2].
  destruct (find test (map g rows)) as [x|] eqn:Fx,
           (find test rows) as [y|] eqn:Fy; try reflexivity.
  - destruct F1 as [z Hz]; [now exists x | discriminate].
  - destruct F2 as [z Hz]; [now exists y | discriminate].
Qed.

(** The loop of the bulk update appends one session object per matched
    entry and skips every other entry. *)
Lemma update_loop_counts_matched (recipe_id : Z)
    (entries : list IngredientSchema.json) :
  forall (rows : list Ingredient.t) (updated : list Z),
    NoDup (map Ingredient.id rows) ->
    List.length (snd (Ingredients.update_loop recipe_id entries rows updated))
    = (List.length updated
       + List.length (filter (BulkSpec.matched recipe_id rows) entries))%nat
    /\ map Ingredient.id
         (fst (Ingredients.update_loop recipe_id entries rows updated))
       = map Ingredient.id rows.
Proof.
  induction entries as [|entry entries IH]; intros rows updated N.
  - cbn. split; [lia | reflexivity].
  - cbn [Ingredients.update_loop filter]. unfold BulkSpec.matched at 1.
    destruct (IngredientSchema.id entry) as [ident|]; [|now apply IH].
    destruct (Ingredients.ingredient_by_id_and_recipe rows ident recipe_id)
      as [i|] eqn:F; [|now apply IH].
    pose proof (ingredient_found _ _ _ _ F) as H.
    assert (M : map Ingredient.id
                  (Db.update Ingredient.id
                     (Ingredients.assign_fields i entry) rows)
                = map Ingredient.id rows)
      by now apply (map_update Ingredient.id Ingredient.id rows i).
    destruct (IH (Db.update Ingredient.id (Ingredients.assign_fields i entry)
                    rows)
                (updated ++ [Ingredient.id i])%list) as [L K].
    { now rewrite M. }
    rewrite L, K, M. split; [|reflexivity].
    rewrite length_app. cbn [List.length].
    rewrite (filter_ext_in _ (BulkSpec.matched recipe_id rows)); [lia|].
    intros e _. now apply matched_after_update.
Qed.

(** For a request that is let through (the token of an admin), the entries
    without 'id' or with an id that matches no ingredient of the recipe are
    skipped, the answer is 200 and [total_updated] counts the matched
    entries. *)
Lemma bulk_update_skips_unmatched (sub : string) (user : User.t)
    (recipe_id : Z) (recipe : Recipe.t)
    (entries : list IngredientSchema.json) (db : Db.t) :
  Db.get_int Recipe.id (Db.recipes db) recipe_id = Some recipe ->
  Db.get User.id (Db.users db) (Py.PyStr sub) = Some user ->
  User.is_admin user = true ->
  entries <> [] ->
  NoDup (map Ingredient.id (Db.ingredients db)) ->
  let result :=
    Ingredients.IngredientBulkUpdateResource_put (Http.Token sub) recipe_id
      (IngredientSchema.Ingredients entries) db in
  Http.status_code (fst result) = 200
  /\ option_map Ingredients.total_updated (Http.data (fst result))
     = Some (Z.of_nat
               (List.length
                  (filter (BulkSpec.matched recipe_id (Db.ingredients db)) entries))).
Proof.
  intros G U A Hne N. cbv zeta.
  unfold Ingredients.IngredientBulkUpdateResource_put, Http.jwt_required.
  rewrite G, check_permission_by_admin_flag, U, A.
  destruct entries as [|e es]; [congruence|].
  destruct (update_loop_counts_matched recipe_id (e :: es)
              (Db.ingredients db) [] N) as [L _].
  destruct (Ingredients.update_loop recipe_id (e :: es) (Db.ingredients db) [])
    as [rows updated].
  cbn [snd] in L. cbn [fst Http.status_code Http.data Http.success_response
                         option_map Ingredients.total_updated].
  split; [reflexivity|]. now rewrite L.
Qed.

(** C10, where the code departs from the claim: alice, the owner of the
    recipe and no admin, submits a non-empty list whose entry matches her
    ingredient and is answered 403, nothing applied; the same list sent by
    an admin is applied, with the entry without 'id' and the entry with an
    unknown id skipped and [total_updated] 1. *)
Theorem owner_is_refused_bulk_update :
  let entries :=
    [IngredientSchema.mk (Some (Py.PyInt 1)) (Some "sea salt") None None None
       None;
     IngredientSchema.mk None (Some "sugar") None None None None;
     IngredientSchema.mk (Some (Py.PyInt 99)) (Some "pepper") None None None
       None] in
  Recipe.user_id Sample.draft = User.id Sample.alice
  /\ Ingredients.IngredientBulkUpdateResource_put
       (Sample.token_of Sample.alice) 1 (IngredientSchema.Ingredients entries)
       Sample.db_unrated
     = (Http.forbidden_response
          "You don't have permission to update ingredients for this recipe",
        Sample.db_unrated)
  /\ option_map Ingredients.total_updated
       (Http.data
          (fst (Ingredients.IngredientBulkUpdateResource_put
                  (Sample.token_of Sample.root) 1
                  (IngredientSchema.Ingredients entries) Sample.db_unrated)))
     = Some 1
  /\ map Ingredient.name
       (Db.ingredients
          (snd (Ingredients.IngredientBulkUpdateResource_put
                  (Sample.token_of Sample.root) 1
                  (IngredientSchema.Ingredients entries) Sample.db_unrated)))
     = ["sea salt"].
Proof. repeat split; reflexivity. Qed.

End BulkClaims.

(** ** Tables as lists: inserting, updating and deleting rows *)

Section TableFacts.

Context {A K : Type} (key : A -> K).

Lemma NoDup_map_snoc (rows : list A) (row : A) :
  NoDup (map key rows) -> ~ In (key row) (map key rows) ->
  NoDup (map key (rows ++ [row])).
Proof.
  intros N H. rewrite map_app. cbn [map].
  apply (Permutation_NoDup (l := key row :: map key rows)).
  - apply Permutation_cons_append.
  - now constructor.
Qed.

Lemma NoDup_map_app (rows news : list A) :
  NoDup (map key rows) -> NoDup (map key news) ->
  (forall x, In x news -> ~ In (key x) (map key rows)) ->
  NoDup (map key (rows ++ news)).
Proof.
  intros N1 N2 H. rewrite map_app. apply NoDup_app; try assumption.
  intros k Hk Hk'. apply in_map_iff in Hk'. destruct Hk' as (x & <- & Hx).
  now apply (H x).
Qed.

Lemma same_key_same_element (rows : list A) (a b : A) :
  NoDup (map key rows) -> In a rows -> In b rows -> key a = key b -> a = b.
Proof.
  induction rows as [|r rows IH]; cbn [map In]; [easy|].
  intros N Ha Hb E. inversion N as [|? ? Hnot N']; subst.
  destruct Ha as [->|Ha], Hb as [->|Hb].
  - reflexivity.
  - exfalso. apply Hnot. rewrite E. now apply in_map.
  - exfalso. apply Hnot. rewrite <- E. now apply in_map.
  - now apply IH.
Qed.

Lemma not_In_map_of_existsb (test : A -> K -> bool) (rows : list A) (k : K) :
  (forall a, test a k = true <-> key a = k) ->
  existsb (fun a => test a k) rows = false -> ~ In k (map key rows).
Proof.
  intros T E H. apply in_map_iff in H. destruct H as (a & Ka & Ha).
  assert (X : existsb (fun a => test a k) rows = true).
  { apply existsb_exists. exists a. split; [assumption | now apply T]. }
  congruence.
Qed.

End TableFacts.

Section UpdateFacts.

Context {A : Type} (pk : A -> Z).

(** With distinct primary keys an update replaces one row in place. *)
Lemma update_in_place (rows : list A) (old new : A) :
  NoDup (map pk rows) -> In old rows -> pk new = pk old ->
  exists before after,
    rows = (before ++ old :: after)%list
    /\ Db.update pk new rows = (before ++ new :: after)%list.
Proof.
  intros N H E. destruct (in_split _ _ H) as (before & after & ->).
  exists before, after. split; [reflexivity|].
  unfold Db.update. rewrite map_app. cbn [map].
  rewrite E, Z.eqb_refl.
  rewrite map_app in N. cbn [map] in N. apply NoDup_remove_2 in N.
  assert (Same : forall l, (forall x, In x l -> pk x <> pk old) ->
                 map (fun o => if pk o =? pk old then new else o) l = l).
  { intros l Hl. induction l as [|x l IH]; [reflexivity|]. cbn [map].
    destruct (pk x =? pk old) eqn:X.
    - apply Z.eqb_eq in X. exfalso. apply (Hl x); [now left | assumption].
    - f_equal. apply IH. intros y Hy. apply Hl. now right. }
  rewrite !Same; [reflexivity| |].
  - intros x Hx Ex. apply N. apply in_or_app. right. rewrite <- Ex.
    now apply in_map.
  - intros x Hx Ex. apply N. apply in_or_app. left. rewrite <- Ex.
    now apply in_map.
Qed.

Lemma map_update_same {B : Type} (f : A -> B) (rows : list A) (old new : A) :
  NoDup (map pk rows) -> In old rows -> pk new = pk old -> f new = f old ->
  map f (Db.update pk new rows) = map f rows.
Proof.
  intros N H E Ef.
  destruct (update_in_place rows old new N H E) as (b & a & -> & ->).
  rewrite !map_app. cbn [map]. now rewrite Ef.
Qed.

(** A unique column stays unique under an update whose new value no other
    row holds. *)
Lemma NoDup_map_update {B : Type} (f : A -> B) (rows : list A) (old new : A) :
  NoDup (map pk rows) -> NoDup (map f rows) -> In old rows ->
  pk new = pk old ->
  (forall other, In other rows -> pk other <> pk new -> f other <> f new) ->
  NoDup (map f (Db.update pk new rows)).
Proof.
  intros N Nf H E Hother.
  destruct (update_in_place rows old new N H E) as (b & a & -> & ->).
  rewrite map_app in *. cbn [map] in *.
  apply NoDup_remove in Nf. destruct Nf as [Nf _].
  apply NoDup_remove_2 in N.
  apply (Permutation_NoDup (l := f new :: (map f b ++ map f a))%list).
  - apply Permutation_middle.
  - constructor; [|assumption].
    intros Hin. apply in_app_or in Hin.
    assert (X : forall x, In x b \/ In x a -> f x <> f new).
    { intros x Hx. apply Hother.
      - apply in_or_app. destruct Hx; [now left | right; now right].
      - rewrite E. intros Ex. apply N. apply in_or_app. rewrite <- Ex.
        destruct Hx; [left | right]; now apply in_map. }
    destruct Hin as [Hin|Hin]; apply in_map_iff in Hin;
      destruct Hin as (x & Ex & Hx); apply (X x); auto.
Qed.

Lemma In_update (rows : list A) (new x : A) :
  In x (Db.update pk new rows) ->
  x = new \/ (In x rows /\ pk x <> pk new).
Proof.
  unfold Db.update. intros H. apply in_map_iff in H.
  destruct H as (o & <- & Ho).
  destruct (pk o =? pk new) eqn:E; [now left|].
  right. split; [assumption | now apply Z.eqb_neq].
Qed.

Lemma In_delete (rows : list A) (k : Z) (x : A) :
  In x (Db.delete pk k rows) <-> In x rows /\ pk x <> k.
Proof.
  unfold Db.delete. rewrite filter_In, negb_true_iff, Z.eqb_neq. tauto.
Qed.

Lemma get_int_In (rows : list A) (k : Z) (row : A) :
  Db.get_int pk rows k = Some row -> In row rows /\ pk row = k.
Proof.
  unfold Db.get_int. intros F. apply find_some in F.
  destruct F as [H E]. now apply Z.eqb_eq in E.
Qed.

Lemma get_int_In_ids (rows : list A) (k : Z) (row : A) :
  Db.get_int pk rows k = Some row -> In k (map pk rows).
Proof.
  intros G. apply get_int_In in G. destruct G as [H <-]. now apply in_map.
Qed.

(** Looking up the key of a stored row, keys being distinct, gives the
    row. *)
Lemma get_int_of_In (rows : list A) (row : A) :
  NoDup (map pk rows) -> In row rows ->
  Db.get_int pk rows (pk row) = Some row.
Proof.
  intros N H. unfold Db.get_int.
  destruct (find (fun r => pk r =? pk row) rows) as [r|] eqn:F.
  - apply find_some in F. destruct F as [Hr E]. apply Z.eqb_eq in E.
    f_equal. now apply (same_key_same_element pk rows).
  - apply (find_none _ _ F) in H. rewrite Z.eqb_refl in H. discriminate.
Qed.

End UpdateFacts.

(** ** What each handler does to the store *)

Section Effects.

Import System.

Lemma string_existsb_not_In {A : Type} (column : A -> string)
    (rows : list A) (s : string) :
  existsb (fun a => String.eqb (column a) s) rows = false ->
  ~ In s (map column rows).
Proof.
  apply (not_In_map_of_existsb column (fun a k => String.eqb (column a) k)).
  intros a. apply String.eqb_eq.
Qed.

Lemma first_by_email_or_username_none (users : list User.t)
    (email username : string) (u : User.t) :
  AuthApi.first_by_email_or_username users email username = None ->
  In u users ->
  String.eqb (User.email u) email || String.eqb (User.username u) username
  = false.
Proof.
  unfold AuthApi.first_by_email_or_username. intros F H.
  destruct (find (fun u => String.eqb (User.email u) email) users) eqn:E;
    [discriminate|].
  apply orb_false_iff. split.
  - exact (find_none _ _ E u H).
  - exact (find_none _ _ F u H).
Qed.

Lemma register_effect email_ok generate_password_hash salt data st :
  effect (AuthApi.db st)
    (AuthApi.db
       (snd (AuthApi.RegisterResource_post email_ok generate_password_hash
               salt data st))).
Proof.
  unfold AuthApi.RegisterResource_post.
  destruct data as [j|]; [|apply nothing].
  destruct (UserSchema.is_empty j); [apply nothing|].
  destruct (UserSchema.load_registration email_ok j) as [v|];
    [|apply nothing].
  destruct (AuthApi.first_by_email_or_username _ _ _) as [existing|] eqn:F.
  { destruct (String.eqb _ _); apply nothing. }
  destruct (AuthApi.violates_unique _ _); [apply nothing|].
  cbn [snd AuthApi.db].
  assert (H : forall u, In u (Db.users (AuthApi.db st)) ->
                        User.email u <> UserSchema.r_email v
                        /\ User.username u <> UserSchema.r_username v).
  { intros u Hu. apply (first_by_email_or_username_none _ _ _ _ F) in Hu.
    apply orb_false_iff in Hu. destruct Hu as [H1 H2].
    now apply String.eqb_neq in H1, H2. }
  apply user_added; cbn [User.id User.is_admin User.username User.email];
    try reflexivity.
  - intros Hin. apply in_map_iff in Hin. destruct Hin as (u & E & Hu).
    destruct (H u Hu) as [_ Hn]. now apply Hn.
  - intros Hin. apply in_map_iff in Hin. destruct Hin as (u & E & Hu).
    destruct (H u Hu) as [Hn _]. now apply Hn.
Qed.

Lemma category_post_effect auth data db :
  effect db (snd (Categories.CategoryListResource_post auth data db)).
Proof.
  unfold Categories.CategoryListResource_post, Http.jwt_required.
  destruct auth as [| |sub]; try apply nothing.
  destruct (Categories.not_admin _); [apply nothing|].
  destruct data as [j|]; [|apply nothing].
  destruct (CategorySchema.is_empty j); [apply nothing|].
  destruct (CategorySchema.load_create j) as [[name validated]|];
    [|apply nothing].
  destruct (existsb _ _); [apply nothing|].
  match goal with
  | |- context [Categories.violates_unique db ?c] =>
      set (new_category := c);
      destruct (Categories.violates_unique db new_category) eqn:V
  end; [apply nothing|].
  cbn [snd].
  assert (Eid : Category.id new_category
                = Db.next_id Category.id (Db.categories db)).
  { subst new_category. now destruct (CategorySchema.image validated). }
  apply category_added; [exact Eid| |].
  - intros Hin. apply in_map_iff in Hin. destruct Hin as (old & E & Hold).
    now destruct (violates_unique_false db new_category old V Hold).
  - intros Hin. apply in_map_iff in Hin. destruct Hin as (old & E & Hold).
    now destruct (violates_unique_false db new_category old V Hold).
Qed.

Lemma assign_id (c : Category.t) (j : CategorySchema.json) :
  Category.id (CategoryApi.assign c j) = Category.id c.
Proof.
  unfold CategoryApi.assign.
  now destruct (CategorySchema.name j), (CategorySchema.description j),
    (CategorySchema.image j).
Qed.

Lemma category_put_effect auth category_id data db :
  effect db
    (snd (CategoryApi.CategoryDetailResource_put auth category_id data db)).
Proof.
  unfold CategoryApi.CategoryDetailResource_put, Http.jwt_required.
  destruct auth as [| |sub]; try apply nothing.
  destruct (Categories.not_admin _); [apply nothing|].
  destruct (Db.get_int Category.id (Db.categories db) category_id)
    as [category|] eqn:G; [|apply nothing].
  destruct data as [j|]; [|apply nothing].
  destruct (CategorySchema.is_empty j); [apply nothing|].
  destruct (CategoryApi.load_update j) as [validated|]; [|apply nothing].
  match goal with |- context [if ?b then _ else _] => destruct b end;
    [apply nothing|].
  destruct (CategoryApi.violates_unique_on_update db
              (CategoryApi.assign category validated)) eqn:V;
    [apply nothing|].
  cbn [snd]. apply get_int_In in G. destruct G as [H _].
  apply (category_changed db category); [exact H | apply assign_id |].
  intros other Hother Hid.
  unfold CategoryApi.violates_unique_on_update in V.
  assert (X : negb (Category.id other
                    =? Category.id (CategoryApi.assign category validated))
              && (String.eqb (Category.name other)
                    (Category.name (CategoryApi.assign category validated))
                  || String.eqb (Category.slug other)
                       (Category.slug (CategoryApi.assign category validated)))
              = false).
  { destruct (_ && _) eqn:E; [|reflexivity].
    rewrite <- V. symmetry. apply existsb_exists. now exists other. }
  apply Z.eqb_neq in Hid. rewrite Hid in X. cbn [negb andb] in X.
  apply orb_false_iff in X. destruct X as [X1 X2].
  now apply String.eqb_neq in X1, X2.
Qed.

Lemma category_delete_effect auth category_id db :
  effect db
    (snd (Categories.CategoryDetailResource_delete auth category_id db)).
Proof.
  unfold Categories.CategoryDetailResource_delete, Http.jwt_required.
  destruct auth as [| |sub]; try apply nothing.
  destruct (Categories.not_admin _); [apply nothing|].
  destruct (Db.get_int Category.id (Db.categories db) category_id)
    as [category|] eqn:G; [|apply nothing].
  destruct (0 <? _) eqn:C; [apply nothing|].
  cbn [snd]. apply category_removed.
  destruct (Db.recipes_of db (Category.id category)); [reflexivity|].
  cbn [List.length] in C. apply Z.ltb_ge in C. lia.
Qed.

Lemma recipe_post_effect auth json_data db :
  effect db (snd (Recipes.RecipeListResource_post auth json_data db)).
Proof.
  unfold Recipes.RecipeListResource_post, Http.jwt_required.
  destruct auth as [| |sub]; try apply nothing.
  destruct json_data as [j|]; [|apply nothing].
  destruct (RecipeSchema.is_empty j); [apply nothing|].
  destruct (RecipeSchema.load_create j) as [validated|]; [|apply nothing].
  destruct (Db.get_int Category.id (Db.categories db)
              (RecipeSchema.c_category_id validated)) as [c|] eqn:G;
    [|apply nothing].
  destruct (ensure_unique_first_free db
              (Slug.derive_slug (RecipeSchema.c_title validated)))
    as (final & -> & (k & _ & Hfree & _)).
  destruct (Db.sql_integer (Py.PyStr sub)) as [uid|]; [|apply nothing].
  cbn [snd]. apply recipe_added; cbn [Recipe.id Recipe.slug Recipe.category_id].
  - reflexivity.
  - intros Hin. apply slug_taken_In in Hin. congruence.
  - now apply (get_int_In_ids Category.id _ _ c).
Qed.

(** A slug returned by the loop is one the loop found free. *)
Lemma unique_loop_free (taken : string -> bool) (base_slug : string)
    (fuel : nat) (final : string) :
  Slug.unique_loop fuel taken base_slug base_slug 1 = Some final ->
  taken final = false.
Proof.
  intros L.
  pose proof (unique_loop_run taken base_slug fuel 0) as R.
  cbn [SlugSpec.attempt Z.of_nat Z.add] in R. rewrite L in R.
  now destruct R as (j & _ & _ & Hfree & _).
Qed.

Lemma setattrs_keeps (recipe : Recipe.t) (slug : string)
    (j : RecipeUpdate.json) :
  Recipe.id (RecipeUpdate.setattrs recipe slug j) = Recipe.id recipe
  /\ Recipe.user_id (RecipeUpdate.setattrs recipe slug j)
     = Recipe.user_id recipe
  /\ Recipe.slug (RecipeUpdate.setattrs recipe slug j) = slug.
Proof. repeat split. Qed.

Lemma recipe_put_effect auth recipe_id json_data db :
  consistent db ->
  effect db
    (snd (RecipeApi.RecipeDetailResource_put auth recipe_id json_data db)).
Proof.
  intros (Ids & Cols & _).
  unfold RecipeApi.RecipeDetailResource_put, Http.jwt_required.
  destruct auth as [| |sub]; try apply nothing.
  destruct (Db.fits_integer recipe_id); [|apply nothing]. cbn [negb].
  destruct (Db.get_int Recipe.id (Db.recipes db) recipe_id)
    as [recipe|] eqn:G; [|apply nothing].
  destruct (Ingredients.check_permission _ _ _); try apply nothing.
  destruct json_data as [j|]; [|apply nothing].
  destruct (RecipeUpdate.is_empty j); [apply nothing|].
  destruct (RecipeUpdate.load j) as [validated|]; [|apply nothing].
  destruct (RecipeSchema.opt_ok Db.fits_integer
              (RecipeUpdate.category_id validated)); [|apply nothing].
  cbn [negb].
  match goal with |- context [if negb ?b then _ else _] =>
    destruct b eqn:Known end; [|apply nothing].
  cbn [negb].
  destruct (RecipeApi.slug_after_update db recipe validated) as [slug|] eqn:S;
    [|apply nothing].
  destruct (RecipeUpdate.integers_fit validated); [|apply nothing].
  cbn [negb].
  cbn [snd]. apply get_int_In in G. destruct G as [H Eid].
  apply (recipe_changed db recipe); try reflexivity; [exact H| |].
  - intros other Hother Hid. cbn [Recipe.id Recipe.slug RecipeUpdate.setattrs]
      in *.
    unfold RecipeApi.slug_after_update in S.
    assert (Old : Recipe.slug other <> Recipe.slug recipe).
    { intros E. apply Hid.
      destruct Cols as (_ & _ & _ & _ & Nslug).
      now rewrite (same_key_same_element Recipe.slug _ other recipe Nslug). }
    destruct (RecipeUpdate.title validated) as [t|];
      [|injection S as <-; exact Old].
    destruct (negb (String.eqb t (Recipe.title recipe)));
      [|injection S as <-; exact Old].
    apply unique_loop_free in S. unfold RecipeApi.slug_taken_by_other in S.
    intros E.
    assert (X : existsb (fun r => String.eqb (Recipe.slug r) slug
                                  && negb (Recipe.id r =? Recipe.id recipe))
                  (Db.recipes db) = true).
    { apply existsb_exists. exists other. split; [assumption|].
      rewrite E, String.eqb_refl. apply Z.eqb_neq in Hid. now rewrite Hid. }
    congruence.
  - cbn [Recipe.category_id RecipeUpdate.setattrs].
    destruct (RecipeUpdate.category_id validated) as [c|]; [|now right].
    left. cbn [RecipeUpdate.pick].
    destruct (Db.get_int Category.id (Db.categories db) c) as [cat|] eqn:Gc;
      [|discriminate].
    now apply (get_int_In_ids Category.id _ _ cat).
Qed.

Lemma recipe_delete_effect auth recipe_id db :
  effect db (snd (RecipeApi.RecipeDetailResource_delete auth recipe_id db)).
Proof.
  unfold RecipeApi.RecipeDetailResource_delete, Http.jwt_required.
  destruct auth as [| |sub]; try apply nothing.
  destruct (Db.get_int Recipe.id (Db.recipes db) recipe_id); [|apply nothing].
  destruct (Ingredients.check_permission _ _ _); try apply nothing.
  apply recipe_removed.
Qed.

Lemma ingredient_post_effect auth recipe_id data db :
  effect db
    (snd (IngredientApi.IngredientListResource_post auth recipe_id data db)).
Proof.
  unfold IngredientApi.IngredientListResource_post, Http.jwt_required.
  destruct auth as [| |sub]; try apply nothing.
  destruct (Db.get_int Recipe.id (Db.recipes db) recipe_id)
    as [recipe|] eqn:G; [|apply nothing].
  destruct (Ingredients.check_permission _ _ _); try apply nothing.
  destruct data as [j|]; [|apply nothing].
  destruct (IngredientApi.is_empty j); [apply nothing|].
  destruct (IngredientSchema.load_item j) as [v|]; [|apply nothing].
  cbn [snd]. apply ingredients_added.
  - intros i [<-|[]]. cbn [Ingredient.recipe_id].
    now apply (get_int_In_ids Recipe.id _ _ recipe).
  - cbn. constructor; [easy | constructor].
  - intros i [<-|[]]. cbn [Ingredient.id]. apply next_id_fresh.
Qed.

Lemma ingredient_put_effect auth recipe_id ingredient_id data db :
  consistent db ->
  effect db
    (snd (IngredientApi.IngredientDetailResource_put auth recipe_id
            ingredient_id data db)).
Proof.
  intros ((_ & _ & _ & Nid & _) & _).
  unfold IngredientApi.IngredientDetailResource_put, Http.jwt_required.
  destruct auth as [| |sub]; try apply nothing.
  destruct (Db.get_int Recipe.id (Db.recipes db) recipe_id); [|apply nothing].
  destruct (Ingredients.check_permission _ _ _); try apply nothing.
  destruct (IngredientApi.ingredient_of_recipe db ingredient_id recipe_id)
    as [ingredient|] eqn:F; [|apply nothing].
  destruct data as [j|]; [|apply nothing].
  destruct (IngredientUpdate.is_empty j); [apply nothing|].
  destruct (IngredientUpdate.load j) as [validated|]; [|apply nothing].
  cbn [snd]. apply find_some in F. destruct F as [H _].
  apply ingredients_changed.
  - now apply (map_update_same Ingredient.id Ingredient.id _ ingredient).
  - now apply (map_update_same Ingredient.id Ingredient.recipe_id _ ingredient).
Qed.

Lemma ingredient_delete_effect auth recipe_id ingredient_id db :
  effect db
    (snd (IngredientApi.IngredientDetailResource_delete auth recipe_id
            ingredient_id db)).
Proof.
  unfold IngredientApi.IngredientDetailResource_delete, Http.jwt_required.
  destruct auth as [| |sub]; try apply nothing.
  destruct (Db.get_int Recipe.id (Db.recipes db) recipe_id); [|apply nothing].
  destruct (Ingredients.check_permission _ _ _); try apply nothing.
  destruct (IngredientApi.ingredient_of_recipe db ingredient_id recipe_id);
    [|apply nothing].
  apply ingredient_removed.
Qed.

(** The rows the bulk create builds: one per item, numbered from [pk] on,
    all of the recipe. *)
Lemma build_ingredients_rows (recipe_id : Z)
    (validated : list IngredientSchema.validated) :
  forall pk idx,
    map Ingredient.id (Ingredients.build_ingredients recipe_id pk idx validated)
    = map (fun k => pk + Z.of_nat k) (seq 0 (List.length validated))
    /\ forall i,
         In i (Ingredients.build_ingredients recipe_id pk idx validated) ->
         Ingredient.recipe_id i = recipe_id.
Proof.
  induction validated as [|v vs IH]; intros pk idx.
  - split; [reflexivity | intros i []].
  - destruct (IH (pk + 1) (idx + 1)) as [Hid Hrec].
    cbn [Ingredients.build_ingredients map List.length seq Ingredient.id].
    split.
    + f_equal; [lia|]. rewrite Hid, <- seq_shift, map_map.
      apply map_ext. intros k. lia.
    + intros i [<-|Hi]; [reflexivity | now apply Hrec].
Qed.

Lemma bulk_create_effect auth recipe_id json_data db :
  effect db
    (snd (Ingredients.IngredientBulkCreateResource_post auth recipe_id
            json_data db)).
Proof.
  unfold Ingredients.IngredientBulkCreateResource_post, Http.jwt_required.
  destruct auth as [| |sub]; try apply nothing.
  destruct (Db.get_int Recipe.id (Db.recipes db) recipe_id)
    as [recipe|] eqn:G; [|apply nothing].
  destruct (Ingredients.check_permission _ _ _); try apply nothing.
  assert (X : forall b,
            effect db
              (snd (match IngredientSchema.load_bulk_create b with
                    | Some validated =>
                        (Http.success_response
                           (Some (Ingredients.mk_bulk_created recipe_id
                                    (Ingredients.build_ingredients recipe_id
                                       (Db.next_id Ingredient.id
                                          (Db.ingredients db)) 0 validated)
                                    (Z.of_nat
                                       (List.length
                                          (Ingredients.build_ingredients
                                             recipe_id
                                             (Db.next_id Ingredient.id
                                                (Db.ingredients db)) 0
                                             validated)))))
                           (Py.str
                              (Z.of_nat
                                 (List.length
                                    (Ingredients.build_ingredients recipe_id
                                       (Db.next_id Ingredient.id
                                          (Db.ingredients db)) 0 validated)))
                            ++ " ingredients added successfully") 201,
                         Db.set_ingredients db
                           (Db.ingredients db
                            ++ Ingredients.build_ingredients recipe_id
                                 (Db.next_id Ingredient.id (Db.ingredients db))
                                 0 validated)%list)
                    | None => (Http.validation_error_response, db)
                    end))).
  { intros b. destruct (IngredientSchema.load_bulk_create b) as [validated|];
      [|apply nothing].
    cbn [snd].
    destruct (build_ingredients_rows recipe_id validated
                (Db.next_id Ingredient.id (Db.ingredients db)) 0)
      as [Hid Hrec].
    apply ingredients_added.
    - intros i Hi. rewrite (Hrec i Hi).
      now apply (get_int_In_ids Recipe.id _ _ recipe).
    - rewrite Hid. apply Injective_map_NoDup; [|apply seq_NoDup].
      intros a b' E. lia.
    - intros i Hi Hin.
      assert (Hk : In (Ingredient.id i)
                     (map Ingredient.id
                        (Ingredients.build_ingredients recipe_id
                           (Db.next_id Ingredient.id (Db.ingredients db)) 0
                           validated))) by now apply in_map.
      rewrite Hid in Hk. apply in_map_iff in Hk. destruct Hk as (k & Ek & _).
      apply in_map_iff in Hin. destruct Hin as (old & Eold & Hold).
      apply (next_id_above Ingredient.id) in Hold. lia. }
  destruct json_data; try apply nothing; apply X.
Qed.

Lemma update_loop_keeps_recipe_ids (recipe_id : Z)
    (entries : list IngredientSchema.json) :
  forall (rows : list Ingredient.t) (updated : list Z),
    NoDup (map Ingredient.id rows) ->
    map Ingredient.recipe_id
      (fst (Ingredients.update_loop recipe_id entries rows updated))
    = map Ingredient.recipe_id rows.
Proof.
  induction entries as [|entry entries IH]; intros rows updated N;
    [reflexivity|].
  cbn [Ingredients.update_loop].
  destruct (IngredientSchema.id entry) as [ident|]; [|now apply IH].
  destruct (Ingredients.ingredient_by_id_and_recipe rows ident recipe_id)
    as [i|] eqn:F; [|now apply IH].
  pose proof (ingredient_found _ _ _ _ F) as H.
  rewrite IH.
  - now apply (map_update_same Ingredient.id Ingredient.recipe_id rows i).
  - now rewrite (map_update_same Ingredient.id Ingredient.id rows i).
Qed.

Lemma bulk_update_effect auth recipe_id json_data db :
  consistent db ->
  effect db
    (snd (Ingredients.IngredientBulkUpdateResource_put auth recipe_id
            json_data db)).
Proof.
  intros ((_ & _ & _ & Nid & _) & _).
  unfold Ingredients.IngredientBulkUpdateResource_put, Http.jwt_required.
  destruct auth as [| |sub]; try apply nothing.
  destruct (Db.get_int Recipe.id (Db.recipes db) recipe_id); [|apply nothing].
  destruct (Ingredients.check_permission _ _ _); try apply nothing.
  destruct json_data as [| | |entries]; try apply nothing.
  destruct entries as [|e es]; [apply nothing|].
  destruct (update_loop_counts_matched recipe_id (e :: es)
              (Db.ingredients db) [] Nid) as [_ Hid].
  pose proof (update_loop_keeps_recipe_ids recipe_id (e :: es)
                (Db.ingredients db) [] Nid) as Hrec.
  destruct (Ingredients.update_loop recipe_id (e :: es) (Db.ingredients db) [])
    as [rows updated].
  cbn [snd fst] in *. now apply ingredients_changed.
Qed.

Lemma rating_post_effect auth recipe_id json_data db :
  effect db (snd (Ratings.RatingListResource_post auth recipe_id json_data db)).
Proof.
  unfold Ratings.RatingListResource_post, Http.jwt_required,
    Ratings.post_between.
  destruct auth as [| |sub]; try apply nothing.
  destruct (Db.get_int Recipe.id (Db.recipes db) recipe_id)
    as [recipe|] eqn:G; [|apply nothing].
  destruct (Ratings.rating_by_user_and_recipe _ _ _); [apply nothing|].
  destruct json_data as [j|]; [|apply nothing].
  destruct (RatingSchema.is_empty j); [apply nothing|].
  destruct (RatingSchema.load_create j) as [[score comment]|];
    [|apply nothing].
  pose proof (insert_rating_cases db score comment (Py.PyStr sub) recipe_id)
    as C.
  destruct (Ratings.insert_rating db score comment (Py.PyStr sub) recipe_id)
    as [[db'| |] new_rating]; try apply nothing.
  destruct C as (uid & _ & _ & _ & ->). cbn [snd].
  apply rating_added; [reflexivity|]. cbn [Rating.recipe_id].
  now apply (get_int_In_ids Recipe.id _ _ recipe).
Qed.

(** No request changes or deletes a rating: the author test of both
    handlers fails for every token. *)
Lemma rating_put_no_effect auth recipe_id rating_id json_data db :
  snd (Ratings.RatingDetailResource_put auth recipe_id rating_id json_data db)
  = db.
Proof.
  unfold Ratings.RatingDetailResource_put, Http.jwt_required.
  destruct auth as [| |sub]; try reflexivity.
  destruct (Db.get_int Recipe.id (Db.recipes db) recipe_id); [|reflexivity].
  destruct (Ratings.rating_by_id_and_recipe db rating_id recipe_id);
    [|reflexivity].
  now rewrite ne_int_str.
Qed.

Lemma rating_delete_no_effect auth recipe_id rating_id db :
  snd (Ratings.RatingDetailResource_delete auth recipe_id rating_id db) = db.
Proof.
  unfold Ratings.RatingDetailResource_delete, Http.jwt_required.
  destruct auth as [| |sub]; try reflexivity.
  destruct (Db.get_int Recipe.id (Db.recipes db) recipe_id); [|reflexivity].
  destruct (Ratings.rating_by_id_and_recipe db rating_id recipe_id);
    [|reflexivity].
  now rewrite ne_int_str.
Qed.

(** Every request has one of the effects. *)
Lemma step_effect (db db' : Db.t) :
  consistent db -> step db db' -> effect db db'.
Proof.
  intros C S. destruct S.
  - apply register_effect.
  - apply category_post_effect.
  - apply category_put_effect.
  - apply category_delete_effect.
  - apply recipe_post_effect.
  - now apply recipe_put_effect.
  - apply recipe_delete_effect.
  - apply ingredient_post_effect.
  - now apply ingredient_put_effect.
  - apply ingredient_delete_effect.
  - apply bulk_create_effect.
  - now apply bulk_update_effect.
  - apply rating_post_effect.
  - rewrite rating_put_no_effect. apply nothing.
  - rewrite rating_delete_no_effect. apply nothing.
Qed.

End Effects.

(** ** The store stays consistent *)

Section Consistency.

Import System.

Lemma NoDup_map_delete {A B : Type} (pk : A -> Z) (f : A -> B) (k : Z)
    (rows : list A) :
  NoDup (map f rows) -> NoDup (map f (Db.delete pk k rows)).
Proof. apply NoDup_map_filter. Qed.

Lemma In_map_update {A : Type} (pk : A -> Z) (new : A) (rows : list A)
    (old : A) :
  In old rows -> pk new = pk old ->
  forall k, In k (map pk rows) -> In k (map pk (Db.update pk new rows)).
Proof.
  intros H E k Hk. apply in_map_iff in Hk. destruct Hk as (x & <- & Hx).
  apply in_map_iff.
  exists (if pk x =? pk new then new else x). split.
  - destruct (pk x =? pk new) eqn:T; [|reflexivity].
    now apply Z.eqb_eq in T.
  - unfold Db.update.
    apply (in_map (fun o => if pk o =? pk new then new else o)) in Hx.
    exact Hx.
Qed.

Lemma next_id_not_In {A : Type} (pk : A -> Z) (rows : list A) (row : A) :
  pk row = Db.next_id pk rows -> ~ In (pk row) (map pk rows).
Proof. intros ->. apply next_id_fresh. Qed.

Lemma effect_consistent (db db' : Db.t) :
  effect db db' -> consistent db -> consistent db'.
Proof.
  intros E ((Nu & Nc & Nr & Ni & Nt) & (Uname & Uemail & Cname & Cslug & Rslug)
            & (Rc & Ir & Tr)).
  destruct E.
  - repeat split; assumption.
  - (* a user is added *)
    repeat split; cbn [AuthApi.set_users Db.users Db.categories Db.recipes
                       Db.ingredients Db.ratings]; try assumption.
    + apply NoDup_map_snoc; [assumption | now apply next_id_not_In].
    + now apply NoDup_map_snoc.
    + now apply NoDup_map_snoc.
  - (* a category is added *)
    repeat split; cbn [Db.set_categories Db.users Db.categories Db.recipes
                       Db.ingredients Db.ratings]; try assumption.
    + apply NoDup_map_snoc; [assumption | now apply next_id_not_In].
    + now apply NoDup_map_snoc.
    + now apply NoDup_map_snoc.
    + intros r Hr. rewrite map_app. apply in_or_app. left. now apply Rc.
  - (* a category is changed *)
    repeat split; cbn [Db.set_categories Db.users Db.categories Db.recipes
                       Db.ingredients Db.ratings]; try assumption.
    + now rewrite (map_update_same Category.id Category.id _ old).
    + apply (NoDup_map_update Category.id Category.name _ old); try assumption.
      intros other Ho Hid. now apply H1.
    + apply (NoDup_map_update Category.id Category.slug _ old); try assumption.
      intros other Ho Hid. now apply H1.
    + intros r Hr.
      rewrite (map_update_same Category.id Category.id _ old); auto.
  - (* a category without recipes is removed *)
    repeat split; cbn [Db.set_categories Db.users Db.categories Db.recipes
                       Db.ingredients Db.ratings]; try assumption;
      try now apply NoDup_map_delete.
    intros r Hr. pose proof (Rc r Hr) as Hc.
    apply in_map_iff in Hc. destruct Hc as (c & Ec & Hc).
    apply in_map_iff. exists c. split; [assumption|].
    apply In_delete. split; [assumption|]. intros Eq.
    assert (X : In r (Db.recipes_of db category_id)).
    { apply filter_In. split; [assumption|]. apply Z.eqb_eq. congruence. }
    rewrite H in X. destruct X.
  - (* a recipe is added *)
    repeat split; cbn [Db.set_recipes Db.users Db.categories Db.recipes
                       Db.ingredients Db.ratings]; try assumption.
    + apply NoDup_map_snoc; [assumption | now apply next_id_not_In].
    + now apply NoDup_map_snoc.
    + intros x Hx. apply in_app_or in Hx. destruct Hx as [Hx|[<-|[]]]; auto.
    + intros i Hi. rewrite map_app. apply in_or_app. left. now apply Ir.
    + intros t Ht. rewrite map_app. apply in_or_app. left. now apply Tr.
  - (* a recipe is changed *)
    repeat split; cbn [Db.set_recipes Db.users Db.categories Db.recipes
                       Db.ingredients Db.ratings]; try assumption.
    + now rewrite (map_update_same Recipe.id Recipe.id _ old).
    + now apply (NoDup_map_update Recipe.id Recipe.slug _ old).
    + intros x Hx. apply In_update in Hx. destruct Hx as [->|[Hx _]]; auto.
      destruct H3 as [H3| ->]; auto.
    + intros i Hi.
      rewrite (map_update_same Recipe.id Recipe.id _ old); auto.
    + intros t Ht.
      rewrite (map_update_same Recipe.id Recipe.id _ old); auto.
  - (* a recipe is removed with its ingredients and ratings *)
    repeat split; cbn [Recipes.delete_cascade Db.users Db.categories
                       Db.recipes Db.ingredients Db.ratings]; try assumption;
      try (now apply NoDup_map_delete); try (now apply NoDup_map_filter).
    + intros r Hr. apply In_delete in Hr. now apply Rc.
    + intros i Hi. apply filter_In in Hi. destruct Hi as [Hi Hne].
      apply negb_true_iff, Z.eqb_neq in Hne.
      pose proof (Ir i Hi) as Hr. apply in_map_iff in Hr.
      destruct Hr as (r & Er & Hr). apply in_map_iff. exists r.
      split; [assumption|]. apply In_delete. split; [assumption | congruence].
    + intros t Ht. apply filter_In in Ht. destruct Ht as [Ht Hne].
      apply negb_true_iff, Z.eqb_neq in Hne.
      pose proof (Tr t Ht) as Hr. apply in_map_iff in Hr.
      destruct Hr as (r & Er & Hr). apply in_map_iff. exists r.
      split; [assumption|]. apply In_delete. split; [assumption | congruence].
  - (* ingredients are added *)
    repeat split; cbn [Db.set_ingredients Db.users Db.categories Db.recipes
                       Db.ingredients Db.ratings]; try assumption.
    + now apply NoDup_map_app.
    + intros i Hi. apply in_app_or in Hi. destruct Hi as [Hi|Hi]; auto.
  - (* ingredients are changed *)
    repeat split; cbn [Db.set_ingredients Db.users Db.categories Db.recipes
                       Db.ingredients Db.ratings]; try assumption.
    + now rewrite H.
    + intros i Hi. apply (in_map Ingredient.recipe_id) in Hi.
      rewrite H0 in Hi. apply in_map_iff in Hi.
      destruct Hi as (o & <- & Ho). now apply Ir.
  - (* an ingredient is removed *)
    repeat split; cbn [Db.set_ingredients Db.users Db.categories Db.recipes
                       Db.ingredients Db.ratings]; try assumption.
    + now apply NoDup_map_delete.
    + intros i Hi. apply In_delete in Hi. now apply Ir.
  - (* a rating is added *)
    repeat split; cbn [Db.set_ratings Db.users Db.categories Db.recipes
                       Db.ingredients Db.ratings]; try assumption.
    + apply NoDup_map_snoc; [assumption | now apply next_id_not_In].
    + intros t Ht. apply in_app_or in Ht. destruct Ht as [Ht|[<-|[]]]; auto.
Qed.

Lemma step_consistent (db db' : Db.t) :
  consistent db -> step db db' -> consistent db'.
Proof.
  intros C S. apply (effect_consistent db); [now apply step_effect | exact C].
Qed.

Lemma steps_consistent (db db' : Db.t) :
  steps db db' -> consistent db -> consistent db'.
Proof.
  induction 1 as [|db db' db'' _ IH S]; [easy|].
  intros C. apply (step_consistent db'); auto.
Qed.

(** The users of the store: rows are only added, at the end, and never as
    administrators. *)
Lemma effect_users (db db' : Db.t) :
  effect db db' ->
  exists news, Db.users db' = (Db.users db ++ news)%list
               /\ forallb (fun u => negb (User.is_admin u)) news = true.
Proof.
  intros E. destruct E;
    try (exists []; split; [now rewrite app_nil_r | reflexivity]).
  exists [u]. split; [reflexivity|]. cbn. now rewrite H0.
Qed.

Lemma steps_users (db db' : Db.t) :
  steps db db' -> consistent db ->
  exists news, Db.users db' = (Db.users db ++ news)%list
               /\ forallb (fun u => negb (User.is_admin u)) news = true.
Proof.
  induction 1 as [|db db' db'' S IH S']; intros C.
  - exists []. split; [now rewrite app_nil_r | reflexivity].
  - destruct (IH C) as (n1 & E1 & F1).
    destruct (effect_users db' db'') as (n2 & E2 & F2).
    { apply step_effect; [|assumption]. now apply (steps_consistent db). }
    exists (n1 ++ n2)%list. split.
    + now rewrite E2, E1, app_assoc.
    + rewrite forallb_app. now rewrite F1, F2.
Qed.

End Consistency.

(** ** The validators *)

Section ValidatorFacts.

Import ValidatorSpec.

Lemma at_end_spec (s : string) : Re.at_end s = true <-> end_of_text s.
Proof.
  unfold end_of_text. destruct s as [|c [|c' s']]; cbn [Re.at_end].
  - split; [now left | reflexivity].
  - rewrite Ascii.eqb_eq. split.
    + intros ->. now right.
    + intros [E|E]; [discriminate | now injection E].
  - split; [discriminate | intros [E|E]; discriminate].
Qed.

(** A class repeated [min] times or more: some prefix of the class, of
    that length at least, is followed by a rest that [k] accepts. *)
Lemma rep_unbounded (cls : ascii -> bool) (k : string -> bool) (s : string) :
  forall min : nat,
    Re.rep cls min None k s = true
    <-> exists pre rest : string,
          s = pre ++ rest /\ (min <= String.length pre)%nat
          /\ every cls pre = true /\ k rest = true.
Proof.
  induction s as [|c s IH]; intros min; cbn [Re.rep].
  - rewrite orb_false_r. split.
    + destruct min; [|discriminate]. intros K. exists "", "".
      repeat split; [lia | assumption].
    + intros (pre & rest & E & L & _ & K).
      destruct pre; [|discriminate]. cbn in E. subst rest.
      cbn in L. now destruct min; [|lia].
  - cbn [Re.allows option_map]. rewrite andb_true_r. split.
    + intros H. apply orb_true_iff in H. destruct H as [H|H].
      * destruct min; [|discriminate]. exists "", (String c s).
        repeat split; [lia | assumption].
      * apply andb_true_iff in H. destruct H as [Hc H].
        apply IH in H. destruct H as (pre & rest & -> & L & E & K).
        exists (String c pre), rest. cbn [append String.length every].
        rewrite Hc, E. repeat split; [lia | assumption].
    + intros (pre & rest & E & L & Ev & K). apply orb_true_iff.
      destruct pre as [|c' pre].
      * left. cbn in E. subst rest. cbn in L. now destruct min; [|lia].
      * right. cbn [append] in E. injection E as -> ->.
        cbn [every] in Ev. apply andb_true_iff in Ev. destruct Ev as [Hc Ev].
        rewrite Hc. cbn [andb]. apply IH. exists pre, rest.
        cbn [String.length] in L. repeat split; [lia | assumption..].
Qed.

(** A class exactly once. *)
Lemma rep_one (cls : ascii -> bool) (k : string -> bool) (s : string) :
  Re.rep cls 1 (Some 1%nat) k s
  = match s with
    | EmptyString => false
    | String c s' => cls c && k s'
    end.
Proof.
  destruct s as [|c s]; [reflexivity|].
  cbn [Re.rep Re.allows option_map Nat.pred orb andb].
  destruct (cls c); [|reflexivity]. cbn [andb].
  destruct s; cbn [Re.rep Re.allows andb]; now rewrite ?andb_false_r, orb_false_r.
Qed.

Lemma matches_one (cls : ascii -> bool) (s : string) :
  Re.matches [Re.one cls] s = starts_with cls s.
Proof.
  cbn [Re.matches Re.one]. rewrite rep_one.
  destruct s; [reflexivity | apply andb_true_r].
Qed.

Lemma search_one (cls : ascii -> bool) (s : string) :
  Re.search [Re.one cls] s = some cls s.
Proof.
  induction s as [|c s IH].
  - reflexivity.
  - cbn [Re.search some]. rewrite matches_one, IH. reflexivity.
Qed.

Lemma when_length (test : bool) (message : string) :
  List.length (Validators.when test message) = if test then 1%nat else 0%nat.
Proof. now destruct test. Qed.

Lemma every_append (cls : ascii -> bool) (a b : string) :
  every cls (a ++ b) = every cls a && every cls b.
Proof.
  induction a as [|c a IH]; [reflexivity|].
  cbn [append every]. now rewrite IH, andb_assoc.
Qed.

Lemma length_append_nat (a b : string) :
  String.length (a ++ b) = (String.length a + String.length b)%nat.
Proof. induction a as [|c a IH]; cbn; [reflexivity | now rewrite IH]. Qed.

End ValidatorFacts.

Section ValidatorExtras.

Import ValidatorSpec.

(** X1.  [validate_password] accepts a password exactly when it has 8
    characters or more, among them an upper-case letter, a lower-case
    letter and a digit. *)
Theorem validate_password_accepts (password : string) :
  Validators.valid (Validators.validate_password password) = true
  <-> (8 <= String.length password)%nat
      /\ some Re.upper password = true
      /\ some Re.lower password = true
      /\ some Re.digit password = true.
Proof.
  unfold Validators.validate_password. cbn [Validators.valid].
  rewrite !length_app, !when_length, !search_one, Nat.eqb_eq.
  destruct (String.length password <? 8)%nat eqn:L;
    [apply Nat.ltb_lt in L | apply Nat.ltb_ge in L];
    destruct (some Re.upper password), (some Re.lower password),
      (some Re.digit password); cbn [negb]; split;
    try (intros H; lia); try (intros (H1 & H2 & H3 & H4); lia || discriminate);
    intros _; repeat split; assumption.
Qed.

(** X2.  [validate_username] accepts a name exactly when it has 3 to 80
    characters, begins with a letter, and consists of letters, digits,
    underscores and hyphens up to its end or up to one final newline. *)
Theorem validate_username_accepts (username : string) :
  Validators.valid (Validators.validate_username username) = true
  <-> (3 <= String.length username <= 80)%nat
      /\ starts_with Re.letter username = true
      /\ exists body rest : string,
           username = body ++ rest
           /\ every Re.username_char body = true
           /\ end_of_text rest.
Proof.
  unfold Validators.validate_username. cbn [Validators.valid].
  rewrite !length_app, !when_length, matches_one, Nat.eqb_eq.
  cbn [Re.matches Re.plus].
  destruct (Re.rep Re.username_char 1 None
              (fun s => Re.at_end s && true) username) eqn:R.
  - apply rep_unbounded in R. destruct R as (body & rest & E & _ & Ev & K).
    rewrite andb_true_r in K. apply at_end_spec in K.
    destruct (String.length username <? 3)%nat eqn:L3;
      [apply Nat.ltb_lt in L3 | apply Nat.ltb_ge in L3];
      destruct (80 <? String.length username)%nat eqn:L80;
      [apply Nat.ltb_lt in L80 | apply Nat.ltb_ge in L80
      |apply Nat.ltb_lt in L80 | apply Nat.ltb_ge in L80];
      destruct (starts_with Re.letter username); cbn [negb]; split;
      try (intros H; lia);
      try (intros ((H1 & H2) & H3 & _); lia || discriminate).
    intros _. repeat split; try assumption. now exists body, rest.
  - split.
    + destruct (String.length username <? 3)%nat,
        (80 <? String.length username)%nat,
        (starts_with Re.letter username); cbn; lia.
    + intros (_ & S & body & rest & E & Ev & K). exfalso.
      assert (X : Re.rep Re.username_char 1 None
                    (fun s => Re.at_end s && true) username = true).
      { apply rep_unbounded. exists body, rest. repeat split; try assumption.
        - destruct body as [|c body]; [|cbn; lia].
          cbn [append] in E. subst rest. exfalso.
          destruct K as [->| ->]; [discriminate S|].
          cbn in S. discriminate S.
        - rewrite andb_true_r. now apply at_end_spec. }
      congruence.
Qed.

(** X3.  [validate_email] accepts exactly the texts [local@domain.tld], with or
    without one final newline: a local part and a domain that are not
    empty, each of its own characters, and a last label of two letters or
    more. *)
Theorem validate_email_accepts (email : string) :
  Validators.validate_email email = true
  <-> exists local domain tld rest : string,
        email = local ++ "@" ++ domain ++ "." ++ tld ++ rest
        /\ (1 <= String.length local)%nat
        /\ every Re.local_char local = true
        /\ (1 <= String.length domain)%nat
        /\ every Re.domain_char domain = true
        /\ (2 <= String.length tld)%nat
        /\ every Re.letter tld = true
        /\ end_of_text rest.
Proof.
  unfold Validators.validate_email, Validators.email_pattern.
  cbn [Re.matches Re.plus Re.one].
  rewrite rep_unbounded. split.
  - intros (local & r1 & -> & L1 & E1 & K1).
    rewrite rep_one in K1. destruct r1 as [|c1 r1]; [discriminate|].
    apply andb_true_iff in K1. destruct K1 as [C1 K1].
    apply Ascii.eqb_eq in C1. subst c1.
    apply rep_unbounded in K1.
    destruct K1 as (domain & r2 & -> & L2 & E2 & K2).
    rewrite rep_one in K2. destruct r2 as [|c2 r2]; [discriminate|].
    apply andb_true_iff in K2. destruct K2 as [C2 K2].
    apply Ascii.eqb_eq in C2. subst c2.
    apply rep_unbounded in K2.
    destruct K2 as (tld & rest & -> & L3 & E3 & K3).
    rewrite andb_true_r in K3. apply at_end_spec in K3.
    exists local, domain, tld, rest. now repeat split.
  - intros (local & domain & tld & rest & -> & L1 & E1 & L2 & E2 & L3 & E3
            & K).
    exists local, ("@" ++ domain ++ "." ++ tld ++ rest).
    repeat split; try assumption.
    cbn [append]. rewrite rep_one. unfold Re.is_char at 1.
    rewrite Ascii.eqb_refl. cbn [andb].
    apply rep_unbounded. exists domain, ("." ++ tld ++ rest).
    repeat split; try assumption.
    cbn [append]. rewrite rep_one. unfold Re.is_char at 1.
    rewrite Ascii.eqb_refl. cbn [andb].
    apply rep_unbounded. exists tld, rest. repeat split; try assumption.
    rewrite andb_true_r. now apply at_end_spec.
Qed.

End ValidatorExtras.

(** ** Registration, login and the profile *)

Section AuthFacts.

Lemma find_snoc_fresh {A : Type} (test : A -> bool) (rows : list A) (row : A) :
  (forall old, In old rows -> test old = false) -> test row = true ->
  find test (rows ++ [row]) = Some row.
Proof.
  intros H T. induction rows as [|r rows IH]; simpl.
  - now rewrite T.
  - rewrite (H r) by now left. apply IH. intros old Ho. apply H. now right.
Qed.

Lemma load_registration_fields (email_ok : string -> bool)
    (j : UserSchema.json) (v : UserSchema.registration) :
  UserSchema.load_registration email_ok j = Some v ->
  UserSchema.username j = Some (UserSchema.r_username v)
  /\ UserSchema.email j = Some (UserSchema.r_email v)
  /\ UserSchema.password j = Some (UserSchema.r_password v)
  /\ email_ok (UserSchema.r_email v) = true
  /\ UserSchema.is_empty j = false.
Proof.
  unfold UserSchema.load_registration, UserSchema.is_empty.
  destruct (UserSchema.username j) as [u|]; [|discriminate].
  destruct (UserSchema.email j) as [e|]; [|discriminate].
  destruct (UserSchema.password j) as [p|]; [|discriminate].
  destruct (_ && _) eqn:T; [|discriminate].
  intros [= <-]. cbn. repeat split.
  repeat (apply andb_true_iff in T; destruct T as [T ?]). assumption.
Qed.

(** A token issued for a stored user is read back as that user. *)
Lemma get_by_token (d : Db.t) (u : User.t) :
  NoDup (map User.id (Db.users d)) -> In u (Db.users d) ->
  Db.get User.id (Db.users d) (Py.PyStr (Py.str (User.id u))) = Some u.
Proof.
  intros N H. unfold Db.get. rewrite sql_integer_identity.
  now apply (get_int_of_In User.id).
Qed.

End AuthFacts.

Section AuthExtras.

(** X4.  A registration that is answered with 201 can be followed by a login with
    the same email and password: it succeeds, for the user the
    registration returned, given that bcrypt accepts a password against
    its own hash. *)
Theorem registered_user_can_log_in (email_ok : string -> bool)
    (generate_password_hash : string -> string -> string)
    (check_password_hash : string -> string -> bool)
    (salt : string) (j : UserSchema.json) (st : AuthApi.state) :
  (forall s p, check_password_hash (generate_password_hash s p) p = true) ->
  AuthApi.well_formed st ->
  let registered :=
    AuthApi.RegisterResource_post email_ok generate_password_hash salt
      (Some j) st in
  Http.status_code (fst registered) = 201 ->
  exists (u : User.t) (e p : string),
    UserSchema.email j = Some e /\ UserSchema.password j = Some p
    /\ option_map AuthApi.user (Http.data (fst registered)) = Some u
    /\ User.email u = e
    /\ AuthApi.LoginResource_post email_ok check_password_hash
         (Some (UserSchema.mk None (Some e) (Some p) None)) (snd registered)
       = Http.success_response
           (Some (AuthApi.mk_session u
                    (Auth.create_access_token (User.id u))
                    (Py.str (User.id u))))
           "Login successful" 200.
Proof.
  intros B W. cbv zeta. unfold AuthApi.RegisterResource_post.
  destruct (UserSchema.is_empty j); [discriminate|].
  destruct (UserSchema.load_registration email_ok j) as [v|] eqn:L;
    [|discriminate].
  destruct (load_registration_fields _ _ _ L) as (_ & Ee & Ep & Eok & _).
  destruct (AuthApi.first_by_email_or_username _ _ _) as [existing|] eqn:F.
  { destruct (String.eqb _ _); discriminate. }
  destruct (AuthApi.violates_unique _ _); [discriminate|].
  intros _. cbn [fst snd Http.data Http.success_response option_map
                 AuthApi.user].
  set (u := User.mk (Db.next_id User.id (Db.users (AuthApi.db st)))
              (UserSchema.r_username v) (UserSchema.r_email v) false).
  exists u, (UserSchema.r_email v), (UserSchema.r_password v).
  repeat split; try assumption.
  unfold AuthApi.LoginResource_post.
  cbn [UserSchema.is_empty UserSchema.username UserSchema.email
       UserSchema.password UserSchema.full_name UserSchema.load_login].
  rewrite Eok. cbn [AuthApi.db AuthApi.set_users Db.users].
  rewrite (find_snoc_fresh _ _ u).
  - unfold AuthApi.hash_of. cbn [AuthApi.password_hash].
    rewrite (find_snoc_fresh _ _
               (User.id u,
                generate_password_hash salt (UserSchema.r_password v))).
    + cbn [option_map snd]. now rewrite B.
    + intros [k h] Hk. cbn [fst]. apply Z.eqb_neq. intros ->.
      apply (in_map fst) in Hk. rewrite W in Hk. cbn [fst] in Hk.
      now apply (next_id_fresh User.id (Db.users (AuthApi.db st))).
    + cbn [fst]. apply Z.eqb_refl.
  - intros old Ho. apply (first_by_email_or_username_none _ _ _ _ F) in Ho.
    apply orb_false_iff in Ho. now destruct Ho.
  - apply String.eqb_refl.
Qed.

(** X5.  A registration with the email or the username of a stored user is
    answered with 400 and stores nothing. *)
Theorem register_refuses_taken_email_or_username
    (email_ok : string -> bool)
    (generate_password_hash : string -> string -> string)
    (salt : string) (j : UserSchema.json) (v : UserSchema.registration)
    (st : AuthApi.state) (u : User.t) :
  UserSchema.load_registration email_ok j = Some v ->
  In u (Db.users (AuthApi.db st)) ->
  User.email u = UserSchema.r_email v
  \/ User.username u = UserSchema.r_username v ->
  let registered :=
    AuthApi.RegisterResource_post email_ok generate_password_hash salt
      (Some j) st in
  Http.status_code (fst registered) = 400
  /\ Http.data (fst registered) = None
  /\ snd registered = st.
Proof.
  intros L H T. cbv zeta. unfold AuthApi.RegisterResource_post.
  destruct (load_registration_fields _ _ _ L) as (_ & _ & _ & _ & ->).
  rewrite L.
  destruct (AuthApi.first_by_email_or_username _ _ _) as [existing|] eqn:F.
  - now destruct (String.eqb _ _).
  - exfalso. apply (first_by_email_or_username_none _ _ _ _ F) in H.
    apply orb_false_iff in H.
    destruct H as [H1 H2]. apply String.eqb_neq in H1, H2. tauto.
Qed.

End AuthExtras.

Section TokenExtras.

(** X6.  The access token issued for a stored user gives that user's profile,
    primary keys being distinct. *)
Theorem token_reads_own_profile (d : Db.t) (u : User.t) :
  NoDup (map User.id (Db.users d)) -> In u (Db.users d) ->
  AuthApi.UserProfileResource_get (Auth.create_access_token (User.id u)) d
  = Http.success_response (Some u) "Profile retrieved successfully" 200
  /\ Decorators.get_current_user (Auth.create_access_token (User.id u)) d
     = Some u.
Proof.
  intros N H. unfold AuthApi.UserProfileResource_get,
    Decorators.get_current_user, Auth.create_access_token.
  now rewrite (get_by_token d u N H).
Qed.

End TokenExtras.

Section AuthWitnesses.

Lemma registered_user_can_log_in_witness :
  exists (u : User.t) (e p : string),
    Some "carol@example.org" = Some e /\ Some "Passw0rd" = Some p
    /\ option_map AuthApi.user
         (Http.data
            (fst (AuthApi.RegisterResource_post (fun _ => true)
                    (fun _ p => p) "salt"
                    (Some (UserSchema.mk (Some "carol")
                             (Some "carol@example.org") (Some "Passw0rd")
                             None))
                    (AuthApi.mk_state Db.empty []))))
       = Some u
    /\ User.email u = e
    /\ AuthApi.LoginResource_post (fun _ => true) String.eqb
         (Some (UserSchema.mk None (Some e) (Some p) None))
         (snd (AuthApi.RegisterResource_post (fun _ => true)
                 (fun _ p => p) "salt"
                 (Some (UserSchema.mk (Some "carol")
                          (Some "carol@example.org") (Some "Passw0rd")
                          None))
                 (AuthApi.mk_state Db.empty [])))
       = Http.success_response
           (Some (AuthApi.mk_session u
                    (Auth.create_access_token (User.id u))
                    (Py.str (User.id u))))
           "Login successful" 200.
Proof.
  apply (registered_user_can_log_in (fun _ => true) (fun _ p => p) String.eqb
           "salt"
           (UserSchema.mk (Some "carol") (Some "carol@example.org")
              (Some "Passw0rd") None)
           (AuthApi.mk_state Db.empty [])).
  - intros s p. apply String.eqb_refl.
  - reflexivity.
  - vm_compute. reflexivity.
Defined.

Lemma register_refuses_taken_email_or_username_witness :
  let registered :=
    AuthApi.RegisterResource_post (fun _ => true) (fun _ p => p) "salt"
      (Some (UserSchema.mk (Some "alice2") (Some "alice@example.org")
               (Some "Passw0rd") None))
      (AuthApi.mk_state Sample.db_rated [(1, "a"); (2, "b"); (3, "c")]) in
  Http.status_code (fst registered) = 400
  /\ Http.data (fst registered) = None
  /\ snd registered
     = AuthApi.mk_state Sample.db_rated [(1, "a"); (2, "b"); (3, "c")].
Proof.
  apply (register_refuses_taken_email_or_username (fun _ => true)
           (fun _ p => p) "salt"
           (UserSchema.mk (Some "alice2") (Some "alice@example.org")
              (Some "Passw0rd") None)
           (UserSchema.mk_registration "alice2" "alice@example.org"
              "Passw0rd")
           (AuthApi.mk_state Sample.db_rated [(1, "a"); (2, "b"); (3, "c")])
           Sample.alice).
  - vm_compute. reflexivity.
  - cbn. now left.
  - now left.
Defined.

Lemma token_reads_own_profile_witness :
  AuthApi.UserProfileResource_get
    (Auth.create_access_token (User.id Sample.bob)) Sample.db_rated
  = Http.success_response (Some Sample.bob) "Profile retrieved successfully"
      200
  /\ Decorators.get_current_user
       (Auth.create_access_token (User.id Sample.bob)) Sample.db_rated
     = Some Sample.bob.
Proof.
  apply (token_reads_own_profile Sample.db_rated Sample.bob).
  - cbn. repeat constructor; cbn; intuition discriminate.
  - cbn. auto.
Defined.

End AuthWitnesses.

(** ** Sequences of requests *)

Section SystemFacts.

Import System SystemSpec.

Lemma extends_refl {A : Type} (rows : list A) : extends rows rows.
Proof. exists []. now rewrite app_nil_r. Qed.

Lemma extends_trans {A : Type} (a b c : list A) :
  extends a b -> extends b c -> extends a c.
Proof.
  intros (x & ->) (y & ->). exists (x ++ y)%list. now rewrite app_assoc.
Qed.

Lemma get_In {A : Type} (pk : A -> Z) (rows : list A) (v : Py.value)
    (row : A) :
  Db.get pk rows v = Some row -> In row rows.
Proof.
  unfold Db.get. destruct (Db.sql_integer v); [|discriminate].
  intros F. now apply find_some in F.
Qed.

Lemma not_admin_without_admin (db : Db.t) (v : Py.value) :
  no_admin db -> Categories.not_admin (Db.get User.id (Db.users db) v) = true.
Proof.
  intros N. unfold Categories.not_admin.
  destruct (Db.get User.id (Db.users db) v) as [u|] eqn:G; [|reflexivity].
  apply get_In in G. now rewrite (N u G).
Qed.

Lemma check_permission_without_admin (db : Db.t) (recipe : Recipe.t)
    (sub : string) :
  no_admin db ->
  Ingredients.check_permission db recipe (Py.PyStr sub)
  <> Ingredients.Allowed.
Proof.
  intros N. rewrite check_permission_by_admin_flag.
  destruct (Db.get User.id (Db.users db) (Py.PyStr sub)) as [u|] eqn:G;
    [|discriminate].
  apply get_In in G. now rewrite (N u G).
Qed.

Lemma grows_refl (db : Db.t) : no_admin db -> grows db db.
Proof.
  intros N. repeat split; try assumption; apply extends_refl.
Qed.

Lemma grows_trans (a b c : Db.t) : grows a b -> grows b c -> grows a c.
Proof.
  intros (_ & U1 & C1 & R1 & I1 & T1) (N & U2 & C2 & R2 & I2 & T2).
  repeat split; try assumption; try congruence;
    eapply extends_trans; eassumption.
Qed.

Ltac refused N :=
  match goal with
  | |- context [Categories.not_admin (Db.get User.id (Db.users ?db) ?v)] =>
      rewrite (not_admin_without_admin db v N); now apply grows_refl
  | |- context [Ingredients.check_permission ?db ?r (Py.PyStr ?sub)] =>
      pose proof (check_permission_without_admin db r sub N);
      destruct (Ingredients.check_permission db r (Py.PyStr sub));
      [congruence | now apply grows_refl | now apply grows_refl]
  end.

Lemma step_without_admin (db db' : Db.t) :
  step db db' -> no_admin db -> grows db db'.
Proof.
  intros S N. destruct S.
  - (* register *)
    unfold AuthApi.RegisterResource_post.
    destruct data as [j|]; [|now apply grows_refl].
    destruct (UserSchema.is_empty j); [now apply grows_refl|].
    destruct (UserSchema.load_registration email_ok j) as [v|];
      [|now apply grows_refl].
    destruct (AuthApi.first_by_email_or_username _ _ _) as [existing|].
    { destruct (String.eqb _ _); now apply grows_refl. }
    destruct (AuthApi.violates_unique _ _); [now apply grows_refl|].
    cbn [snd AuthApi.db]. repeat split; try apply extends_refl.
    + intros u Hu. cbn [AuthApi.set_users Db.users] in Hu.
      apply in_app_or in Hu. destruct Hu as [Hu|[<-|[]]]; auto.
    + now exists [User.mk (Db.next_id User.id (Db.users (AuthApi.db st)))
                    (UserSchema.r_username v) (UserSchema.r_email v) false].
  - unfold Categories.CategoryListResource_post, Http.jwt_required.
    destruct auth as [| |sub]; try now apply grows_refl. refused N.
  - unfold CategoryApi.CategoryDetailResource_put, Http.jwt_required.
    destruct auth as [| |sub]; try now apply grows_refl. refused N.
  - unfold Categories.CategoryDetailResource_delete, Http.jwt_required.
    destruct auth as [| |sub]; try now apply grows_refl. refused N.
  - (* a recipe is created *)
    unfold Recipes.RecipeListResource_post, Http.jwt_required.
    destruct auth as [| |sub]; try now apply grows_refl.
    destruct json_data as [j|]; [|now apply grows_refl].
    destruct (RecipeSchema.is_empty j); [now apply grows_refl|].
    destruct (RecipeSchema.load_create j) as [validated|];
      [|now apply grows_refl].
    destruct (Db.get_int Category.id (Db.categories db) _);
      [|now apply grows_refl].
    destruct (Recipes.ensure_unique db _); [|now apply grows_refl].
    destruct (Db.sql_integer (Py.PyStr sub)); [|now apply grows_refl].
    cbn [snd]. repeat split; try apply extends_refl; try assumption.
    eexists. reflexivity.
  - unfold RecipeApi.RecipeDetailResource_put, Http.jwt_required.
    destruct auth as [| |sub]; try now apply grows_refl.
    destruct (Db.fits_integer recipe_id); [|now apply grows_refl].
    cbn [negb].
    destruct (Db.get_int Recipe.id (Db.recipes db) recipe_id);
      [|now apply grows_refl].
    refused N.
  - unfold RecipeApi.RecipeDetailResource_delete, Http.jwt_required.
    destruct auth as [| |sub]; try now apply grows_refl.
    destruct (Db.get_int Recipe.id (Db.recipes db) recipe_id);
      [|now apply grows_refl].
    refused N.
  - unfold IngredientApi.IngredientListResource_post, Http.jwt_required.
    destruct auth as [| |sub]; try now apply grows_refl.
    destruct (Db.get_int Recipe.id (Db.recipes db) recipe_id);
      [|now apply grows_refl].
    refused N.
  - unfold IngredientApi.IngredientDetailResource_put, Http.jwt_required.
    destruct auth as [| |sub]; try now apply grows_refl.
    destruct (Db.get_int Recipe.id (Db.recipes db) recipe_id);
      [|now apply grows_refl].
    refused N.
  - unfold IngredientApi.IngredientDetailResource_delete, Http.jwt_required.
    destruct auth as [| |sub]; try now apply grows_refl.
    destruct (Db.get_int Recipe.id (Db.recipes db) recipe_id);
      [|now apply grows_refl].
    refused N.
  - unfold Ingredients.IngredientBulkCreateResource_post, Http.jwt_required.
    destruct auth as [| |sub]; try now apply grows_refl.
    destruct (Db.get_int Recipe.id (Db.recipes db) recipe_id);
      [|now apply grows_refl].
    refused N.
  - unfold Ingredients.IngredientBulkUpdateResource_put, Http.jwt_required.
    destruct auth as [| |sub]; try now apply grows_refl.
    destruct (Db.get_int Recipe.id (Db.recipes db) recipe_id);
      [|now apply grows_refl].
    refused N.
  - (* a rating is given *)
    unfold Ratings.RatingListResource_post, Http.jwt_required,
      Ratings.post_between.
    destruct auth as [| |sub]; try now apply grows_refl.
    destruct (Db.get_int Recipe.id (Db.recipes db) recipe_id);
      [|now apply grows_refl].
    destruct (Ratings.rating_by_user_and_recipe _ _ _);
      [now apply grows_refl|].
    destruct json_data as [j|]; [|now apply grows_refl].
    destruct (RatingSchema.is_empty j); [now apply grows_refl|].
    destruct (RatingSchema.load_create j) as [[score comment]|];
      [|now apply grows_refl].
    pose proof (insert_rating_cases db score comment (Py.PyStr sub) recipe_id)
      as C.
    destruct (Ratings.insert_rating db score comment (Py.PyStr sub) recipe_id)
      as [[d| |] new_rating]; try now apply grows_refl.
    destruct C as (uid & _ & _ & _ & ->). cbn [snd].
    repeat split; try apply extends_refl; try assumption.
    eexists. reflexivity.
  - rewrite rating_put_no_effect. now apply grows_refl.
  - rewrite rating_delete_no_effect. now apply grows_refl.
Qed.

(** Requests that leave the [ratings] table alone. *)
Ltac untouched :=
  repeat match goal with
         | |- context [match ?x with _ => _ end] => destruct x
         end;
  reflexivity.

Lemma step_is_rating_step (db db' : Db.t) :
  step db db' -> RatingInvariant.step db db'.
Proof.
  intros S. destruct S;
    try (apply RatingInvariant.step_post);
    try (apply RatingInvariant.step_put);
    try (apply RatingInvariant.step_delete).
  - apply RatingInvariant.step_other.
    unfold AuthApi.RegisterResource_post. untouched.
  - apply RatingInvariant.step_other.
    unfold Categories.CategoryListResource_post, Http.jwt_required. untouched.
  - apply RatingInvariant.step_other.
    unfold CategoryApi.CategoryDetailResource_put, Http.jwt_required.
    untouched.
  - apply RatingInvariant.step_other.
    unfold Categories.CategoryDetailResource_delete, Http.jwt_required.
    untouched.
  - apply RatingInvariant.step_other.
    unfold Recipes.RecipeListResource_post, Http.jwt_required. untouched.
  - apply RatingInvariant.step_other.
    unfold RecipeApi.RecipeDetailResource_put, Http.jwt_required. untouched.
  - unfold RecipeApi.RecipeDetailResource_delete, Http.jwt_required.
    destruct auth as [| |sub];
      try (now apply RatingInvariant.step_other).
    destruct (Db.get_int Recipe.id (Db.recipes db) recipe_id);
      [|now apply RatingInvariant.step_other].
    destruct (Ingredients.check_permission _ _ _);
      try (now apply RatingInvariant.step_other).
    apply RatingInvariant.step_recipe_deleted.
  - apply RatingInvariant.step_other.
    unfold IngredientApi.IngredientListResource_post, Http.jwt_required.
    untouched.
  - apply RatingInvariant.step_other.
    unfold IngredientApi.IngredientDetailResource_put, Http.jwt_required.
    untouched.
  - apply RatingInvariant.step_other.
    unfold IngredientApi.IngredientDetailResource_delete, Http.jwt_required.
    untouched.
  - apply RatingInvariant.step_other.
    unfold Ingredients.IngredientBulkCreateResource_post, Http.jwt_required.
    untouched.
  - apply RatingInvariant.step_other.
    unfold Ingredients.IngredientBulkUpdateResource_put, Http.jwt_required.
    untouched.
Qed.

Lemma sample_consistent : consistent db_admin.
Proof.
  repeat split; cbn;
    try (repeat constructor; cbn; intuition (discriminate || lia)).
  - intros r [<-|[]]. cbn. auto.
  - intros i [<-|[]]. cbn. auto.
  - intros r [<-|[]]. cbn. auto.
Qed.

Lemma sample_consistent_no_admin : consistent db_no_admin.
Proof.
  repeat split; cbn;
    try (repeat constructor; cbn; intuition (discriminate || lia)).
  - intros r [<-|[]]. cbn. auto.
  - intros i [<-|[]]. cbn. auto.
  - intros r [<-|[]]. cbn. auto.
Qed.

Lemma sample_no_admin : no_admin db_no_admin.
Proof. intros u [<-|[<-|[]]]; reflexivity. Qed.

End SystemFacts.

Section SystemExtras.

Import System SystemSpec.

Lemma sample_steps (db : Db.t) :
  steps db (after_rating_delete (after_recipe_post db)).
Proof.
  eapply steps_more; [eapply steps_more; [apply steps_none|]|].
  - apply recipe_post.
  - apply rating_delete.
Qed.

(** X7.  Whatever requests are made to a consistent store, primary keys stay
    distinct and so do user names, emails, category names, category slugs
    and recipe slugs. *)
Theorem requests_keep_keys_unique (db db' : Db.t) :
  consistent db -> steps db db' -> unique_ids db' /\ unique_columns db'.
Proof.
  intros C S. destruct (steps_consistent db db' S C) as (I & U & _).
  now split.
Qed.

(** X8.  Whatever requests are made to a consistent store, every recipe keeps
    a stored category and every ingredient and rating a stored recipe. *)
Theorem requests_keep_references (db db' : Db.t) :
  consistent db -> steps db db' -> references_hold db'.
Proof.
  intros C S. now destruct (steps_consistent db db' S C) as (_ & _ & R).
Qed.

(** X9.  No request removes or alters a user, and the users that requests add
    are not administrators. *)
Theorem requests_never_make_an_admin (db db' : Db.t) :
  consistent db -> steps db db' ->
  exists added : list User.t,
    Db.users db' = (Db.users db ++ added)%list
    /\ forall u, In u added -> User.is_admin u = false.
Proof.
  intros C S. destruct (steps_users db db' S C) as (added & E & F).
  exists added. split; [assumption|]. intros u Hu.
  rewrite forallb_forall in F. apply negb_true_iff. now apply F.
Qed.

(** X10.  In a store without administrator no request changes or deletes
    anything: categories and ingredients stay as they are, and users,
    recipes and ratings are only added. *)
Theorem without_admin_requests_only_add (db db' : Db.t) :
  no_admin db -> steps db db' -> grows db db'.
Proof.
  intros N S. induction S as [db|db db' db'' S IH S'].
  - now apply grows_refl.
  - pose proof (IH N) as G. apply (grows_trans db db' db''); [assumption|].
    apply step_without_admin; [assumption | now destruct G].
Qed.

(** X11.  Across the requests of all handlers the ratings keep distinct primary
    keys, one rating per user and recipe, and scores from 1 to 5. *)
Theorem requests_keep_ratings_well_formed (db db' : Db.t) :
  RatingInvariant.well_keyed db ->
  RatingInvariant.scores_valid (Db.ratings db) ->
  steps db db' ->
  RatingInvariant.well_keyed db'
  /\ RatingInvariant.scores_valid (Db.ratings db').
Proof.
  intros W V S. induction S as [db|db db' db'' S IH S'].
  - now split.
  - destruct (IH W V) as [W' V']. apply step_is_rating_step in S'. split.
    + now apply (well_keyed_step db').
    + now apply (scores_valid_step db').
Qed.

(** X12.  One request never edits a rating: a rating stored afterwards was
    stored before or is the one just added, and a rating that is gone went
    with its recipe. *)
Theorem ratings_are_never_edited (db db' : Db.t) :
  consistent db -> step db db' ->
  forall r : Rating.t,
    (In r (Db.ratings db') ->
     In r (Db.ratings db)
     \/ Rating.id r = Db.next_id Rating.id (Db.ratings db))
    /\ (In r (Db.ratings db) ->
        In r (Db.ratings db')
        \/ ~ In (Rating.recipe_id r) (map Recipe.id (Db.recipes db'))).
Proof.
  intros C S r. apply step_effect in S; [|assumption].
  destruct S; cbn [Db.ratings AuthApi.set_users Db.set_categories
                   Db.set_recipes Db.set_ingredients Db.set_ratings
                   Recipes.delete_cascade Db.recipes];
    try (split; intros Hr; now left).
  - (* the recipe is removed *)
    split; intros Hr.
    + left. apply filter_In in Hr. now destruct Hr.
    + destruct (Rating.recipe_id r =? recipe_id) eqn:E.
      * right. apply Z.eqb_eq in E. rewrite E. intros Hin.
        apply in_map_iff in Hin. destruct Hin as (x & Ex & Hx).
        apply In_delete in Hx. now destruct Hx.
      * left. apply filter_In. split; [assumption | now rewrite E].
  - (* a rating is added *)
    split; intros Hr.
    + apply in_app_or in Hr. destruct Hr as [Hr|[<-|[]]]; auto.
    + left. apply in_or_app. now left.
Qed.

End SystemExtras.

Section SystemWitnesses.

Import System SystemSpec.

Lemma requests_keep_keys_unique_witness :
  unique_ids (after_rating_delete (after_recipe_post db_admin))
  /\ unique_columns (after_rating_delete (after_recipe_post db_admin)).
Proof.
  apply (requests_keep_keys_unique db_admin).
  - apply sample_consistent.
  - apply sample_steps.
Defined.

Lemma requests_keep_references_witness :
  references_hold (after_rating_delete (after_recipe_post db_admin)).
Proof.
  apply (requests_keep_references db_admin).
  - apply sample_consistent.
  - apply sample_steps.
Defined.

Lemma requests_never_make_an_admin_witness :
  exists added : list User.t,
    Db.users (after_rating_delete (after_recipe_post db_admin))
    = (Db.users db_admin ++ added)%list
    /\ forall u, In u added -> User.is_admin u = false.
Proof.
  apply (requests_never_make_an_admin db_admin).
  - apply sample_consistent.
  - apply sample_steps.
Defined.

Lemma without_admin_requests_only_add_witness :
  grows db_no_admin (after_rating_delete (after_recipe_post db_no_admin)).
Proof.
  apply (without_admin_requests_only_add db_no_admin).
  - apply sample_no_admin.
  - apply sample_steps.
Defined.

Lemma requests_keep_ratings_well_formed_witness :
  RatingInvariant.well_keyed (after_rating_delete (after_recipe_post db_admin))
  /\ RatingInvariant.scores_valid
       (Db.ratings (after_rating_delete (after_recipe_post db_admin))).
Proof.
  apply (requests_keep_ratings_well_formed db_admin).
  - split; cbn; repeat constructor; cbn; intuition discriminate.
  - cbn. repeat constructor; cbn; lia.
  - apply sample_steps.
Defined.

Lemma ratings_are_never_edited_witness :
  (In Sample.four_stars_by_bob (Db.ratings (after_recipe_post db_admin)) ->
   In Sample.four_stars_by_bob (Db.ratings db_admin)
   \/ Rating.id Sample.four_stars_by_bob
      = Db.next_id Rating.id (Db.ratings db_admin))
  /\ (In Sample.four_stars_by_bob (Db.ratings db_admin) ->
      In Sample.four_stars_by_bob (Db.ratings (after_recipe_post db_admin))
      \/ ~ In (Rating.recipe_id Sample.four_stars_by_bob)
             (map Recipe.id (Db.recipes (after_recipe_post db_admin)))).
Proof.
  apply (ratings_are_never_edited db_admin).
  - apply sample_consistent.
  - apply recipe_post.
Defined.

End SystemWitnesses.

(** ** Recipes: update and delete *)

Section RecipeFacts.

Lemma filter_filter_other {A : Type} (col : A -> Z) (k gone : Z)
    (rows : list A) :
  k <> gone ->
  filter (fun x => col x =? k) (filter (fun x => negb (col x =? gone)) rows)
  = filter (fun x => col x =? k) rows.
Proof.
  intros Hk. induction rows as [|x rows IH]; [reflexivity|].
  cbn [filter]. destruct (col x =? gone) eqn:G; cbn [negb].
  - apply Z.eqb_eq in G. assert (E : (col x =? k) = false) by (apply Z.eqb_neq; lia).
    now rewrite E.
  - cbn [filter]. now rewrite IH.
Qed.

Lemma filter_filter_gone {A : Type} (col : A -> Z) (gone : Z)
    (rows : list A) :
  filter (fun x => col x =? gone) (filter (fun x => negb (col x =? gone)) rows)
  = [].
Proof.
  induction rows as [|x rows IH]; [reflexivity|].
  cbn [filter]. destruct (col x =? gone) eqn:G; cbn [negb]; [assumption|].
  cbn [filter]. now rewrite G.
Qed.

Lemma get_int_delete_other {A : Type} (pk : A -> Z) (k gone : Z)
    (rows : list A) :
  k <> gone ->
  Db.get_int pk (Db.delete pk gone rows) k = Db.get_int pk rows k.
Proof.
  intros Hk. unfold Db.get_int, Db.delete.
  induction rows as [|x rows IH]; [reflexivity|].
  cbn [filter find]. destruct (pk x =? gone) eqn:G; cbn [negb].
  - apply Z.eqb_eq in G. assert (E : (pk x =? k) = false) by (apply Z.eqb_neq; lia).
    now rewrite E.
  - cbn [find]. now rewrite IH.
Qed.

Lemma get_int_delete_gone {A : Type} (pk : A -> Z) (gone : Z)
    (rows : list A) :
  Db.get_int pk (Db.delete pk gone rows) gone = None.
Proof.
  unfold Db.get_int, Db.delete.
  induction rows as [|x rows IH]; [reflexivity|].
  cbn [filter]. destruct (pk x =? gone) eqn:G; cbn [negb]; [assumption|].
  cbn [find]. now rewrite G.
Qed.

Lemma slug_taken_by_other_In (db : Db.t) (recipe_id : Z) (s : string) :
  RecipeApi.slug_taken_by_other db recipe_id s = true ->
  In s (map Recipe.slug (Db.recipes db)).
Proof.
  unfold RecipeApi.slug_taken_by_other. rewrite existsb_exists.
  intros (r & Hr & T). apply andb_true_iff in T. destruct T as [T _].
  apply String.eqb_eq in T. subst s. now apply in_map.
Qed.

(** The loop of the update ends within its bound, on the first attempt
    that no other recipe has. *)
Lemma ensure_unique_among_others_first_free (db : Db.t) (recipe_id : Z)
    (base_slug : string) :
  exists final : string,
    RecipeApi.ensure_unique_among_others db recipe_id base_slug = Some final
    /\ SlugSpec.first_free (RecipeApi.slug_taken_by_other db recipe_id)
         base_slug final.
Proof.
  unfold RecipeApi.ensure_unique_among_others.
  pose proof (unique_loop_run (RecipeApi.slug_taken_by_other db recipe_id)
                base_slug (S (List.length (Db.recipes db))) 0) as R.
  cbn [SlugSpec.attempt Z.of_nat Z.add] in R.
  destruct (Slug.unique_loop (S (List.length (Db.recipes db)))
              (RecipeApi.slug_taken_by_other db recipe_id) base_slug
              base_slug 1) as [s|].
  - destruct R as (j & _ & Hs & Hfree & Hbefore).
    exists s. split; [reflexivity|]. exists j. now repeat split.
  - exfalso.
    set (n := List.length (Db.recipes db)) in *.
    assert (I : incl (map (SlugSpec.attempt base_slug) (seq 0 (S n)))
                  (map Recipe.slug (Db.recipes db))).
    { intros s Hs. apply in_map_iff in Hs. destruct Hs as (i & <- & Hi).
      apply in_seq in Hi. apply (slug_taken_by_other_In db recipe_id).
      apply (R i). lia. }
    apply NoDup_incl_length in I.
    + rewrite !length_map, length_seq in I. subst n. lia.
    + apply Injective_map_NoDup; [apply attempt_injective | apply seq_NoDup].
Qed.

End RecipeFacts.

Section RecipeExtras.

(** X13.  A recipe deletion answered with 200 removes the recipe with its
    ingredients and ratings and leaves every other recipe, every other
    recipe's ingredients and ratings, the users and the categories as they
    were; any other answer leaves the store unchanged. *)
Theorem recipe_delete_takes_its_own_rows (auth : Http.credentials)
    (recipe_id : Z) (db : Db.t) :
  let result := RecipeApi.RecipeDetailResource_delete auth recipe_id db in
  (Http.status_code (fst result) = 200 ->
   Db.get_int Recipe.id (Db.recipes (snd result)) recipe_id = None
   /\ Db.ingredients_of (snd result) recipe_id = []
   /\ Db.ratings_of (snd result) recipe_id = []
   /\ Db.users (snd result) = Db.users db
   /\ Db.categories (snd result) = Db.categories db
   /\ forall k : Z,
        k <> recipe_id ->
        Db.get_int Recipe.id (Db.recipes (snd result)) k
        = Db.get_int Recipe.id (Db.recipes db) k
        /\ Db.ingredients_of (snd result) k = Db.ingredients_of db k
        /\ Db.ratings_of (snd result) k = Db.ratings_of db k)
  /\ (Http.status_code (fst result) <> 200 -> snd result = db).
Proof.
  cbv zeta. unfold RecipeApi.RecipeDetailResource_delete, Http.jwt_required.
  destruct auth as [| |sub]; try (split; [discriminate | reflexivity]).
  destruct (Db.get_int Recipe.id (Db.recipes db) recipe_id) as [recipe|] eqn:G;
    [|split; [discriminate | reflexivity]].
  destruct (Ingredients.check_permission _ _ _);
    try (split; [discriminate | reflexivity]).
  apply get_int_In in G. destruct G as [_ ->].
  cbn [fst snd Http.status_code Http.success_response]. split; [|congruence].
  intros _. unfold Db.ingredients_of, Db.ratings_of.
  cbn [Recipes.delete_cascade Db.recipes Db.ingredients Db.ratings Db.users
       Db.categories].
  repeat split.
  - apply get_int_delete_gone.
  - apply (filter_filter_gone Ingredient.recipe_id).
  - apply (filter_filter_gone Rating.recipe_id).
  - now apply get_int_delete_other.
  - now apply (filter_filter_other Ingredient.recipe_id).
  - now apply (filter_filter_other Rating.recipe_id).
Qed.

(** X14.  An administrator's update of a stored recipe with valid data and a
    known category succeeds when the store can bind the numbers of the
    request (the id of the recipe, the category and the times and servings
    of the body are signed integers of 64 bits).  The recipe keeps its id
    and its owner; it keeps its slug when the request has no title or the
    title it has already, and otherwise gets the first of the slug of the
    new title and its numbered variants that no other recipe has. *)
Theorem recipe_put_keeps_or_renews_slug (sub : string) (user : User.t)
    (recipe_id : Z) (recipe : Recipe.t) (j v : RecipeUpdate.json)
    (db : Db.t) :
  Db.fits_integer recipe_id = true ->
  Db.get_int Recipe.id (Db.recipes db) recipe_id = Some recipe ->
  Db.get User.id (Db.users db) (Py.PyStr sub) = Some user ->
  User.is_admin user = true ->
  RecipeUpdate.is_empty j = false ->
  RecipeUpdate.load j = Some v ->
  (forall c, RecipeUpdate.category_id v = Some c ->
             Db.fits_integer c = true
             /\ Db.get_int Category.id (Db.categories db) c <> None) ->
  RecipeUpdate.integers_fit v = true ->
  exists recipe' : Recipe.t,
    RecipeApi.RecipeDetailResource_put (Http.Token sub) recipe_id (Some j) db
    = (Http.success_response (Some recipe') "Recipe updated successfully" 200,
       Db.set_recipes db (Db.update Recipe.id recipe' (Db.recipes db)))
    /\ Recipe.id recipe' = Recipe.id recipe
    /\ Recipe.user_id recipe' = Recipe.user_id recipe
    /\ match RecipeUpdate.title v with
       | Some new_title =>
           if String.eqb new_title (Recipe.title recipe)
           then Recipe.slug recipe' = Recipe.slug recipe
           else SlugSpec.first_free
                  (RecipeApi.slug_taken_by_other db (Recipe.id recipe))
                  (Slug.derive_slug new_title) (Recipe.slug recipe')
       | None => Recipe.slug recipe' = Recipe.slug recipe
       end.
Proof.
  intros Fr G U A E L K Fi.
  unfold RecipeApi.RecipeDetailResource_put, Http.jwt_required.
  rewrite Fr. cbn [negb].
  rewrite G, check_permission_by_admin_flag, U, A, E, L.
  assert (Fc : RecipeSchema.opt_ok Db.fits_integer
                 (RecipeUpdate.category_id v) = true).
  { destruct (RecipeUpdate.category_id v) as [c|]; [|reflexivity].
    exact (proj1 (K c eq_refl)). }
  rewrite Fc, Fi. cbn [negb].
  assert (Known : match RecipeUpdate.category_id v with
                  | Some c =>
                      match Db.get_int Category.id (Db.categories db) c with
                      | Some _ => true
                      | None => false
                      end
                  | None => true
                  end = true).
  { destruct (RecipeUpdate.category_id v) as [c|]; [|reflexivity].
    destruct (K c eq_refl) as [_ Kc].
    now destruct (Db.get_int Category.id (Db.categories db) c). }
  rewrite Known. cbn [negb].
  unfold RecipeApi.slug_after_update.
  destruct (RecipeUpdate.title v) as [t|].
  - destruct (String.eqb t (Recipe.title recipe)); cbn [negb].
    + eexists. repeat split.
    + destruct (ensure_unique_among_others_first_free db (Recipe.id recipe)
                  (Slug.derive_slug t)) as (final & -> & F).
      eexists. repeat split. exact F.
  - eexists. repeat split.
Qed.

End RecipeExtras.

Section RecipeWitnesses.

Lemma recipe_delete_takes_its_own_rows_witness :
  let result :=
    RecipeApi.RecipeDetailResource_delete (Sample.token_of Sample.root) 1
      Sample.db_rated in
  Db.get_int Recipe.id (Db.recipes (snd result)) 1 = None
  /\ Db.ingredients_of (snd result) 1 = []
  /\ Db.ratings_of (snd result) 1 = []
  /\ Db.users (snd result) = Db.users Sample.db_rated
  /\ Db.categories (snd result) = Db.categories Sample.db_rated
  /\ forall k : Z,
       k <> 1 ->
       Db.get_int Recipe.id (Db.recipes (snd result)) k
       = Db.get_int Recipe.id (Db.recipes Sample.db_rated) k
       /\ Db.ingredients_of (snd result) k
          = Db.ingredients_of Sample.db_rated k
       /\ Db.ratings_of (snd result) k = Db.ratings_of Sample.db_rated k.
Proof.
  apply (proj1 (recipe_delete_takes_its_own_rows
                  (Sample.token_of Sample.root) 1 Sample.db_rated)).
  reflexivity.
Defined.

Lemma recipe_put_keeps_or_renews_slug_witness :
  exists recipe' : Recipe.t,
    RecipeApi.RecipeDetailResource_put (Http.Token "3") 1
      (Some (RecipeUpdate.mk (Some "spicy  chicken") None None None None None
               None None None None))
      Sample.db_rated
    = (Http.success_response (Some recipe') "Recipe updated successfully" 200,
       Db.set_recipes Sample.db_rated
         (Db.update Recipe.id recipe' (Db.recipes Sample.db_rated)))
    /\ Recipe.id recipe' = Recipe.id Sample.draft
    /\ Recipe.user_id recipe' = Recipe.user_id Sample.draft
    /\ SlugSpec.first_free
         (RecipeApi.slug_taken_by_other Sample.db_rated
            (Recipe.id Sample.draft))
         (Slug.derive_slug "spicy  chicken") (Recipe.slug recipe').
Proof.
  apply (recipe_put_keeps_or_renews_slug "3" Sample.root 1 Sample.draft
           (RecipeUpdate.mk (Some "spicy  chicken") None None None None None
              None None None None)
           (RecipeUpdate.mk (Some "spicy  chicken") None None None None None
              None None None None)
           Sample.db_rated).
  - reflexivity.
  - reflexivity.
  - vm_compute. reflexivity.
  - reflexivity.
  - reflexivity.
  - vm_compute. reflexivity.
  - intros c. discriminate.
  - reflexivity.
Defined.

(** An update that asks for 2^63 servings passes the schema, and the
    commit fails: the answer is 500 and the store is as it was. *)
Lemma recipe_put_overflow :
  let j := RecipeUpdate.mk None None None None None (Some (Some (2 ^ 63)))
             None None None None in
  RecipeUpdate.load j = Some j
  /\ Http.status_code
       (fst (RecipeApi.RecipeDetailResource_put (Http.Token "3") 1 (Some j)
               Sample.db_rated)) = 500
  /\ snd (RecipeApi.RecipeDetailResource_put (Http.Token "3") 1 (Some j)
            Sample.db_rated) = Sample.db_rated.
Proof. vm_compute. repeat split; reflexivity. Qed.

End RecipeWitnesses.

(** ** The lists of recipes *)

Section ListFacts.

Import ListSpec.

Lemma In_firstn {A : Type} (n : nat) (rows : list A) (x : A) :
  In x (firstn n rows) -> In x rows.
Proof.
  intros H. rewrite <- (firstn_skipn n rows). apply in_or_app. now left.
Qed.

Lemma In_skipn {A : Type} (n : nat) (rows : list A) (x : A) :
  In x (skipn n rows) -> In x rows.
Proof.
  intros H. rewrite <- (firstn_skipn n rows). apply in_or_app. now right.
Qed.

(** A page holds rows of the query only. *)
Lemma In_paginate {A : Type} (page per_page : Z) (rows : list A) (x : A) :
  In x (Sql.items (Sql.paginate page per_page rows)) -> In x rows.
Proof.
  unfold Sql.paginate. cbn [Sql.items]. intros H.
  apply In_firstn in H. now apply In_skipn in H.
Qed.

(** Every row of the query is on some page. *)
Lemma paginate_covers {A : Type} (per_page : Z) (rows : list A) (x : A) :
  1 <= per_page -> In x rows ->
  exists page : Z,
    1 <= page /\ In x (Sql.items (Sql.paginate page per_page rows)).
Proof.
  intros P H. apply In_nth_error in H. destruct H as (n & Hn).
  set (size := Z.to_nat per_page).
  assert (Hsize : size <> 0%nat) by (subst size; lia).
  exists (Z.of_nat (n / size) + 1). split; [lia|].
  unfold Sql.paginate. cbn [Sql.items].
  destruct (Z.of_nat (n / size) + 1 <? 1) eqn:E1;
    [apply Z.ltb_lt in E1; lia|].
  destruct (per_page <? 1) eqn:E2; [apply Z.ltb_lt in E2; lia|].
  replace (Z.to_nat ((Z.of_nat (n / size) + 1 - 1) * per_page))
    with (size * (n / size))%nat by (subst size; nia).
  fold size. apply (nth_error_In _ (n mod size)).
  rewrite nth_error_firstn.
  pose proof (Nat.mod_upper_bound n size Hsize) as B.
  apply Nat.ltb_lt in B. rewrite B. rewrite nth_error_skipn.
  now rewrite <- Nat.div_mod_eq.
Qed.

Lemma In_newest_first_page (a : RecipeApi.args) (rows : list Recipe.t)
    (r : Recipe.t) :
  In r (Sql.items (RecipeApi.newest_first_page a rows)) -> In r rows.
Proof.
  unfold RecipeApi.newest_first_page. intros H. apply In_paginate in H.
  now apply in_rev.
Qed.

End ListFacts.

Section ListExtras.

Import ListSpec.

(** X15.  The list of a category never shows an unpublished recipe, and the list
    of all recipes and the list of a user show none unless the request has
    the parameter [is_published]. *)
Theorem lists_hide_unpublished_by_default (a : RecipeApi.args) (db : Db.t)
    (user_id category_id : Z) (r : Recipe.t) :
  In r (listed_by_category category_id a db)
  \/ (RecipeApi.is_published a = None
      /\ (In r (listed a db) \/ In r (listed_by_user user_id a db))) ->
  Recipe.is_published r = true.
Proof.
  intros [H|(P & [H|H])].
  - unfold listed_by_category, RecipeApi.RecipesByCategoryResource_get in H.
    destruct (Db.get_int Category.id (Db.categories db) category_id);
      [|destruct H].
    cbn [Http.data Http.success_response RecipeApi.c_recipes] in H.
    apply In_newest_first_page in H.
    do 2 (apply filter_In in H; destruct H as [H _]).
    apply filter_In in H. destruct H as [_ H].
    now apply andb_true_iff in H.
  - unfold listed, RecipeApi.RecipeListResource_get in H.
    cbn [Http.data Http.success_response] in H.
    apply In_newest_first_page in H. unfold RecipeApi.list_query in H.
    apply filter_In in H. destruct H as [H _].
    apply filter_In in H. destruct H as [_ H].
    unfold RecipeApi.published_filter in H. now rewrite P in H.
  - unfold listed_by_user, RecipeApi.RecipesByUserResource_get in H.
    destruct (Db.fits_integer user_id); [|destruct H]. cbn [negb] in H.
    destruct (Db.get_int User.id (Db.users db) user_id); [|destruct H].
    destruct (Db.fits_integer (Sql.offset _ _)); [|destruct H].
    cbn [Http.data Http.success_response RecipeApi.u_recipes] in H.
    apply In_newest_first_page in H.
    apply filter_In in H. destruct H as [_ H].
    unfold RecipeApi.published_filter in H. now rewrite P in H.
Qed.

(** X16.  The list of all recipes takes no credentials, and with
    [is_published=false] its pages show every unpublished recipe of the
    store. *)
Theorem unpublished_recipes_are_listed_to_anyone (db : Db.t) (r : Recipe.t) :
  In r (Db.recipes db) -> Recipe.is_published r = false ->
  exists page : Z, In r (listed (query page (Some "false")) db).
Proof.
  intros H P.
  assert (Q : In r (List.rev
                      (RecipeApi.list_query (query 1 (Some "false")) db))).
  { apply in_rev. rewrite rev_involutive. unfold RecipeApi.list_query, query.
    cbn [RecipeApi.search RecipeApi.is_published RecipeApi.user_id
         RecipeApi.difficulty RecipeApi.category_id RecipeApi.search_filter
         RecipeApi.equals_filter RecipeApi.difficulty_filter
         RecipeApi.nonempty RecipeApi.nonzero].
    repeat (apply filter_In; split; [|reflexivity]).
    apply filter_In. split.
    - repeat (apply filter_In; split; [|reflexivity]). assumption.
    - change (RecipeApi.published_filter (Some "false") r)
        with (negb (Recipe.is_published r)).
      now rewrite P. }
  destruct (paginate_covers 10 _ r ltac:(lia) Q) as (page & _ & Hp).
  exists page. exact Hp.
Qed.

End ListExtras.

Section ListWitnesses.

Import ListSpec.

Lemma lists_hide_unpublished_by_default_witness :
  Recipe.is_published pasta = true.
Proof.
  apply (lists_hide_unpublished_by_default (query 1 None) db_two_recipes 2 1
           pasta).
  right. split; [reflexivity|]. left. vm_compute. now left.
Defined.

Lemma unpublished_recipes_are_listed_to_anyone_witness :
  exists page : Z,
    In Sample.draft (listed (query page (Some "false")) db_two_recipes).
Proof.
  apply (unpublished_recipes_are_listed_to_anyone db_two_recipes Sample.draft).
  - cbn. now left.
  - reflexivity.
Defined.

End ListWitnesses.

(** ** The search by title and by name *)

Section LikeFacts.

Import ListSpec ValidatorSpec.

Lemma like_percent_unfold (rest value : string) :
  Sql.like (String "%" rest) value
  = Sql.like rest value
    || match value with
       | EmptyString => false
       | String _ value' => Sql.like (String "%" rest) value'
       end.
Proof. destruct value; reflexivity. Qed.

Lemma like_percent (rest value : string) :
  Sql.like (String "%" rest) value = true
  <-> exists pre suf : string,
        value = pre ++ suf /\ Sql.like rest suf = true.
Proof.
  induction value as [|c value IH]; rewrite like_percent_unfold.
  - rewrite orb_false_r. split.
    + intros H. now exists "", "".
    + intros (pre & suf & E & H). destruct pre; [|discriminate].
      cbn in E. now subst suf.
  - rewrite orb_true_iff, IH. split.
    + intros [H|(pre & suf & -> & H)].
      * now exists "", (String c value).
      * now exists (String c pre), suf.
    + intros (pre & suf & E & H). destruct pre as [|c' pre].
      * left. cbn in E. now subst suf.
      * right. cbn [append] in E. injection E as -> ->. now exists pre, suf.
Qed.

Lemma like_literal (c : ascii) (rest value : string) :
  is_wildcard c = false ->
  Sql.like (String c rest) value
  = match value with
    | EmptyString => false
    | String c' value' => Ascii.eqb c' c && Sql.like rest value'
    end.
Proof.
  unfold is_wildcard. intros W. apply orb_false_iff in W.
  destruct W as [W1 W2]. cbn [Sql.like]. rewrite W1, W2. reflexivity.
Qed.

Lemma like_prefix (p rest : string) :
  some is_wildcard p = false ->
  forall value : string,
    Sql.like (p ++ rest) value = true
    <-> exists suf : string, value = p ++ suf /\ Sql.like rest suf = true.
Proof.
  induction p as [|c p IH]; intros W value.
  - cbn [append]. split.
    + intros H. now exists value.
    + now intros (suf & -> & H).
  - cbn [some] in W. apply orb_false_iff in W. destruct W as [Wc Wp].
    cbn [append]. rewrite (like_literal c _ _ Wc).
    destruct value as [|c' value].
    + split; [discriminate | intros (suf & E & _); discriminate].
    + rewrite andb_true_iff, Ascii.eqb_eq, (IH Wp). split.
      * intros (-> & suf & -> & H). now exists suf.
      * intros (suf & E & H). injection E as -> ->. split; [reflexivity|].
        now exists suf.
Qed.

Lemma like_any_rest (value : string) : Sql.like "%" value = true.
Proof.
  apply like_percent. exists value, "". split; [|reflexivity].
  induction value as [|c value IH]; cbn; [reflexivity | now rewrite <- IH].
Qed.

Lemma lower_append (a b : string) :
  Sql.lower (a ++ b) = Sql.lower a ++ Sql.lower b.
Proof.
  unfold Sql.lower. induction a as [|c a IH]; [reflexivity|].
  cbn [append Py.map_chars]. now rewrite IH.
Qed.

Lemma lower_char_wildcard (c : ascii) :
  is_wildcard (Sql.lower_char c) = is_wildcard c.
Proof.
  destruct c as [[] [] [] [] [] [] [] []]; vm_compute; reflexivity.
Qed.

Lemma lower_wildcards (s : string) :
  some is_wildcard (Sql.lower s) = some is_wildcard s.
Proof.
  unfold Sql.lower. induction s as [|c s IH]; [reflexivity|].
  cbn [Py.map_chars some]. now rewrite lower_char_wildcard, IH.
Qed.

End LikeFacts.

Section LikeExtras.

Import ListSpec ValidatorSpec.

(** X17.  A search text without [%] and [_] finds a title or a name exactly
    when the text occurs in it, letters A to Z compared without regard to
    case. *)
Theorem search_finds_the_text_ignoring_case (column text : string) :
  some is_wildcard text = false ->
  Sql.ilike_contains column text = true
  <-> exists pre post : string,
        Sql.lower column = pre ++ Sql.lower text ++ post.
Proof.
  intros W. unfold Sql.ilike_contains.
  rewrite lower_append. change (Sql.lower "%") with "%".
  cbn [append]. rewrite lower_append. change (Sql.lower "%") with "%".
  rewrite like_percent.
  assert (W' : some is_wildcard (Sql.lower text) = false)
    by now rewrite lower_wildcards.
  split.
  - intros (pre & suf & E & H).
    apply (like_prefix _ _ W') in H. destruct H as (post & -> & _).
    now exists pre, post.
  - intros (pre & post & E). exists pre, (Sql.lower text ++ post).
    split; [assumption|]. apply (like_prefix _ _ W').
    exists post. split; [reflexivity | apply like_any_rest].
Qed.

End LikeExtras.

Section LikeWitnesses.

Import ListSpec ValidatorSpec.

Lemma search_finds_the_text_ignoring_case_witness :
  Sql.ilike_contains "Spicy Chicken" "CHICK" = true
  <-> exists pre post : string,
        Sql.lower "Spicy Chicken" = pre ++ Sql.lower "CHICK" ++ post.
Proof.
  apply (search_finds_the_text_ignoring_case "Spicy Chicken" "CHICK").
  reflexivity.
Defined.

End LikeWitnesses.

(** ** Ingredients *)

Section IngredientFacts.

Import IngredientSpec.

Lemma insert_by_order_permutation (x : Ingredient.t)
    (sorted : list Ingredient.t) :
  Permutation (RecipeSchema.insert_by_order x sorted) (x :: sorted).
Proof.
  induction sorted as [|y rest IH]; cbn [RecipeSchema.insert_by_order].
  - reflexivity.
  - destruct (Ingredient.order x <? Ingredient.order y); [reflexivity|].
    rewrite IH. apply perm_swap.
Qed.

Lemma insert_by_order_sorted (x : Ingredient.t) (sorted : list Ingredient.t) :
  StronglySorted by_order sorted ->
  StronglySorted by_order (RecipeSchema.insert_by_order x sorted).
Proof.
  induction 1 as [|y rest S IH F]; cbn [RecipeSchema.insert_by_order].
  - constructor; constructor.
  - destruct (Ingredient.order x <? Ingredient.order y) eqn:L.
    + apply Z.ltb_lt in L. constructor.
      * now constructor.
      * constructor; [unfold by_order; lia|].
        eapply Forall_impl; [|exact F]. unfold by_order. intros z Hz. lia.
    + apply Z.ltb_ge in L. constructor; [assumption|].
      apply (Permutation_Forall (x := x :: rest)).
      * symmetry. apply insert_by_order_permutation.
      * constructor; [exact L | exact F].
Qed.

Lemma order_by_order_run (rows : list Ingredient.t) :
  forall sorted : list Ingredient.t,
    StronglySorted by_order sorted ->
    StronglySorted by_order
      (fold_left (fun sorted x => RecipeSchema.insert_by_order x sorted) rows
         sorted)
    /\ Permutation
         (fold_left (fun sorted x => RecipeSchema.insert_by_order x sorted)
            rows sorted)
         (sorted ++ rows).
Proof.
  induction rows as [|x rows IH]; intros sorted S; cbn [fold_left].
  - split; [assumption | now rewrite app_nil_r].
  - destruct (IH (RecipeSchema.insert_by_order x sorted)
                (insert_by_order_sorted x sorted S)) as [S' P].
    split; [assumption|]. rewrite P, insert_by_order_permutation.
    cbn [app]. apply Permutation_middle.
Qed.

Lemma filter_app_none {A : Type} (test : A -> bool) (rows news : list A) :
  (forall x, In x news -> test x = false) ->
  filter test (rows ++ news) = filter test rows.
Proof.
  intros H. rewrite filter_app.
  assert (E : filter test news = []).
  { induction news as [|x news IH]; [reflexivity|].
    cbn [filter]. rewrite (H x) by now left.
    apply IH. intros y Hy. apply H. now right. }
  now rewrite E, app_nil_r.
Qed.

Lemma filter_filter_implied {A : Type} (p q : A -> bool) (rows : list A) :
  (forall x, In x rows -> p x = true -> q x = true) ->
  filter p (filter q rows) = filter p rows.
Proof.
  induction rows as [|x rows IH]; intros H; [reflexivity|].
  cbn [filter]. destruct (q x) eqn:Q.
  - cbn [filter]. rewrite IH; [reflexivity|].
    intros y Hy. apply H. now right.
  - destruct (p x) eqn:P.
    + rewrite (H x) in Q; [discriminate | now left | assumption].
    + apply IH. intros y Hy. apply H. now right.
Qed.

(** Replacing a row of one recipe by a row of the same recipe leaves the
    rows of another recipe as they are. *)
Lemma ingredients_of_update (rows : list Ingredient.t)
    (old new : Ingredient.t) (k : Z) :
  NoDup (map Ingredient.id rows) -> In old rows ->
  Ingredient.id new = Ingredient.id old ->
  Ingredient.recipe_id new = Ingredient.recipe_id old ->
  Ingredient.recipe_id old <> k ->
  filter (fun i => Ingredient.recipe_id i =? k)
    (Db.update Ingredient.id new rows)
  = filter (fun i => Ingredient.recipe_id i =? k) rows.
Proof.
  intros N H Eid Erec Hk.
  destruct (update_in_place Ingredient.id rows old new N H Eid)
    as (before & after & -> & ->).
  rewrite !filter_app. cbn [filter]. rewrite Erec.
  apply Z.eqb_neq in Hk. now rewrite Hk.
Qed.

Lemma ingredient_by_id_and_recipe_found (rows : list Ingredient.t)
    (ident : Py.value) (recipe_id : Z) (i : Ingredient.t) :
  Ingredients.ingredient_by_id_and_recipe rows ident recipe_id = Some i ->
  In i rows /\ Ingredient.recipe_id i = recipe_id.
Proof.
  unfold Ingredients.ingredient_by_id_and_recipe.
  destruct (Db.sql_integer ident); [|discriminate].
  intros F. apply find_some in F. destruct F as [H T].
  apply andb_true_iff in T. destruct T as [_ T].
  now apply Z.eqb_eq in T.
Qed.

Lemma assign_fields_recipe (i : Ingredient.t) (entry : IngredientSchema.json) :
  Ingredient.id (Ingredients.assign_fields i entry) = Ingredient.id i
  /\ Ingredient.recipe_id (Ingredients.assign_fields i entry)
     = Ingredient.recipe_id i.
Proof. split; reflexivity. Qed.

Lemma update_loop_keeps_others (recipe_id k : Z)
    (entries : list IngredientSchema.json) :
  k <> recipe_id ->
  forall (rows : list Ingredient.t) (updated : list Z),
    NoDup (map Ingredient.id rows) ->
    filter (fun i => Ingredient.recipe_id i =? k)
      (fst (Ingredients.update_loop recipe_id entries rows updated))
    = filter (fun i => Ingredient.recipe_id i =? k) rows.
Proof.
  intros Hk. induction entries as [|entry entries IH]; intros rows updated N;
    [reflexivity|].
  cbn [Ingredients.update_loop].
  destruct (IngredientSchema.id entry) as [ident|]; [|now apply IH].
  destruct (Ingredients.ingredient_by_id_and_recipe rows ident recipe_id)
    as [i|] eqn:F; [|now apply IH].
  destruct (ingredient_by_id_and_recipe_found _ _ _ _ F) as [H R].
  destruct (assign_fields_recipe i entry) as [Eid Erec].
  rewrite IH.
  - apply (ingredients_of_update rows i); try assumption. congruence.
  - now rewrite (map_update_same Ingredient.id Ingredient.id rows i).
Qed.

Lemma load_items_rows (items : list IngredientSchema.json) :
  forall validated : list IngredientSchema.validated,
    IngredientSchema.load_items items = Some validated ->
    map (fun v => Some (IngredientSchema.v_name v)) validated
    = map IngredientSchema.name items
    /\ map (fun v => Some (IngredientSchema.v_quantity v)) validated
       = map IngredientSchema.quantity items.
Proof.
  induction items as [|j items IH]; intros validated L.
  - injection L as <-. now split.
  - cbn [IngredientSchema.load_items] in L.
    destruct (IngredientSchema.load_item j) as [v|] eqn:Lj; [|discriminate].
    destruct (IngredientSchema.load_items items) as [vs|]; [|discriminate].
    injection L as <-. destruct (IH vs eq_refl) as [En Eq].
    cbn [map]. unfold IngredientSchema.load_item in Lj.
    destruct (IngredientSchema.id j); [discriminate|].
    destruct (IngredientSchema.name j) as [n|]; [|discriminate].
    destruct (IngredientSchema.quantity j) as [q|]; [|discriminate].
    destruct (_ && _); [|discriminate]. injection Lj as <-.
    cbn [map IngredientSchema.v_name IngredientSchema.v_quantity].
    rewrite En, Eq. now split.
Qed.

Lemma build_ingredients_fields (recipe_id : Z)
    (validated : list IngredientSchema.validated) :
  forall pk idx,
    map Ingredient.name
      (Ingredients.build_ingredients recipe_id pk idx validated)
    = map IngredientSchema.v_name validated
    /\ map Ingredient.quantity
         (Ingredients.build_ingredients recipe_id pk idx validated)
       = map IngredientSchema.v_quantity validated.
Proof.
  induction validated as [|v vs IH]; intros pk idx; [now split|].
  destruct (IH (pk + 1) (idx + 1)) as [En Eq].
  cbn [Ingredients.build_ingredients map Ingredient.name Ingredient.quantity].
  rewrite En, Eq. now split.
Qed.

End IngredientFacts.

Section IngredientExtras.

Import IngredientSpec.

(** X18.  The list of a recipe's ingredients holds the ingredients of that
    recipe, each once, in ascending [order], and counts them. *)
Theorem ingredient_list_is_sorted_by_order (recipe_id : Z) (db : Db.t)
    (listing : IngredientApi.listing) :
  Http.data (IngredientApi.IngredientListResource_get recipe_id db)
  = Some listing ->
  Permutation (IngredientApi.ingredients listing)
    (Db.ingredients_of db recipe_id)
  /\ StronglySorted by_order (IngredientApi.ingredients listing)
  /\ IngredientApi.total_ingredients listing
     = Z.of_nat (List.length (Db.ingredients_of db recipe_id)).
Proof.
  unfold IngredientApi.IngredientListResource_get.
  destruct (Db.get_int Recipe.id (Db.recipes db) recipe_id); [|discriminate].
  cbn [Http.data Http.success_response]. intros [= <-].
  cbn [IngredientApi.ingredients IngredientApi.total_ingredients].
  unfold RecipeSchema.order_by_order.
  destruct (order_by_order_run (Db.ingredients_of db recipe_id) []
              (SSorted_nil _)) as [S P].
  cbn [app] in P. repeat split; try assumption.
  f_equal. now apply Permutation_length.
Qed.

(** X19.  A request under the URL of one recipe leaves the ingredients of every
    other recipe as they are, whichever of the five writing handlers it
    goes to, primary keys being distinct. *)
Theorem ingredient_writes_stay_in_their_recipe (recipe_id k : Z)
    (db db' : Db.t) :
  NoDup (map Ingredient.id (Db.ingredients db)) ->
  request recipe_id db db' ->
  k <> recipe_id ->
  Db.ingredients_of db' k = Db.ingredients_of db k.
Proof.
  intros N R Hk. unfold Db.ingredients_of. destruct R.
  - (* one ingredient is added *)
    unfold IngredientApi.IngredientListResource_post, Http.jwt_required.
    destruct auth as [| |sub]; try reflexivity.
    destruct (Db.get_int Recipe.id (Db.recipes db) recipe_id); [|reflexivity].
    destruct (Ingredients.check_permission _ _ _); try reflexivity.
    destruct data as [j|]; [|reflexivity].
    destruct (IngredientApi.is_empty j); [reflexivity|].
    destruct (IngredientSchema.load_item j); [|reflexivity].
    cbn [snd Db.set_ingredients Db.ingredients].
    apply filter_app_none. intros x [<-|[]]. cbn [Ingredient.recipe_id].
    apply Z.eqb_neq. congruence.
  - (* one ingredient is changed *)
    unfold IngredientApi.IngredientDetailResource_put, Http.jwt_required.
    destruct auth as [| |sub]; try reflexivity.
    destruct (Db.get_int Recipe.id (Db.recipes db) recipe_id); [|reflexivity].
    destruct (Ingredients.check_permission _ _ _); try reflexivity.
    destruct (IngredientApi.ingredient_of_recipe db ingredient_id recipe_id)
      as [ingredient|] eqn:F; [|reflexivity].
    destruct data as [j|]; [|reflexivity].
    destruct (IngredientUpdate.is_empty j); [reflexivity|].
    destruct (IngredientUpdate.load j); [|reflexivity].
    cbn [snd Db.set_ingredients Db.ingredients].
    apply find_some in F. destruct F as [H T].
    apply andb_true_iff in T. destruct T as [_ T]. apply Z.eqb_eq in T.
    apply (ingredients_of_update _ ingredient); try assumption;
      try reflexivity.
    congruence.
  - (* one ingredient is deleted *)
    unfold IngredientApi.IngredientDetailResource_delete, Http.jwt_required.
    destruct auth as [| |sub]; try reflexivity.
    destruct (Db.get_int Recipe.id (Db.recipes db) recipe_id); [|reflexivity].
    destruct (Ingredients.check_permission _ _ _); try reflexivity.
    destruct (IngredientApi.ingredient_of_recipe db ingredient_id recipe_id)
      as [ingredient|] eqn:F; [|reflexivity].
    cbn [snd Db.set_ingredients Db.ingredients].
    apply find_some in F. destruct F as [H T].
    apply andb_true_iff in T. destruct T as [_ T]. apply Z.eqb_eq in T.
    unfold Db.delete. apply filter_filter_implied.
    intros x Hx Kx. apply Z.eqb_eq in Kx.
    apply negb_true_iff, Z.eqb_neq. intros E.
    assert (X : x = ingredient)
      by now apply (same_key_same_element Ingredient.id (Db.ingredients db)).
    subst x. congruence.
  - (* ingredients are added *)
    unfold Ingredients.IngredientBulkCreateResource_post, Http.jwt_required.
    destruct auth as [| |sub]; try reflexivity.
    destruct (Db.get_int Recipe.id (Db.recipes db) recipe_id); [|reflexivity].
    destruct (Ingredients.check_permission _ _ _); try reflexivity.
    destruct json_data; try reflexivity;
      (destruct (IngredientSchema.load_bulk_create _) as [validated|];
       [|reflexivity]);
      cbn [snd Db.set_ingredients Db.ingredients];
      apply filter_app_none; intros x Hx;
      apply (build_ingredients_rows recipe_id validated) in Hx;
      apply Z.eqb_neq; congruence.
  - (* ingredients are changed *)
    unfold Ingredients.IngredientBulkUpdateResource_put, Http.jwt_required.
    destruct auth as [| |sub]; try reflexivity.
    destruct (Db.get_int Recipe.id (Db.recipes db) recipe_id); [|reflexivity].
    destruct (Ingredients.check_permission _ _ _); try reflexivity.
    destruct json_data as [| | |entries]; try reflexivity.
    destruct entries as [|e es]; [reflexivity|].
    pose proof (update_loop_keeps_others recipe_id k (e :: es) Hk
                  (Db.ingredients db) [] N) as L.
    destruct (Ingredients.update_loop recipe_id (e :: es) (Db.ingredients db)
                []) as [rows updated].
    exact L.
Qed.

(** X20.  A bulk create answered with 201 has stored one ingredient of the
    recipe for each item of the request, from 1 to 50 of them, after the
    rows there were, with the names and quantities of the items in their
    order; any other answer leaves the store unchanged. *)
Theorem bulk_create_adds_every_item_or_nothing (auth : Http.credentials)
    (recipe_id : Z) (json_data : IngredientSchema.body) (db : Db.t) :
  let result :=
    Ingredients.IngredientBulkCreateResource_post auth recipe_id json_data
      db in
  (Http.status_code (fst result) = 201 ->
   exists (items : list IngredientSchema.json) (added : list Ingredient.t),
     json_data = IngredientSchema.Ingredients items
     /\ (1 <= List.length items <= 50)%nat
     /\ snd result
        = Db.set_ingredients db (Db.ingredients db ++ added)%list
     /\ map (fun i => Some (Ingredient.name i)) added
        = map IngredientSchema.name items
     /\ map (fun i => Some (Ingredient.quantity i)) added
        = map IngredientSchema.quantity items
     /\ forall i, In i added -> Ingredient.recipe_id i = recipe_id)
  /\ (Http.status_code (fst result) <> 201 -> snd result = db).
Proof.
  cbv zeta.
  unfold Ingredients.IngredientBulkCreateResource_post, Http.jwt_required.
  destruct auth as [| |sub]; try (split; [discriminate | reflexivity]).
  destruct (Db.get_int Recipe.id (Db.recipes db) recipe_id);
    [|split; [discriminate | reflexivity]].
  destruct (Ingredients.check_permission _ _ _);
    try (split; [discriminate | reflexivity]).
  destruct json_data as [| | |items];
    try (split; [discriminate | reflexivity]).
  destruct (IngredientSchema.load_bulk_create
              (IngredientSchema.Ingredients items)) as [validated|] eqn:L;
    [|split; [discriminate | reflexivity]].
  cbn [fst snd Http.status_code Http.success_response].
  split; [intros _ | congruence].
  unfold IngredientSchema.load_bulk_create in L.
  destruct ((1 <=? List.length items)%nat && (List.length items <=? 50)%nat)
    eqn:B; [|discriminate].
  apply andb_true_iff in B. destruct B as [B1 B2].
  apply Nat.leb_le in B1, B2.
  destruct (load_items_rows items validated L) as [Ln Lq].
  set (pk := Db.next_id Ingredient.id (Db.ingredients db)).
  destruct (build_ingredients_fields recipe_id validated pk 0) as [Bn Bq].
  exists items, (Ingredients.build_ingredients recipe_id pk 0 validated).
  repeat split; try assumption.
  - rewrite <- Ln, <- (map_map Ingredient.name Some), Bn.
    now rewrite map_map.
  - rewrite <- Lq, <- (map_map Ingredient.quantity Some), Bq.
    now rewrite map_map.
  - intros i Hi. now apply (build_ingredients_rows recipe_id validated pk 0).
Qed.

End IngredientExtras.

Section IngredientWitnesses.

Import IngredientSpec.

Lemma ingredient_list_is_sorted_by_order_witness :
  Permutation
    [Ingredient.mk 3 "water" "2" (Some "l") None 1 2;
     Ingredient.mk 2 "pasta" "500" (Some "g") None 2 2]
    (Db.ingredients_of db_three_ingredients 2)
  /\ StronglySorted by_order
       [Ingredient.mk 3 "water" "2" (Some "l") None 1 2;
        Ingredient.mk 2 "pasta" "500" (Some "g") None 2 2]
  /\ 2 = Z.of_nat (List.length (Db.ingredients_of db_three_ingredients 2)).
Proof.
  apply (ingredient_list_is_sorted_by_order 2 db_three_ingredients
           (IngredientApi.mk_listing 2 "Pasta"
              [Ingredient.mk 3 "water" "2" (Some "l") None 1 2;
               Ingredient.mk 2 "pasta" "500" (Some "g") None 2 2] 2)).
  vm_compute. reflexivity.
Defined.

Lemma ingredient_writes_stay_in_their_recipe_witness :
  Db.ingredients_of
    (snd (IngredientApi.IngredientDetailResource_delete
            (Sample.token_of Sample.root) 2 3 db_three_ingredients)) 1
  = Db.ingredients_of db_three_ingredients 1.
Proof.
  apply (ingredient_writes_stay_in_their_recipe 2 1 db_three_ingredients).
  - cbn. repeat constructor; cbn; intuition lia.
  - apply by_delete.
  - lia.
Defined.

Lemma bulk_create_adds_every_item_or_nothing_witness :
  let result :=
    Ingredients.IngredientBulkCreateResource_post
      (Sample.token_of Sample.root) 1
      (IngredientSchema.Ingredients [Sample.item "flour"; Sample.item "egg"])
      Sample.db_rated in
  exists (items : list IngredientSchema.json) (added : list Ingredient.t),
    IngredientSchema.Ingredients [Sample.item "flour"; Sample.item "egg"]
    = IngredientSchema.Ingredients items
    /\ (1 <= List.length items <= 50)%nat
    /\ snd result
       = Db.set_ingredients Sample.db_rated
           (Db.ingredients Sample.db_rated ++ added)%list
    /\ map (fun i => Some (Ingredient.name i)) added
       = map IngredientSchema.name items
    /\ map (fun i => Some (Ingredient.quantity i)) added
       = map IngredientSchema.quantity items
    /\ forall i, In i added -> Ingredient.recipe_id i = 1.
Proof.
  apply (proj1 (bulk_create_adds_every_item_or_nothing
                  (Sample.token_of Sample.root) 1
                  (IngredientSchema.Ingredients
                     [Sample.item "flour"; Sample.item "egg"])
                  Sample.db_rated)).
  reflexivity.
Defined.

End IngredientWitnesses.

(** ** Categories, pages and what the public lists tell *)

Section PageFacts.

Import ListSpec.

Lemma paginate_bounded {A : Type} (page per_page : Z) (rows : list A) :
  per_page <= 100 -> bounded (Sql.paginate page per_page rows).
Proof.
  intros B. unfold bounded, Sql.paginate.
  cbn [Sql.page Sql.per_page Sql.items].
  destruct (page <? 1) eqn:P; [|apply Z.ltb_ge in P];
    (destruct (per_page <? 1) eqn:Q; [|apply Z.ltb_ge in Q]);
    repeat split; try lia;
    match goal with
    | |- context [firstn ?n ?l] => pose proof (firstn_le_length n l)
    end; lia.
Qed.

Lemma assign_name (category : Category.t) (v : CategorySchema.json)
    (n : string) :
  CategorySchema.name v = Some n ->
  Category.id (CategoryApi.assign category v) = Category.id category
  /\ Category.name (CategoryApi.assign category v) = n
  /\ Category.slug (CategoryApi.assign category v) = Category._generate_slug n.
Proof.
  intros E. unfold CategoryApi.assign. rewrite E.
  now destruct (CategorySchema.description v), (CategorySchema.image v).
Qed.

End PageFacts.

Section PageExtras.

Import ListSpec.

(** X21.  Whatever [page] and [per_page] a request asks for, the page that a list
    of recipes, of ratings or of categories answers with has a number of 1
    or more, a size of 100 at most and no more rows than its size. *)
Theorem list_pages_are_bounded :
  (forall (a : RecipeApi.args) (rows : list Recipe.t),
     bounded (RecipeApi.newest_first_page a rows))
  /\ (forall (page per_page : Z) (rows : list Rating.t),
        bounded (RatingApi.newest_first_page page per_page rows))
  /\ (forall (page per_page : Z) (rows : list Category.t),
        bounded (CategoryApi.page_of page per_page rows)).
Proof.
  split; [|split].
  - intros a rows. apply (paginate_bounded (RecipeApi.page a)). lia.
  - intros page per_page rows. apply (paginate_bounded page). lia.
  - intros page per_page rows.
    apply (paginate_bounded (CategoryApi.clamp_page page)).
    unfold CategoryApi.clamp_per_page.
    destruct (per_page <? 1) eqn:P; cbn [orb]; [lia|].
    destruct (100 <? per_page) eqn:Q; [lia | apply Z.ltb_ge in Q; lia].
Qed.

(** X22.  The lists of a user's recipes and of a user's ratings take no
    credentials and answer with the email address of the user, for every
    stored user, primary keys being distinct, whenever the store can bind
    the id of the user and the OFFSET of the page asked for (both are
    signed integers of 64 bits). *)
Theorem user_lists_disclose_the_email (db : Db.t) (u : User.t)
    (a : RecipeApi.args) (page per_page : Z) :
  NoDup (map User.id (Db.users db)) -> In u (Db.users db) ->
  Db.fits_integer (User.id u) = true ->
  Db.fits_integer
    (Sql.offset (RecipeApi.page a) (Z.min (RecipeApi.per_page a) 100))
  = true ->
  Db.fits_integer (Sql.offset page (Z.min per_page 100)) = true ->
  option_map RecipeApi.u_email
    (Http.data (RecipeApi.RecipesByUserResource_get (User.id u) a db))
  = Some (User.email u)
  /\ option_map RatingApi.email
       (Http.data
          (RatingApi.UserRatingsResource_get (User.id u) page per_page db))
     = Some (User.email u).
Proof.
  intros N H Fu Fa Fp.
  unfold RecipeApi.RecipesByUserResource_get,
    RatingApi.UserRatingsResource_get.
  rewrite Fu, Fa, Fp, (get_int_of_In User.id (Db.users db) u N H).
  now split.
Qed.

(** X23.  An administrator's update that gives a category the name of another
    category, or a name whose slug is the slug of another category, is
    answered with 400 and changes nothing. *)
Theorem category_put_refuses_taken_name_or_slug (sub : string) (user : User.t)
    (category_id : Z) (category other : Category.t)
    (j v : CategorySchema.json) (n : string) (db : Db.t) :
  Db.get User.id (Db.users db) (Py.PyStr sub) = Some user ->
  User.is_admin user = true ->
  Db.get_int Category.id (Db.categories db) category_id = Some category ->
  CategorySchema.is_empty j = false ->
  CategoryApi.load_update j = Some v ->
  CategorySchema.name v = Some n ->
  In other (Db.categories db) ->
  Category.id other <> category_id ->
  Category.name other = n \/ Category.slug other = Category._generate_slug n ->
  let result :=
    CategoryApi.CategoryDetailResource_put (Http.Token sub) category_id
      (Some j) db in
  Http.status_code (fst result) = 400 /\ snd result = db.
Proof.
  intros U A G E L Nv Ho Hid T. cbv zeta.
  unfold CategoryApi.CategoryDetailResource_put, Http.jwt_required.
  rewrite U. cbn [Categories.not_admin]. rewrite A. cbn [negb].
  rewrite G, E, L, Nv.
  destruct (existsb _ (Db.categories db)) eqn:X; [now split|].
  destruct (assign_name category v n Nv) as (Aid & Aname & Aslug).
  apply get_int_In in G. destruct G as [_ Gid].
  assert (V : CategoryApi.violates_unique_on_update db
                (CategoryApi.assign category v) = true).
  { unfold CategoryApi.violates_unique_on_update. apply existsb_exists.
    exists other. split; [assumption|].
    rewrite Aid, Aname, Aslug, Gid.
    apply Z.eqb_neq in Hid. rewrite Hid. cbn [negb andb].
    apply orb_true_iff. destruct T as [T|T]; [left | right];
      now apply String.eqb_eq. }
  rewrite V. now split.
Qed.

(** X24.  The total time a recipe is listed with, when it is not null, is the
    total time of the model; it is null exactly when the recipe has no
    cooking time and a preparation time that is null or 0. *)
Theorem listed_total_time_is_the_models_or_null (obj : Recipe.t) :
  (forall t : Z,
     RecipeSchema.get_total_time obj = Some t ->
     t = Stats.Recipe_total_time obj)
  /\ (RecipeSchema.get_total_time obj = None
      <-> Recipe.cook_time obj = None
          /\ (Recipe.prep_time obj = None \/ Recipe.prep_time obj = Some 0)).
Proof.
  unfold RecipeSchema.get_total_time, Stats.Recipe_total_time.
  destruct (Recipe.prep_time obj) as [p|], (Recipe.cook_time obj) as [c|];
    try destruct (p =? 0) eqn:P; try destruct (c =? 0) eqn:C;
    try apply Z.eqb_eq in P; try apply Z.eqb_eq in C; subst;
    cbn [negb andb]; split;
    try (intros t [= <-]; lia); try (intros t E; discriminate E);
    split; try discriminate; try tauto;
    try (intros [E _]; discriminate E);
    try (intros [_ [E|E]]; try discriminate E; injection E; intros; subst;
         discriminate);
    intros _; split; auto.
Qed.

End PageExtras.

Section PageWitnesses.

Lemma user_lists_disclose_the_email_witness :
  option_map RecipeApi.u_email
    (Http.data
       (RecipeApi.RecipesByUserResource_get (User.id Sample.alice)
          (ListSpec.query 1 None) Sample.db_rated))
  = Some (User.email Sample.alice)
  /\ option_map RatingApi.email
       (Http.data
          (RatingApi.UserRatingsResource_get (User.id Sample.alice) 1 10
             Sample.db_rated))
     = Some (User.email Sample.alice).
Proof.
  apply (user_lists_disclose_the_email Sample.db_rated Sample.alice
           (ListSpec.query 1 None) 1 10).
  - cbn. repeat constructor; cbn; intuition discriminate.
  - cbn. auto.
  - reflexivity.
  - reflexivity.
  - reflexivity.
Defined.

(** At page 10^20 the store cannot bind the OFFSET: both lists answer 500
    and give no email. *)
Lemma user_lists_overflow :
  let a := RecipeApi.mk_args (10 ^ 20) 10 None None None None None in
  Http.status_code
    (RecipeApi.RecipesByUserResource_get (User.id Sample.alice) a
       Sample.db_rated) = 500
  /\ Http.data
       (RecipeApi.RecipesByUserResource_get (User.id Sample.alice) a
          Sample.db_rated) = None
  /\ Http.status_code
       (RatingApi.UserRatingsResource_get (User.id Sample.alice) (10 ^ 20) 10
          Sample.db_rated) = 500
  /\ Http.data
       (RatingApi.UserRatingsResource_get (User.id Sample.alice) (10 ^ 20) 10
          Sample.db_rated) = None.
Proof. vm_compute. repeat split; reflexivity. Qed.

Lemma category_put_refuses_taken_name_or_slug_witness :
  let result :=
    CategoryApi.CategoryDetailResource_put (Http.Token "3") 2
      (Some (CategorySchema.mk (Some "main dishes") None None))
      (Db.set_categories Sample.db_rated
         [Sample.mains; Category.init 2 "Desserts" None]) in
  Http.status_code (fst result) = 400
  /\ snd result
     = Db.set_categories Sample.db_rated
         [Sample.mains; Category.init 2 "Desserts" None].
Proof.
  apply (category_put_refuses_taken_name_or_slug "3" Sample.root 2
           (Category.init 2 "Desserts" None) Sample.mains
           (CategorySchema.mk (Some "main dishes") None None)
           (CategorySchema.mk (Some "main dishes") None None)
           "main dishes"
           (Db.set_categories Sample.db_rated
              [Sample.mains; Category.init 2 "Desserts" None])).
  - vm_compute. reflexivity.
  - reflexivity.
  - reflexivity.
  - reflexivity.
  - vm_compute. reflexivity.
  - reflexivity.
  - cbn. now left.
  - cbn. lia.
  - right. vm_compute. reflexivity.
Defined.

End PageWitnesses.

(** ** From the creation of a recipe to the lists *)

Section CreationFacts.

(** What a creation that answers with a recipe has done. *)
Lemma recipe_post_stored (auth : Http.credentials) (j : RecipeSchema.json)
    (db : Db.t) (r : Recipe.t) :
  Http.data (fst (Recipes.RecipeListResource_post auth (Some j) db)) = Some r ->
  snd (Recipes.RecipeListResource_post auth (Some j) db)
  = Db.set_recipes db (Db.recipes db ++ [r])%list
  /\ Recipe.id r = Db.next_id Recipe.id (Db.recipes db).
Proof.
  unfold Recipes.RecipeListResource_post, Http.jwt_required.
  destruct auth as [| |sub]; try discriminate.
  destruct (RecipeSchema.is_empty j); [discriminate|].
  destruct (RecipeSchema.load_create j) as [validated|]; [|discriminate].
  destruct (Db.get_int Category.id (Db.categories db) _); [|discriminate].
  destruct (Recipes.ensure_unique db _); [|discriminate].
  destruct (Db.sql_integer (Py.PyStr sub)); [|discriminate].
  cbn [fst snd Http.data Http.success_response]. intros [= <-]. now split.
Qed.

End CreationFacts.

Section CreationExtras.

Import ListSpec.

(** X25.  A recipe that has just been created is stored under the id it was
    answered with, and when it is published it is the first row of the
    first page of the list of all recipes. *)
Theorem new_published_recipe_heads_the_list (auth : Http.credentials)
    (j : RecipeSchema.json) (db : Db.t) (r : Recipe.t) :
  Http.data (fst (Recipes.RecipeListResource_post auth (Some j) db)) = Some r ->
  Recipe.is_published r = true ->
  let db' := snd (Recipes.RecipeListResource_post auth (Some j) db) in
  Db.get_int Recipe.id (Db.recipes db') (Recipe.id r) = Some r
  /\ hd_error (listed (query 1 None) db') = Some r.
Proof.
  intros D P. cbv zeta.
  destruct (recipe_post_stored auth j db r D) as [-> Eid].
  cbn [Db.set_recipes Db.recipes]. split.
  - unfold Db.get_int. apply find_snoc_fresh.
    + intros old Ho. apply Z.eqb_neq. intros E.
      apply (next_id_fresh Recipe.id (Db.recipes db)).
      rewrite <- Eid, <- E. now apply in_map.
    + apply Z.eqb_refl.
  - unfold listed, RecipeApi.RecipeListResource_get.
    cbn [Http.data Http.success_response].
    unfold RecipeApi.newest_first_page, RecipeApi.list_query, query.
    cbn [RecipeApi.search RecipeApi.is_published RecipeApi.user_id
         RecipeApi.difficulty RecipeApi.category_id RecipeApi.page
         RecipeApi.per_page RecipeApi.search_filter RecipeApi.equals_filter
         RecipeApi.difficulty_filter RecipeApi.published_filter
         RecipeApi.nonempty RecipeApi.nonzero Db.recipes].
    cbn [Db.set_recipes Db.recipes].
    rewrite !filter_app. cbn [filter]. rewrite P. cbn [filter].
    rewrite rev_app_distr. reflexivity.
Qed.

End CreationExtras.

Section CreationWitnesses.

Import ListSpec.

Lemma new_published_recipe_heads_the_list_witness :
  let db' :=
    snd (Recipes.RecipeListResource_post (Sample.token_of Sample.bob)
           (Some (RecipeSchema.mk (Some "Lentil Soup") None
                    (Some "Simmer the lentils for an hour.") None None None
                    None (Some 1) None (Some true)))
           db_two_recipes) in
  Db.get_int Recipe.id (Db.recipes db') 3
  = Some (Recipe.mk 3 "Lentil Soup" "lentil-soup" None None None None None
            "Simmer the lentils for an hour." None true 2 1)
  /\ hd_error (listed (query 1 None) db')
     = Some (Recipe.mk 3 "Lentil Soup" "lentil-soup" None None None None None
               "Simmer the lentils for an hour." None true 2 1).
Proof.
  apply (new_published_recipe_heads_the_list (Sample.token_of Sample.bob)
           (RecipeSchema.mk (Some "Lentil Soup") None
              (Some "Simmer the lentils for an hour.") None None None None
              (Some 1) None (Some true))
           db_two_recipes
           (Recipe.mk 3 "Lentil Soup" "lentil-soup" None None None None None
              "Simmer the lentils for an hour." None true 2 1)).
  - vm_compute. reflexivity.
  - reflexivity.
Defined.

End CreationWitnesses.
